(** * Tool-calling orchestration: a shallow embedding of the three scripts

    The repository holds three Python scripts under [tool-calling/]:
    - [groq_weather_function_call.py]   (CLI, Groq backend, weather tool),
    - [openai_stock_function_call.py]   (CLI, OpenAI backend, stock tool),
    - [fastmcp_groq_weather_server.py]  (MCP server, Groq backend, weather tool).

    Each one is embedded in a module of its own, named after the file, with
    the functions under their source names.  The collaborators the scripts
    call but do not define (the chat-completion endpoint, the process
    environment, the HTTP client, yfinance) are fields of a [World] record;
    the effects of a run (transport calls, tool executions, network calls,
    printed lines) are collected in an event log. *)

From Stdlib Require Import String Ascii List Bool Arith NArith ZArith Lia.
Import ListNotations.

Local Open Scope string_scope.
Local Open Scope list_scope.

(* ===================================================================== *)
(** * Strings *)
(* ===================================================================== *)

Notation "s1 +++ s2" := (String.append s1 s2)
  (at level 60, right associativity).

(** A Python [str] that becomes part of a JSON document is kept as its
    sequence of UTF-16 code units, each one a pair (high byte, low byte):
    this is the granularity of the [\uXXXX] escapes that [json.dumps]
    writes and [json.loads] reads.  Source text (identifiers, literals,
    the JSON documents themselves) is a [string], one character per code
    point below 256. *)
Definition dquote : ascii := "034"%char.
Definition backslash : ascii := "092"%char.

Definition unit16 : Type := (ascii * ascii)%type.
Definition pystr : Type := list unit16.

Definition unit_of_ascii (c : ascii) : unit16 := (zero, c).

(** A source literal as a Python string. *)
Definition codes (s : string) : pystr :=
  map unit_of_ascii (list_ascii_of_string s).

Definition unit_eqb (a b : unit16) : bool :=
  Ascii.eqb (fst a) (fst b) && Ascii.eqb (snd a) (snd b).

Fixpoint pystr_eqb (a b : pystr) : bool :=
  match a, b with
  | [], [] => true
  | x :: a', y :: b' => unit_eqb x y && pystr_eqb a' b'
  | _, _ => false
  end.

(* ===================================================================== *)
(** * JSON values, [json.dumps] and [json.loads] *)
(* ===================================================================== *)

(** The Python objects that travel through the scripts are the ones
    [json.loads] builds.  A number is kept as the numeral [json.dumps]
    prints for it ([int.__repr__], [float.__repr__]); a [dict] is the list
    of its items in insertion order, keys pairwise distinct. *)
Unset Elimination Schemes.
Inductive json : Type :=
| JNull
| JBool (b : bool)
| JNum (numeral : string)
| JStr (s : pystr)
| JArr (items : list json)
| JObj (members : list (pystr * json)).
Set Elimination Schemes.

Section JsonInduction.
  Variable P : json -> Prop.
  Hypothesis Hnull : P JNull.
  Hypothesis Hbool : forall b, P (JBool b).
  Hypothesis Hnum : forall n, P (JNum n).
  Hypothesis Hstr : forall s, P (JStr s).
  Hypothesis Harr : forall items, Forall P items -> P (JArr items).
  Hypothesis Hobj :
    forall members, Forall (fun kv => P (snd kv)) members -> P (JObj members).

Fixpoint json_ind (v : json) : P v :=
    match v with
    | JNull => Hnull
    | JBool b => Hbool b
    | JNum n => Hnum n
    | JStr s => Hstr s
    | JArr items =>
        Harr items
          ((fix all (l : list json) : Forall P l :=
              match l with
              | [] => Forall_nil _
              | x :: l' => Forall_cons x (json_ind x) (all l')
              end) items)
    | JObj members =>
        Hobj members
          ((fix all (l : list (pystr * json)) : Forall (fun kv => P (snd kv)) l :=
              match l with
              | [] => Forall_nil _
              | kv :: l' => Forall_cons kv (json_ind (snd kv)) (all l')
              end) members)
    end.
End JsonInduction.

(** ** Serialisation: [json.dumps] with its defaults
    ([ensure_ascii=True], separators [", "] and [": "]). *)

Definition hex_digit (n : nat) : ascii :=
  match n with
  | 0 => "0" | 1 => "1" | 2 => "2" | 3 => "3" | 4 => "4" | 5 => "5"
  | 6 => "6" | 7 => "7" | 8 => "8" | 9 => "9" | 10 => "a" | 11 => "b"
  | 12 => "c" | 13 => "d" | 14 => "e" | _ => "f"
  end%char.

(** Two lower-case hexadecimal digits of a byte. *)
Definition hex2 (b : ascii) : string :=
  let n := nat_of_ascii b in
  String (hex_digit (n / 16)) (String (hex_digit (n mod 16)) "").

Definition is_printable (c : ascii) : bool :=
  ((32 <=? nat_of_ascii c) && (nat_of_ascii c <=? 126))%nat.

(** [py_encode_basestring_ascii] on one code unit: everything outside
    [' '..'~'], the quote and the backslash are escaped. *)
Definition escape_unit (u : unit16) : string :=
  let (h, l) := u in
  if Ascii.eqb h zero then
    if Ascii.eqb l dquote then String backslash (String dquote "")
    else if Ascii.eqb l backslash then "\\"
    else if Ascii.eqb l "010" then "\n"
    else if Ascii.eqb l "013" then "\r"
    else if Ascii.eqb l "009" then "\t"
    else if Ascii.eqb l "008" then "\b"
    else if Ascii.eqb l "012" then "\f"
    else if is_printable l then String l ""
    else "\u00" +++ hex2 l
  else "\u" +++ hex2 h +++ hex2 l.

Fixpoint escape_units (s : pystr) : string :=
  match s with
  | [] => ""
  | u :: s' => escape_unit u +++ escape_units s'
  end.

Definition quote (s : pystr) : string :=
  String dquote (escape_units s +++ String dquote "").

Fixpoint json_dumps (v : json) : string :=
  match v with
  | JNull => "null"
  | JBool true => "true"
  | JBool false => "false"
  | JNum n => n
  | JStr s => quote s
  | JArr items => "[" +++ String.concat ", " (map json_dumps items) +++ "]"
  | JObj members =>
      "{" +++
      String.concat ", "
        (map (fun kv => quote (fst kv) +++ ": " +++ json_dumps (snd kv)) members)
      +++ "}"
  end.

(** ** Parsing: [json.loads] with its defaults *)

Definition is_ws (c : ascii) : bool :=
  Ascii.eqb c " " || Ascii.eqb c "009" || Ascii.eqb c "010" || Ascii.eqb c "013".

Fixpoint skip_ws (s : string) : string :=
  match s with
  | String c r => if is_ws c then skip_ws r else s
  | EmptyString => s
  end.

Fixpoint strip_prefix (p s : string) : option string :=
  match p with
  | EmptyString => Some s
  | String a p' =>
      match s with
      | String b s' => if Ascii.eqb a b then strip_prefix p' s' else None
      | EmptyString => None
      end
  end.

Definition hex_value (c : ascii) : option nat :=
  let n := nat_of_ascii c in
  if ((48 <=? n) && (n <=? 57))%nat then Some (n - 48)
  else if ((97 <=? n) && (n <=? 102))%nat then Some (n - 87)
  else if ((65 <=? n) && (n <=? 70))%nat then Some (n - 55)
  else None.

Definition byte_of_hex (a b : ascii) : option ascii :=
  match hex_value a, hex_value b with
  | Some x, Some y => Some (ascii_of_nat (16 * x + y))
  | _, _ => None
  end.

(** The character a one-letter escape stands for. *)
Definition unescape (e : ascii) : option ascii :=
  if Ascii.eqb e dquote then Some dquote
  else if Ascii.eqb e backslash then Some backslash
  else if Ascii.eqb e "/" then Some "/"%char
  else if Ascii.eqb e "b" then Some "008"%char
  else if Ascii.eqb e "f" then Some "012"%char
  else if Ascii.eqb e "n" then Some "010"%char
  else if Ascii.eqb e "r" then Some "013"%char
  else if Ascii.eqb e "t" then Some "009"%char
  else None.

Definition push (u : unit16) (o : option (pystr * string)) :
  option (pystr * string) :=
  match o with
  | Some (s, r) => Some (u :: s, r)
  | None => None
  end.

(** The body of a string literal, after its opening quote, and the text
    that follows the closing quote.  A raw control character is refused
    ([strict=True]). *)
Fixpoint scan_string (s : string) : option (pystr * string) :=
  match s with
  | EmptyString => None
  | String c r =>
      if Ascii.eqb c dquote then Some ([], r)
      else if Ascii.eqb c backslash then
        match r with
        | EmptyString => None
        | String e r1 =>
            if Ascii.eqb e "u" then
              match r1 with
              | String a (String b (String c' (String d r2))) =>
                  match byte_of_hex a b, byte_of_hex c' d with
                  | Some h, Some l => push (h, l) (scan_string r2)
                  | _, _ => None
                  end
              | _ => None
              end
            else
              match unescape e with
              | Some l => push (zero, l) (scan_string r1)
              | None => None
              end
        end
      else if (nat_of_ascii c <? 32)%nat then None
      else push (zero, c) (scan_string r)
  end.

Definition is_digit (c : ascii) : bool :=
  ((48 <=? nat_of_ascii c) && (nat_of_ascii c <=? 57))%nat.

Definition is_num_char (c : ascii) : bool :=
  is_digit c || Ascii.eqb c "-" || Ascii.eqb c "+" || Ascii.eqb c "."
  || Ascii.eqb c "e" || Ascii.eqb c "E".

(** The longest run of numeral characters at the head of the text. *)
Fixpoint span_num (s : string) : string * string :=
  match s with
  | String c r =>
      if is_num_char c then let (t, r') := span_num r in (String c t, r')
      else (EmptyString, s)
  | EmptyString => (EmptyString, EmptyString)
  end.

Fixpoint skip_digits (s : string) : string :=
  match s with
  | String c r => if is_digit c then skip_digits r else s
  | EmptyString => s
  end.

(** The number grammar of the decoder: an optional minus sign, an integer
    part without leading zero, an optional fraction (a dot and digits), an
    optional exponent (e or E, an optional sign, digits).  The three
    checks below read it from the exponent backwards. *)
Definition valid_exp (s : string) : bool :=
  match s with
  | EmptyString => true
  | String e r =>
      if Ascii.eqb e "e" || Ascii.eqb e "E" then
        let r' := match r with
                  | String sg r0 =>
                      if Ascii.eqb sg "-" || Ascii.eqb sg "+" then r0 else r
                  | EmptyString => r
                  end in
        match r' with
        | String d r0 => is_digit d && String.eqb (skip_digits r0) ""
        | EmptyString => false
        end
      else false
  end.

Definition valid_frac (s : string) : bool :=
  match s with
  | String c r =>
      if Ascii.eqb c "." then
        match r with
        | String d r0 => is_digit d && valid_exp (skip_digits r0)
        | EmptyString => false
        end
      else valid_exp s
  | EmptyString => true
  end.

Definition valid_number (t : string) : bool :=
  let body := match t with
              | String c r => if Ascii.eqb c "-" then r else t
              | EmptyString => t
              end in
  match body with
  | String d r =>
      if Ascii.eqb d "0" then valid_frac r
      else is_digit d && valid_frac (skip_digits r)
  | EmptyString => false
  end.

Definition parse_number (s : string) : option (json * string) :=
  let (t, r) := span_num s in
  if valid_number t
  then Some (JNum (if String.eqb t "-0" then "0" else t), r)
  else None.

(** Literals and numbers. *)
Definition parse_atom (s : string) : option (json * string) :=
  match s with
  | EmptyString => None
  | String c r =>
      if is_digit c then parse_number s
      else if Ascii.eqb c "-" then
        match strip_prefix "Infinity" r with
        | Some r' => Some (JNum "-Infinity", r')
        | None => parse_number s
        end
      else
        match strip_prefix "null" s with
        | Some r' => Some (JNull, r')
        | None =>
        match strip_prefix "true" s with
        | Some r' => Some (JBool true, r')
        | None =>
        match strip_prefix "false" s with
        | Some r' => Some (JBool false, r')
        | None =>
        match strip_prefix "NaN" s with
        | Some r' => Some (JNum "NaN", r')
        | None =>
        match strip_prefix "Infinity" s with
        | Some r' => Some (JNum "Infinity", r')
        | None => None
        end end end end end
  end.

(** [d[k] = v] on a dict: the value of an existing key is replaced where it
    stands, a new key goes last. *)
Fixpoint dict_set (k : pystr) (v : json) (d : list (pystr * json)) :
  list (pystr * json) :=
  match d with
  | [] => [(k, v)]
  | (k', v') :: d' =>
      if pystr_eqb k k' then (k', v) :: d' else (k', v') :: dict_set k v d'
  end.

Fixpoint dict_get (k : pystr) (d : list (pystr * json)) : option json :=
  match d with
  | [] => None
  | (k', v) :: d' => if pystr_eqb k k' then Some v else dict_get k d'
  end.

Fixpoint parse_value (fuel : nat) (s : string) : option (json * string) :=
  match fuel with
  | O => None
  | S fuel' =>
      match s with
      | EmptyString => None
      | String c r =>
          if Ascii.eqb c dquote then
            match scan_string r with
            | Some (u, r') => Some (JStr u, r')
            | None => None
            end
          else if Ascii.eqb c "[" then
            match strip_prefix "]" (skip_ws r) with
            | Some r' => Some (JArr [], r')
            | None => parse_items fuel' (skip_ws r) []
            end
          else if Ascii.eqb c "{" then
            match strip_prefix "}" (skip_ws r) with
            | Some r' => Some (JObj [], r')
            | None => parse_members fuel' (skip_ws r) []
            end
          else parse_atom s
      end
  end
with parse_items (fuel : nat) (s : string) (acc : list json) :
  option (json * string) :=
  match fuel with
  | O => None
  | S fuel' =>
      match parse_value fuel' s with
      | None => None
      | Some (v, r) =>
          match skip_ws r with
          | String c r' =>
              if Ascii.eqb c "," then parse_items fuel' (skip_ws r') (acc ++ [v])
              else if Ascii.eqb c "]" then Some (JArr (acc ++ [v]), r')
              else None
          | EmptyString => None
          end
      end
  end
with parse_members (fuel : nat) (s : string) (acc : list (pystr * json)) :
  option (json * string) :=
  match fuel with
  | O => None
  | S fuel' =>
      match strip_prefix (String dquote "") s with
      | None => None
      | Some r0 =>
      match scan_string r0 with
      | None => None
      | Some (k, r1) =>
      match strip_prefix ":" (skip_ws r1) with
      | None => None
      | Some r2 =>
      match parse_value fuel' (skip_ws r2) with
      | None => None
      | Some (v, r3) =>
          match skip_ws r3 with
          | String c r4 =>
              if Ascii.eqb c "," then
                parse_members fuel' (skip_ws r4) (dict_set k v acc)
              else if Ascii.eqb c "}" then Some (JObj (dict_set k v acc), r4)
              else None
          | EmptyString => None
          end
      end end end end
  end.

(** [json.loads]: one value, surrounded by optional white space, and
    nothing after it.  [None] stands for [json.JSONDecodeError]. *)
Definition json_loads (s : string) : option json :=
  match parse_value (2 * String.length s + 2) (skip_ws s) with
  | Some (v, r) =>
      match skip_ws r with
      | EmptyString => Some v
      | String _ _ => None
      end
  | None => None
  end.


(** ** Well-formed values *)

(** The numerals [json.dumps] prints: a number of the grammar other than
    [-0] (which decodes to the integer zero), or one of the three
    non-finite floats. *)
Definition number_token (n : string) : bool :=
  (valid_number n && negb (String.eqb n "-0"))
  || String.eqb n "NaN" || String.eqb n "Infinity" || String.eqb n "-Infinity".

(** ** Numbers

    A [JNum] keeps the numeral of the document, where Python builds an
    [int] or a [float] from it and prints that number when it serialises
    it again: [26.870] comes back as [26.87], [1E2] as [100.0], [1e400] as
    [Infinity].  The numerals below are those Python prints back as they
    were read: the integers of at most 4300 digits, the finite decimals
    without exponent of at most 15 digits in all, at least 0.0001 in size
    when they are not zero, whose fraction ends in no zero unless it is
    [0], and the three non-finite floats.  A statement that gives the
    text of a serialised number read from a document is made for such
    numerals. *)
Fixpoint take_digits (s : string) : string * string :=
  match s with
  | String c r =>
      if is_digit c then let (d, r') := take_digits r in (String c d, r')
      else (EmptyString, s)
  | EmptyString => (EmptyString, EmptyString)
  end.

Fixpoint leading_zeros (s : string) : nat :=
  match s with
  | String c r => if Ascii.eqb c "0" then S (leading_zeros r) else 0
  | EmptyString => 0
  end.

Fixpoint ends_in_zero (s : string) : bool :=
  match s with
  | String c EmptyString => Ascii.eqb c "0"
  | String _ r => ends_in_zero r
  | EmptyString => false
  end.

Definition unsigned (n : string) : string :=
  match n with
  | String c r => if Ascii.eqb c "-" then r else n
  | EmptyString => n
  end.

Definition prints_back (n : string) : bool :=
  number_token n
  && (String.eqb n "NaN" || String.eqb n "Infinity" || String.eqb n "-Infinity"
      || let (i, r) := take_digits (unsigned n) in
         match r with
         | EmptyString => (String.length i <=? 4300)%nat
         | String c f =>
             Ascii.eqb c "."
             && String.eqb (skip_digits f) ""
             && (String.length i + String.length f <=? 15)%nat
             && (String.eqb f "0" || negb (ends_in_zero f))
             && (negb (String.eqb i "0") || String.eqb f "0"
                 || (leading_zeros f <=? 3)%nat)
         end).

(** The keys of a [dict] are pairwise distinct. *)
Fixpoint nodup_keys (ks : list pystr) : bool :=
  match ks with
  | [] => true
  | k :: ks' => negb (existsb (pystr_eqb k) ks') && nodup_keys ks'
  end.

(** The values that stand for Python objects. *)
Fixpoint wf_json (v : json) : bool :=
  match v with
  | JNull | JBool _ | JStr _ => true
  | JNum n => number_token n
  | JArr items => forallb wf_json items
  | JObj members =>
      nodup_keys (map fst members)
      && forallb (fun kv => wf_json (snd kv)) members
  end.

(** The values whose numbers Python prints back as the document wrote
    them. *)
Fixpoint plain (v : json) : bool :=
  match v with
  | JNull | JBool _ | JStr _ => true
  | JNum n => prints_back n
  | JArr items => forallb plain items
  | JObj members => forallb (fun kv => plain (snd kv)) members
  end.

(** The number of decoding steps a value takes. *)
Fixpoint weight (v : json) : nat :=
  match v with
  | JArr items => S (list_sum (map (fun x => S (weight x)) items))
  | JObj members => S (list_sum (map (fun kv => S (weight (snd kv))) members))
  | _ => 1
  end.

(** What may follow a numeral in a document: no numeral character. *)
Definition delimited (rest : string) : bool :=
  match rest with
  | String c _ => negb (is_num_char c)
  | EmptyString => true
  end.

Fixpoint all_num (s : string) : bool :=
  match s with
  | String c r => is_num_char c && all_num r
  | EmptyString => true
  end.

(** Decoding the serialised value gives the value back, whatever follows
    it. *)
Definition decodes (v : json) : Prop :=
  forall fuel rest, weight v <= fuel -> delimited rest = true ->
    parse_value fuel (json_dumps v +++ rest) = Some (v, rest).

(** One [key: value] item as [json.dumps] writes it. *)
Definition member_text (kv : pystr * json) : string :=
  quote (fst kv) +++ ": " +++ json_dumps (snd kv).


(* ===================================================================== *)
(** * Python objects at run time *)
(* ===================================================================== *)

(** The number a numeral denotes, as a mantissa and a power of ten: the
    digits of the integer part and of the fraction, and the exponent less
    the length of the fraction. *)
Fixpoint digits_value (s : string) (acc : N) : N :=
  match s with
  | String c r => digits_value r (10 * acc + N.of_nat (nat_of_ascii c - 48))%N
  | EmptyString => acc
  end.

Definition mantissa_exponent (n : string) : N * Z :=
  let (i, r1) := take_digits (unsigned n) in
  let (f, r2) :=
    match r1 with
    | String c r => if Ascii.eqb c "." then take_digits r else (EmptyString, r1)
    | EmptyString => (EmptyString, r1)
    end in
  let x :=
    match r2 with
    | String _ (String sg r as r') =>
        if Ascii.eqb sg "-" then Z.opp (Z.of_N (digits_value r 0))
        else if Ascii.eqb sg "+" then Z.of_N (digits_value r 0)
        else Z.of_N (digits_value r' 0)
    | _ => 0%Z
    end in
  (digits_value (i +++ f) 0, (x - Z.of_nat (String.length f))%Z).

(** Whether the number [json.loads] builds from a numeral is zero.  An
    integer is zero when its digits are; a float (a numeral with a
    fraction or an exponent) is rounded to the nearest double, and is
    zero when it is at most 2^-1075 in size, half the least positive
    double.  The non-finite floats are not zero. *)
Definition reads_as_zero (n : string) : bool :=
  valid_number n
  && let (m, e) := mantissa_exponent n in
     (m =? 0)%N
     || ((e <? 0)%Z && (m * 2 ^ 1075 <=? 10 ^ Z.to_N (- e))%N).

(** [bool(v)]: what [if not v] tests. *)
Definition py_truthy (v : json) : bool :=
  match v with
  | JNull => false
  | JBool b => b
  | JNum n => negb (reads_as_zero n)
  | JStr s => match s with [] => false | _ :: _ => true end
  | JArr items => match items with [] => false | _ :: _ => true end
  | JObj members => match members with [] => false | _ :: _ => true end
  end.

(** The first character of a string: one code unit, or the two units of a
    surrogate pair. *)
Definition is_high_surrogate (u : unit16) : bool :=
  ((216 <=? nat_of_ascii (fst u)) && (nat_of_ascii (fst u) <=? 219))%nat.

Definition is_low_surrogate (u : unit16) : bool :=
  ((220 <=? nat_of_ascii (fst u)) && (nat_of_ascii (fst u) <=? 223))%nat.

Definition first_char (s : pystr) : option pystr :=
  match s with
  | [] => None
  | [u] => Some [u]
  | u :: v :: _ =>
      if is_high_surrogate u && is_low_surrogate v then Some [u; v]
      else Some [u]
  end.

(** The exceptions the scripts raise or let through. *)
Inductive exn : Type :=
| EnvironmentError (msg : string)
| JSONDecodeError
| TypeError
| KeyError (key : json)
| IndexError
| RequestsJSONDecodeError
| APIError (msg : string)
| ProviderError (msg : pystr)
| UnicodeEncodeError
| AttributeError.

Inductive result (A : Type) : Type :=
| Ret (a : A)
| Raise (e : exn).

Arguments Ret {A} a.
Arguments Raise {A} e.

(* ===================================================================== *)
(** * The chat-completion protocol *)
(* ===================================================================== *)

(** One entry of [message.tool_calls]: [call.id], [call.type],
    [call.function.name], [call.function.arguments]. *)
Record tool_call : Type := {
  call_id : string;
  call_type : string;
  function_name : string;
  function_arguments : string
}.

(** [response.choices[0].message]. *)
Record chat_message : Type := {
  content : option string;
  tool_calls : option (list tool_call)
}.

(** The messages a request carries: the dicts the scripts build, by role. *)
Inductive message : Type :=
| RoleSystem (text : string)
| RoleUser (text : string)
| RoleAssistant (text : option string) (calls : list tool_call)
| RoleTool (tool_call_id : string) (name : option string) (text : string).

(** One entry of [tools]: a function declaration. *)
Record tool_decl : Type := {
  decl_type : string;
  decl_name : string;
  decl_description : string;
  decl_parameters : json
}.

(** The keyword arguments of [client.chat.completions.create]. *)
Record chat_request : Type := {
  model : string;
  messages : list message;
  temperature : string;
  max_tokens : nat;
  tools_arg : option (list tool_decl);
  tool_choice : option string
}.

(* ===================================================================== *)
(** * The world outside the scripts *)
(* ===================================================================== *)

(** What [requests.get] hands back: an exception of the
    [RequestException] family (time-out, connection failure), an exception
    outside that family ([UnicodeEncodeError] for a parameter that cannot
    be encoded, a lone surrogate), or a response.  [error_text] is the
    message of the [HTTPError] that [raise_for_status] builds from the
    status line and the URL. *)
Record response : Type := {
  status_code : nat;
  error_text : pystr;
  text : string
}.

Inductive get_outcome : Type :=
| GetRaised (exc : pystr)
| GetCrashed (e : exn)
| GetResponse (r : response).

(** One row of the frame [ticker.history] returns, by what the two
    expressions the executor evaluates on it give: the numeral of
    [round(float(row["Close"]), 4)] and the text of
    [row.name.isoformat()], or the exception the expression raises (a
    frame without the column, a value that is no number, an index that is
    no date). *)
Record price_row : Type := {
  close_price : result string;
  timestamp : result pystr
}.

Inductive history_outcome : Type :=
| HistoryRaised (exc : pystr)
| HistoryFrame (rows : list price_row).

Record World : Type := {
  (** [os.getenv], after [load_dotenv()]. *)
  getenv : string -> option string;
  (** The chat-completion endpoint: the first choice's message, or the
      client's exception. *)
  chat_completions_create : chat_request -> result chat_message;
  (** [requests.get(url, params=..., timeout=...)]. *)
  requests_get : string -> json -> nat -> get_outcome;
  (** [yf.Ticker(symbol).history(period=...)]. *)
  ticker_history : json -> string -> history_outcome;
  (** [yf.Ticker(symbol).fast_info.get(key, default)]. *)
  fast_info_get : json -> pystr -> pystr -> result (option pystr);
  (** [str(v)] of an object that is no string, as an f-string formats it. *)
  py_str : json -> pystr
}.

(** [f"{v}"]. *)
Definition format_value (w : World) (v : json) : pystr :=
  match v with
  | JStr s => s
  | _ => py_str w v
  end.

(* ===================================================================== *)
(** * Effects *)
(* ===================================================================== *)

(** An argument of [print]. *)
Inductive printable : Type :=
| PStr (s : string)
| PContent (c : option string)
| PMessage (m : chat_message)
| PValue (v : json).

Inductive event : Type :=
| Transport (req : chat_request)
| Execute (call : tool_call) (argument : json)
| HttpGet (url : string) (params : json) (timeout : nat)
| YfHistory (symbol : json) (period : string)
| YfFastInfo (symbol : json) (key : pystr)
| Print (args : list printable).

(** A computation: its outcome and the events it caused, in order. *)
Definition M (A : Type) : Type := (result A * list event)%type.

Definition ret {A : Type} (a : A) : M A := (Ret a, []).

Definition raise {A : Type} (e : exn) : M A := (Raise e, []).

Definition lift {A : Type} (r : result A) : M A := (r, []).

Definition emit (e : event) : M unit := (Ret tt, [e]).

Definition bind {A B : Type} (m : M A) (k : A -> M B) : M B :=
  match m with
  | (Ret a, l) => let (r, l') := k a in (r, l ++ l')
  | (Raise e, l) => (Raise e, l)
  end.

Notation "x <- m ;; k" := (bind m (fun x => k))
  (at level 61, m at next level, right associativity).
Notation "m ;; k" := (bind m (fun _ => k))
  (at level 61, right associativity).

Definition print (args : list printable) : M unit := emit (Print args).

(** The line feed of a Python string literal. *)
Definition nl : string := String "010" "".

(** [json.loads(s)]. *)
Definition loads (s : string) : M json :=
  match json_loads s with
  | Some v => ret v
  | None => raise JSONDecodeError
  end.

(** [obj[key]] for a string key. *)
Definition getitem (obj : json) (key : pystr) : M json :=
  match obj with
  | JObj d =>
      match dict_get key d with
      | Some v => ret v
      | None => raise (KeyError (JStr key))
      end
  | _ => raise TypeError
  end.

(** [obj[0]]. *)
Definition getitem0 (obj : json) : M json :=
  match obj with
  | JArr (x :: _) => ret x
  | JArr [] => raise IndexError
  | JStr s =>
      match first_char s with
      | Some c => ret (JStr c)
      | None => raise IndexError
      end
  | JObj _ => raise (KeyError (JNum "0"))
  | _ => raise TypeError
  end.

(** The call of a function [f] of one parameter [param] with the keyword
    arguments [**args], made for the request [call]: the call binds when
    [args] is a dict whose only key is [param]; the execution of the body
    is recorded. *)
Definition call_with_kwargs (param : pystr) (f : json -> M string)
  (call : tool_call) (args : json) : M string :=
  match args with
  | JObj [(k, v)] =>
      if pystr_eqb k param then emit (Execute call v) ;; f v
      else raise TypeError
  | _ => raise TypeError
  end.

(** [client.chat.completions.create(...)], then [.choices[0].message]. *)
Definition create (w : World) (req : chat_request) : M chat_message :=
  emit (Transport req) ;; lift (chat_completions_create w req).

(** [message.tool_calls or []]. *)
Definition tool_calls_or_empty (m : chat_message) : list tool_call :=
  match tool_calls m with
  | Some l => l
  | None => []
  end.

(** The dict the scripts rebuild from a request for the assistant echo. *)
Definition echo (call : tool_call) : tool_call :=
  {| call_id := call_id call;
     call_type := call_type call;
     function_name := function_name call;
     function_arguments := function_arguments call |}.

(** ** The OpenWeatherMap request

    Lines 69-96 of [groq_weather_function_call.py] and lines 70-92 of
    [fastmcp_groq_weather_server.py] are the same code: the request inside
    [try], the conversion of a [RequestException] into an error payload
    (another exception passes through [except]), then the decoding of the
    body and the selection of the fields, outside [try]. *)

Definition openweathermap_url : string :=
  "https://api.openweathermap.org/data/2.5/weather".

Definition raises_for_status (r : response) : bool :=
  ((400 <=? status_code r) && (status_code r <? 600))%nat.

Definition request_failed (exc : pystr) : string :=
  json_dumps
    (JObj [(codes "error", JStr (codes "OpenWeatherMap request failed: " ++ exc))]).

(** [response.json()]. *)
Definition response_json (r : response) : M json :=
  match json_loads (text r) with
  | Some v => ret v
  | None => raise RequestsJSONDecodeError
  end.

Definition openweathermap_weather (w : World) (location : json)
  (api_key : string) : M string :=
  let params :=
    JObj [(codes "q", location);
          (codes "units", JStr (codes "metric"));
          (codes "appid", JStr (codes api_key))] in
  emit (HttpGet openweathermap_url params 10) ;;
  match requests_get w openweathermap_url params 10 with
  | GetRaised exc => ret (request_failed exc)
  | GetCrashed e => raise e
  | GetResponse r =>
      if raises_for_status r then ret (request_failed (error_text r))
      else
        payload <- response_json r ;;
        temp <- (m <- getitem payload (codes "main") ;; getitem m (codes "temp")) ;;
        feels_like <-
          (m <- getitem payload (codes "main") ;; getitem m (codes "feels_like")) ;;
        humidity <-
          (m <- getitem payload (codes "main") ;; getitem m (codes "humidity")) ;;
        pressure <-
          (m <- getitem payload (codes "main") ;; getitem m (codes "pressure")) ;;
        speed <- (m <- getitem payload (codes "wind") ;; getitem m (codes "speed")) ;;
        description <-
          (l <- getitem payload (codes "weather") ;;
           x <- getitem0 l ;; getitem x (codes "description")) ;;
        icon <-
          (l <- getitem payload (codes "weather") ;;
           x <- getitem0 l ;; getitem x (codes "icon")) ;;
        ret (json_dumps
               (JObj [(codes "location", location);
                      (codes "temperature_c", temp);
                      (codes "feels_like_c", feels_like);
                      (codes "humidity_pct", humidity);
                      (codes "pressure_hpa", pressure);
                      (codes "wind_speed_mps", speed);
                      (codes "description", description);
                      (codes "icon", icon)]))
  end.

(** The parameter schema both weather scripts declare, up to the wording
    of the description. *)
Definition location_schema (description : string) : json :=
  JObj [(codes "type", JStr (codes "object"));
        (codes "properties",
         JObj [(codes "location",
                JObj [(codes "type", JStr (codes "string"));
                      (codes "description", JStr (codes description))])]);
        (codes "required", JArr [JStr (codes "location")])].

(* ===================================================================== *)
(** * [groq_weather_function_call.py] *)
(* ===================================================================== *)

Module groq_weather_function_call.

Definition require_env (w : World) (var_name : string) : M string :=
  match getenv w var_name with
  | Some (String c v) => ret (String c v)
  | _ =>
      raise (EnvironmentError
               ("Missing required environment variable: " +++ var_name +++ ". "
                +++ "Create a .env file or export it in your shell."))
  end.

Definition get_current_weather (w : World) (location : json) : M string :=
  api_key <- require_env w "OPENWEATHER_API_KEY" ;;
  openweathermap_weather w location api_key.

Definition tools : list tool_decl :=
  [ {| decl_type := "function";
       decl_name := "get_current_weather";
       decl_description := "Get the current weather in a given location.";
       decl_parameters :=
         location_schema "The city and optional country (e.g. Bengaluru, IN)." |} ].

Definition initial_messages (question : string) : list message :=
  [ RoleSystem "You are a friendly weather assistant that uses tools when needed.";
    RoleUser question ].

Definition first_request (question : string) : chat_request :=
  {| model := "openai/gpt-oss-20b";
     messages := initial_messages question;
     temperature := "0";
     max_tokens := 300;
     tools_arg := Some tools;
     tool_choice := Some "auto" |}.

Definition follow_up_request (follow_up_messages : list message) : chat_request :=
  {| model := "openai/gpt-oss-20b";
     messages := follow_up_messages;
     temperature := "0.2";
     max_tokens := 400;
     tools_arg := None;
     tool_choice := None |}.

(** The loop [for call in tool_calls], with the list [tool_messages] it
    appends to. *)
Fixpoint tool_loop (w : World) (calls : list tool_call)
  (tool_messages : list message) : M (list message) :=
  match calls with
  | [] => ret tool_messages
  | call :: rest =>
      if negb (String.eqb (function_name call) "get_current_weather") then
        print [PStr ("Skipping unknown tool: " +++ function_name call)] ;;
        tool_loop w rest tool_messages
      else
        args <- loads (function_arguments call) ;;
        print [PStr (nl +++ "Tool call arguments from the model:"); PValue args] ;;
        tool_output <-
          call_with_kwargs (codes "location") (get_current_weather w) call args ;;
        print [PStr "Tool output (JSON):"; PStr tool_output] ;;
        tool_loop w rest
          (tool_messages
           ++ [RoleTool (call_id call) (Some (function_name call)) tool_output])
  end.

Definition call_model_with_tools (w : World) (question : string) : M unit :=
  assistant_message <- create w (first_request question) ;;
  print [PStr (nl +++ "Initial assistant response (should contain a tool call):")] ;;
  print [PMessage assistant_message] ;;
  match tool_calls_or_empty assistant_message with
  | [] =>
      print [PStr "Model did not request a tool. Direct answer:"] ;;
      print [PContent (content assistant_message)]
  | calls =>
      tool_messages <- tool_loop w calls [] ;;
      match tool_messages with
      | [] =>
          print [PStr "No tool output to send back to the model; stopping here."]
      | _ =>
          let follow_up_messages :=
            initial_messages question
            ++ [RoleAssistant (content assistant_message) (map echo calls)]
            ++ tool_messages in
          final_message <- create w (follow_up_request follow_up_messages) ;;
          print [PStr (nl +++ "Final assistant reply:")] ;;
          print [PContent (content final_message)]
      end
  end.

(** [main], for the value [--location] parsed to. *)
Definition main (w : World) (location : string) : M unit :=
  let question := "What is the weather like in " +++ location +++ "?" in
  print [PStr ("Asking the model: " +++ question)] ;;
  call_model_with_tools w question.

(** [client = Groq(api_key=require_env("GROQ_API_KEY"))], run when the
    module is loaded: the key the client is built with. *)
Definition client (w : World) : M string := require_env w "GROQ_API_KEY".

(** [parse_cli_args().location], for the value [--location] has on the
    command line, if the flag is given. *)
Definition parse_cli_args (location_flag : option string) : string :=
  match location_flag with
  | Some location => location
  | None => "Bengaluru, IN"
  end.

(** The file run as a script: the module body, then [main]. *)
Definition script (w : World) (location_flag : option string) : M unit :=
  client w ;;
  main w (parse_cli_args location_flag).

End groq_weather_function_call.

(* ===================================================================== *)
(** * [openai_stock_function_call.py] *)
(* ===================================================================== *)

Module openai_stock_function_call.

Definition require_env (w : World) (var_name : string) : M string :=
  match getenv w var_name with
  | Some (String c v) => ret (String c v)
  | _ =>
      raise (EnvironmentError
               ("Missing required environment variable: " +++ var_name +++ ". "
                +++ "Add it to your .env or export it before running the script."))
  end.

(** [client = OpenAI(api_key=require_env("OPENAI_API_KEY"))]. *)
Definition client (w : World) : M string := require_env w "OPENAI_API_KEY".

Definition error_payload (msg : pystr) : string :=
  json_dumps (JObj [(codes "error", JStr msg)]).

Definition get_current_stock_price (w : World) (stock_symbol : json) : M string :=
  if negb (py_truthy stock_symbol) then
    ret (error_payload (codes "Missing stock_symbol argument."))
  else
    emit (YfHistory stock_symbol "1d") ;;
    match ticker_history w stock_symbol "1d" with
    | HistoryRaised exc =>
        ret (error_payload
               (codes "Unable to fetch data for " ++ format_value w stock_symbol
                ++ codes ": " ++ exc))
    | HistoryFrame rows =>
        match rev rows with
        | [] =>
            ret (error_payload
                   (codes "No pricing data returned for "
                    ++ format_value w stock_symbol ++ codes "."))
        | latest_row :: _ =>
            close <- lift (close_price latest_row) ;;
            emit (YfFastInfo stock_symbol (codes "currency")) ;;
            currency <-
              lift (fast_info_get w stock_symbol (codes "currency") (codes "UNKNOWN")) ;;
            stamp <- lift (timestamp latest_row) ;;
            ret (json_dumps
                   (JObj [(codes "stock_symbol", stock_symbol);
                          (codes "close_price", JNum close);
                          (codes "currency",
                           match currency with
                           | Some c => JStr c
                           | None => JNull
                           end);
                          (codes "timestamp", JStr stamp)]))
        end
    end.

Definition tools : list tool_decl :=
  [ {| decl_type := "function";
       decl_name := "get_current_stock_price";
       decl_description :=
         "Get the most recent close price for a stock ticker using Yahoo Finance.";
       decl_parameters :=
         JObj [(codes "type", JStr (codes "object"));
               (codes "properties",
                JObj [(codes "stock_symbol",
                       JObj [(codes "type", JStr (codes "string"));
                             (codes "description",
                              JStr (codes "Ticker symbol such as TECHM.NS, AAPL, or RELIANCE.NS."))])]);
               (codes "required", JArr [JStr (codes "stock_symbol")])] |} ].

Definition initial_messages (question : string) : list message :=
  [ RoleSystem ("You are an enthusiastic financial assistant. "
                +++ "Use the provided tools to ensure prices are accurate.");
    RoleUser question ].

Definition first_request (question : string) : chat_request :=
  {| model := "gpt-3.5-turbo";
     messages := initial_messages question;
     temperature := "0";
     max_tokens := 300;
     tools_arg := Some tools;
     tool_choice := Some "auto" |}.

Definition follow_up_request (follow_up_messages : list message) : chat_request :=
  {| model := "gpt-3.5-turbo";
     messages := follow_up_messages;
     temperature := "0.2";
     max_tokens := 400;
     tools_arg := None;
     tool_choice := None |}.

(** The loop [for call in tool_calls]. *)
Fixpoint tool_loop (w : World) (calls : list tool_call)
  (tool_messages : list message) : M (list message) :=
  match calls with
  | [] => ret tool_messages
  | call :: rest =>
      if negb (String.eqb (function_name call) "get_current_stock_price") then
        print [PStr ("Skipping unsupported tool call: " +++ function_name call)] ;;
        tool_loop w rest tool_messages
      else
        args <- loads (function_arguments call) ;;
        print [PStr (nl +++ "Tool call arguments:"); PValue args] ;;
        tool_output <-
          call_with_kwargs (codes "stock_symbol") (get_current_stock_price w)
            call args ;;
        print [PStr "Tool output (JSON):"; PStr tool_output] ;;
        tool_loop w rest
          (tool_messages
           ++ [RoleTool (call_id call) (Some (function_name call)) tool_output])
  end.

Definition call_model_with_tools (w : World) (question : string) : M unit :=
  assistant_message <- create w (first_request question) ;;
  print [PStr (nl +++ "Initial assistant response:")] ;;
  print [PMessage assistant_message] ;;
  let calls := tool_calls_or_empty assistant_message in
  tool_messages <- tool_loop w calls [] ;;
  match tool_messages with
  | [] =>
      print [PStr (nl +++ "Model response without tool call:")] ;;
      print [PContent (content assistant_message)]
  | _ =>
      let follow_up_messages :=
        initial_messages question
        ++ [RoleAssistant (content assistant_message) (map echo calls)]
        ++ tool_messages in
      final_message <- create w (follow_up_request follow_up_messages) ;;
      print [PStr (nl +++ "Final assistant reply:")] ;;
      print [PContent (content final_message)]
  end.

(** [main], for the value [--symbol] parsed to. *)
Definition main (w : World) (symbol : string) : M unit :=
  let question := "What is the price of " +++ symbol +++ "?" in
  print [PStr ("Asking the model: " +++ question)] ;;
  call_model_with_tools w question.

(** [parse_cli_args().symbol], for the value [--symbol] has on the command
    line, if the flag is given. *)
Definition parse_cli_args (symbol_flag : option string) : string :=
  match symbol_flag with
  | Some symbol => symbol
  | None => "TECHM.NS"
  end.

(** The file run as a script: the module body, then [main]. *)
Definition script (w : World) (symbol_flag : option string) : M unit :=
  client w ;;
  main w (parse_cli_args symbol_flag).

End openai_stock_function_call.

(* ===================================================================== *)
(** * [fastmcp_groq_weather_server.py] *)
(* ===================================================================== *)

Module fastmcp_groq_weather_server.

Definition require_env (w : World) (var_name : string) : M string :=
  match getenv w var_name with
  | Some (String c v) => ret (String c v)
  | _ =>
      raise (EnvironmentError
               ("Missing required environment variable: " +++ var_name +++ ". "
                +++ "Create a .env file or export it before running the server."))
  end.

(** [client = Groq(api_key=require_env("GROQ_API_KEY"))]. *)
Definition client (w : World) : M string := require_env w "GROQ_API_KEY".

(** The payload returned when no API key is configured. *)
Definition demo_payload (location : json) : json :=
  JObj [(codes "location", location);
        (codes "temperature_c", JNum "24.0");
        (codes "feels_like_c", JNum "25.2");
        (codes "description", JStr (codes "partly cloudy (demo)"));
        (codes "note", JStr (codes "Set OPENWEATHER_API_KEY for real data."))].

Definition get_current_weather (w : World) (location : json) : M string :=
  match getenv w "OPENWEATHER_API_KEY" with
  | Some (String c k) => openweathermap_weather w location (String c k)
  | _ => ret (json_dumps (demo_payload location))
  end.

Definition tool_schema : list tool_decl :=
  [ {| decl_type := "function";
       decl_name := "get_current_weather";
       decl_description := "Get the current weather in a given location";
       decl_parameters :=
         location_schema "City and optional country (e.g. Bengaluru, IN)" |} ].

Definition first_request (query : string) : chat_request :=
  {| model := "openai/gpt-oss-20b";
     messages := [RoleUser query];
     temperature := "0";
     max_tokens := 300;
     tools_arg := Some tool_schema;
     tool_choice := Some "auto" |}.

Definition second_request (second_messages : list message) : chat_request :=
  {| model := "openai/gpt-oss-20b";
     messages := second_messages;
     temperature := "0";
     max_tokens := 300;
     tools_arg := None;
     tool_choice := None |}.

(** [content or "Model did not return any content."]. *)
Definition content_or_placeholder (c : option string) : string :=
  match c with
  | Some (String a s) => String a s
  | _ => "Model did not return any content."
  end.

Definition get_weather_with_groq (w : World) (query : string) : M (option string) :=
  groq_response <- create w (first_request query) ;;
  match tool_calls_or_empty groq_response with
  | [] => ret (Some (content_or_placeholder (content groq_response)))
  | call0 :: _ =>
      args <- loads (function_arguments call0) ;;
      weather_data <-
        call_with_kwargs (codes "location") (get_current_weather w) call0 args ;;
      second_message <-
        create w
          (second_request
             [ RoleUser query;
               RoleAssistant (content groq_response) [echo call0];
               RoleTool (call_id call0) None weather_data ]) ;;
      ret (content second_message)
  end.

Definition get_weather_direct (w : World) (location : json) : M string :=
  get_current_weather w location.

End fastmcp_groq_weather_server.

(* ===================================================================== *)
(** * The three scripts side by side *)
(* ===================================================================== *)

Inductive script : Type :=
| GroqCli
| OpenAICli
| FastMcpServer.

(** The orchestrator of a script, with what it returns to its caller
    ([None] for the two CLI functions). *)
Definition orchestrate (s : script) (w : World) (question : string) :
  M (option string) :=
  match s with
  | GroqCli =>
      groq_weather_function_call.call_model_with_tools w question ;; ret None
  | OpenAICli =>
      openai_stock_function_call.call_model_with_tools w question ;; ret None
  | FastMcpServer => fastmcp_groq_weather_server.get_weather_with_groq w question
  end.

(** The tool executor of a script and the parameter it takes. *)
Definition executor (s : script) (w : World) : json -> M string :=
  match s with
  | GroqCli => groq_weather_function_call.get_current_weather w
  | OpenAICli => openai_stock_function_call.get_current_stock_price w
  | FastMcpServer => fastmcp_groq_weather_server.get_current_weather w
  end.

Definition parameter (s : script) : pystr :=
  match s with
  | OpenAICli => codes "stock_symbol"
  | _ => codes "location"
  end.

(** The Tool Registry of a script: the declarations of round one. *)
Definition registry (s : script) : list tool_decl :=
  match s with
  | GroqCli => groq_weather_function_call.tools
  | OpenAICli => openai_stock_function_call.tools
  | FastMcpServer => fastmcp_groq_weather_server.tool_schema
  end.

Definition declared (s : script) (call : tool_call) : Prop :=
  In (function_name call) (map decl_name (registry s)).

Definition round_one (s : script) (question : string) : chat_request :=
  match s with
  | GroqCli => groq_weather_function_call.first_request question
  | OpenAICli => openai_stock_function_call.first_request question
  | FastMcpServer => fastmcp_groq_weather_server.first_request question
  end.

(** The requests whose arguments a script decodes: the CLI loops take the
    requests that name their tool, the server takes the first request. *)
Definition dispatched (s : script) (call : tool_call) : bool :=
  match s with
  | GroqCli => String.eqb (function_name call) "get_current_weather"
  | OpenAICli => String.eqb (function_name call) "get_current_stock_price"
  | FastMcpServer => true
  end.

Definition considered (s : script) (calls : list tool_call) : list tool_call :=
  match s with
  | FastMcpServer => firstn 1 calls
  | _ => filter (dispatched s) calls
  end.

(** ** Reading the event log *)

Fixpoint transports (l : list event) : list chat_request :=
  match l with
  | [] => []
  | Transport req :: l' => req :: transports l'
  | _ :: l' => transports l'
  end.

Fixpoint executions (l : list event) : list (tool_call * json) :=
  match l with
  | [] => []
  | Execute call v :: l' => (call, v) :: executions l'
  | _ :: l' => executions l'
  end.

(** Outbound calls to the data providers. *)
Fixpoint lookups (l : list event) : list event :=
  match l with
  | [] => []
  | HttpGet u p t :: l' => HttpGet u p t :: lookups l'
  | YfHistory s p :: l' => YfHistory s p :: lookups l'
  | YfFastInfo s k :: l' => YfFastInfo s k :: lookups l'
  | _ :: l' => lookups l'
  end.

Fixpoint printed (l : list event) : list (list printable) :=
  match l with
  | [] => []
  | Print args :: l' => args :: printed l'
  | _ :: l' => printed l'
  end.

(** The tool-result messages of a conversation. *)
Fixpoint tool_results (msgs : list message) : list (string * string) :=
  match msgs with
  | [] => []
  | RoleTool i _ c :: msgs' => (i, c) :: tool_results msgs'
  | _ :: msgs' => tool_results msgs'
  end.

(** ** The loop of the two CLI scripts

    [groq_weather_function_call.tool_loop] and
    [openai_stock_function_call.tool_loop] differ in the tool they serve
    and in the texts they print; [cli_tool_loop] is that loop with the
    differences read off the script. *)

Definition skip_text (s : script) : string :=
  match s with
  | OpenAICli => "Skipping unsupported tool call: "
  | _ => "Skipping unknown tool: "
  end.

Definition arguments_text (s : script) : string :=
  match s with
  | OpenAICli => nl +++ "Tool call arguments:"
  | _ => nl +++ "Tool call arguments from the model:"
  end.

(** The tool-result message a CLI script builds for a request. *)
Definition tool_message (call : tool_call) (tool_output : string) : message :=
  RoleTool (call_id call) (Some (function_name call)) tool_output.

Fixpoint cli_tool_loop (s : script) (w : World) (calls : list tool_call)
  (tool_messages : list message) : M (list message) :=
  match calls with
  | [] => ret tool_messages
  | call :: rest =>
      if negb (dispatched s call) then
        print [PStr (skip_text s +++ function_name call)] ;;
        cli_tool_loop s w rest tool_messages
      else
        args <- loads (function_arguments call) ;;
        print [PStr (arguments_text s); PValue args] ;;
        tool_output <- call_with_kwargs (parameter s) (executor s w) call args ;;
        print [PStr "Tool output (JSON):"; PStr tool_output] ;;
        cli_tool_loop s w rest (tool_messages ++ [tool_message call tool_output])
  end.

(** The argument a request binds to the executor's parameter: its
    arguments decode to a dict whose only key is the parameter. *)
Definition argument_of (s : script) (call : tool_call) : option json :=
  match json_loads (function_arguments call) with
  | Some (JObj [(k, v)]) => if pystr_eqb k (parameter s) then Some v else None
  | _ => None
  end.

(** The output of the execution a request triggers, when its arguments
    bind and the executor returns. *)
Definition output_of (s : script) (w : World) (call : tool_call) : option string :=
  match argument_of s call with
  | Some v =>
      match fst (executor s w v) with
      | Ret out => Some out
      | Raise _ => None
      end
  | None => None
  end.

(** What a script sends back for a served request: the CLI scripts name
    the tool in the message, the server does not. *)
Definition result_message (s : script) (call : tool_call) (out : string) : message :=
  match s with
  | FastMcpServer => RoleTool (call_id call) None out
  | _ => tool_message call out
  end.

(** The conversation of round one. *)
Definition conversation (s : script) (question : string) : list message :=
  messages (round_one s question).

(** ** The two rounds, script by script *)

(** The tool phase between the two transport calls: the loop of a CLI
    script, or the server's execution of the first request. *)
Definition tool_phase (s : script) (w : World) (calls : list tool_call) :
  M (list message) :=
  match s with
  | FastMcpServer =>
      match calls with
      | [] => ret []
      | call0 :: _ =>
          args <- loads (function_arguments call0) ;;
          weather_data <-
            call_with_kwargs (parameter s) (executor s w) call0 args ;;
          ret [result_message s call0 weather_data]
      end
  | _ => cli_tool_loop s w calls []
  end.

(** The requests a script echoes in the assistant message of round two. *)
Definition echoed (s : script) (calls : list tool_call) : list tool_call :=
  match s with
  | FastMcpServer => firstn 1 calls
  | _ => calls
  end.

(** The conversation of round two: round one's, the assistant echo, the
    tool-result messages. *)
Definition extended (s : script) (question : string) (reply : chat_message)
  (tool_messages : list message) : list message :=
  conversation s question
  ++ [RoleAssistant (content reply) (map echo (echoed s (tool_calls_or_empty reply)))]
  ++ tool_messages.

Definition round_two (s : script) (question : string) (reply : chat_message)
  (tool_messages : list message) : chat_request :=
  match s with
  | GroqCli =>
      groq_weather_function_call.follow_up_request
        (extended s question reply tool_messages)
  | OpenAICli =>
      openai_stock_function_call.follow_up_request
        (extended s question reply tool_messages)
  | FastMcpServer =>
      fastmcp_groq_weather_server.second_request
        (extended s question reply tool_messages)
  end.

(** What the orchestrator hands to its caller after one round, and after
    two. *)
Definition early_answer (s : script) (reply : chat_message) : option string :=
  match s with
  | FastMcpServer =>
      Some (fastmcp_groq_weather_server.content_or_placeholder (content reply))
  | _ => None
  end.

Definition final_answer (s : script) (final : chat_message) : option string :=
  match s with
  | FastMcpServer => content final
  | _ => None
  end.

(** A run surfaces a text when the server returns it, or when it is the
    last thing a CLI script prints. *)
Definition surfaces (s : script) (run : M (option string)) (c : option string) :
  Prop :=
  match s with
  | FastMcpServer => fst run = Ret c
  | _ => fst run = Ret None /\ last (printed (snd run)) [] = [PContent c]
  end.

(** The text a script surfaces for a first response without tool
    request: the server replaces a missing or empty content. *)
Definition direct_answer (s : script) (reply : chat_message) : option string :=
  match s with
  | FastMcpServer =>
      Some (fastmcp_groq_weather_server.content_or_placeholder (content reply))
  | _ => content reply
  end.

(** What the CLI scripts print around the tool phase: the first response
    before it, and the closing lines when it left no tool message. *)
Definition opening (s : script) (reply : chat_message) : list (list printable) :=
  match s with
  | GroqCli =>
      [ [PStr (nl +++ "Initial assistant response (should contain a tool call):")];
        [PMessage reply] ]
  | OpenAICli =>
      [ [PStr (nl +++ "Initial assistant response:")]; [PMessage reply] ]
  | FastMcpServer => []
  end.

Definition closing (s : script) (reply : chat_message) : list (list printable) :=
  match s with
  | GroqCli =>
      [ [PStr "No tool output to send back to the model; stopping here."] ]
  | OpenAICli =>
      [ [PStr (nl +++ "Model response without tool call:")];
        [PContent (content reply)] ]
  | FastMcpServer => []
  end.

(** The entry point of a script, for the text it is started with: [main]
    for the CLI scripts (an exception that leaves it ends the process with
    a traceback), the tool function for the server. *)
Definition entry_point (s : script) (w : World) (arg : string) : M (option string) :=
  match s with
  | GroqCli => groq_weather_function_call.main w arg ;; ret None
  | OpenAICli => openai_stock_function_call.main w arg ;; ret None
  | FastMcpServer => fastmcp_groq_weather_server.get_weather_with_groq w arg
  end.

Definition entry_question (s : script) (arg : string) : string :=
  match s with
  | GroqCli => "What is the weather like in " +++ arg +++ "?"
  | OpenAICli => "What is the price of " +++ arg +++ "?"
  | FastMcpServer => arg
  end.

(** A computation is quiet when it neither calls the model, nor runs a
    tool, nor prints. *)
Definition quiet {A : Type} (m : M A) : Prop :=
  transports (snd m) = [] /\ executions (snd m) = [] /\ printed (snd m) = [].

(* ===================================================================== *)
(** * Concrete conversations *)
(* ===================================================================== *)

(** The inputs at which the theorems below are instantiated and the
    counterexamples evaluated. *)

Definition weather_request (i arguments : string) : tool_call :=
  {| call_id := i;
     call_type := "function";
     function_name := "get_current_weather";
     function_arguments := arguments |}.

Definition stock_request (i arguments : string) : tool_call :=
  {| call_id := i;
     call_type := "function";
     function_name := "get_current_stock_price";
     function_arguments := arguments |}.

(** A request for a tool no script declares. *)
Definition forecast_request (i arguments : string) : tool_call :=
  {| call_id := i;
     call_type := "function";
     function_name := "get_forecast";
     function_arguments := arguments |}.

(** The arguments a model writes for one string parameter. *)
Definition one_argument (param value : string) : string :=
  json_dumps (JObj [(codes param, JStr (codes value))]).

Definition asks (calls : list tool_call) : chat_message :=
  {| content := None; tool_calls := Some calls |}.

Definition says (answer : string) : chat_message :=
  {| content := Some answer; tool_calls := None |}.

(** A world whose model answers [first] when tools are offered and
    ["Done."] afterwards, with the given API key, HTTP outcome and price
    history.  [py_str] is not consulted in the runs below: their
    arguments are strings. *)
Definition scripted (first : chat_message) (key : option string)
  (net : get_outcome) (history : history_outcome) : World :=
  {| getenv :=
       fun name => if String.eqb name "OPENWEATHER_API_KEY" then key else None;
     chat_completions_create :=
       fun req =>
         match tools_arg req with
         | Some _ => Ret first
         | None => Ret (says "Done.")
         end;
     requests_get := fun _ _ _ => net;
     ticker_history := fun _ _ => history;
     fast_info_get := fun _ _ _ => Ret (Some (codes "USD"));
     py_str := fun _ => codes "<object>" |}.

Definition timed_out : get_outcome := GetRaised (codes "Read timed out.").

Definition no_history : history_outcome := HistoryFrame [].

(** No API key; the model asks for the weather in Bengaluru. *)
Definition bengaluru_call : tool_call :=
  weather_request "call_1" (one_argument "location" "Bengaluru").

Definition demo_world : World :=
  scripted (asks [bengaluru_call]) None timed_out no_history.

(** An API key and a network that times out. *)
Definition offline_world : World :=
  scripted (asks [bengaluru_call]) (Some "key") timed_out no_history.

(** The model asks for a ticker without trading history. *)
Definition ticker_call : tool_call :=
  stock_request "call_1" (one_argument "stock_symbol" "XYZ").


(** The model writes arguments that are no JSON document. *)
Definition garbled_call : tool_call := weather_request "call_1" "{location: ".

Definition garbled_world : World :=
  scripted (asks [garbled_call]) (Some "key") timed_out no_history.

(** The model asks for a tool that was never declared. *)
Definition forecast_call : tool_call :=
  forecast_request "call_1" (one_argument "location" "Bengaluru").

Definition forecast_reply : chat_message :=
  {| content := Some "Let me look that up."; tool_calls := Some [forecast_call] |}.

Definition forecast_world : World :=
  scripted forecast_reply None timed_out no_history.

(** An API key, and a provider that answers 200 with a body that is no
    JSON document, or with a JSON document without the expected fields. *)
Definition html_world : World :=
  scripted (asks [bengaluru_call]) (Some "key")
    (GetResponse {| status_code := 200;
                    error_text := [];
                    text := "<html>Service unavailable</html>" |})
    no_history.

Definition empty_object_world : World :=
  scripted (asks [bengaluru_call]) (Some "key")
    (GetResponse {| status_code := 200; error_text := []; text := "{}" |})
    no_history.

(** The model asks for two cities, and for a forecast in between. *)
Definition mumbai_call : tool_call :=
  weather_request "call_3" (one_argument "location" "Mumbai").

Definition forecast_call_2 : tool_call :=
  forecast_request "call_2" (one_argument "location" "Bengaluru").

Definition two_cities : chat_message :=
  asks [bengaluru_call; forecast_call_2; mumbai_call].

Definition two_cities_world (key : option string) : World :=
  scripted two_cities key timed_out no_history.

(** No OpenWeatherMap API key is configured: the variable is unset or
    empty. *)
Definition no_api_key (w : World) : Prop :=
  getenv w "OPENWEATHER_API_KEY" = None
  \/ getenv w "OPENWEATHER_API_KEY" = Some "".

(** The closing prices a provider reports are floats: their numerals are
    numerals. *)
Definition prices_are_numbers (w : World) : Prop :=
  forall symbol period rows,
    ticker_history w symbol period = HistoryFrame rows ->
    Forall (fun r => forall n, close_price r = Ret n -> number_token n = true)
           rows.

(** A ticker with one day of trading. *)
Definition one_day : history_outcome :=
  HistoryFrame [ {| close_price := Ret "1523.4";
                    timestamp := Ret (codes "2025-01-02T00:00:00+05:30") |} ].

Definition trading_world : World :=
  scripted (asks [ticker_call]) None timed_out one_day.

(** A payload is an object that [json.loads] reads back. *)
Definition is_object (out : string) : Prop :=
  exists members,
    out = json_dumps (JObj members)
    /\ json_loads out = Some (JObj members).

(* ===================================================================== *)
(** * The scripts as processes *)
(* ===================================================================== *)

(** The variable a script reads the key of its model provider from. *)
Definition llm_key_variable (s : script) : string :=
  match s with
  | OpenAICli => "OPENAI_API_KEY"
  | _ => "GROQ_API_KEY"
  end.

(** The message of the [EnvironmentError] a script raises for a variable. *)
Definition missing_variable (s : script) (var_name : string) : string :=
  "Missing required environment variable: " +++ var_name +++ ". "
  +++ match s with
      | GroqCli => "Create a .env file or export it in your shell."
      | OpenAICli => "Add it to your .env or export it before running the script."
      | FastMcpServer => "Create a .env file or export it before running the server."
      end.

(** A process started on a script file: the module body, which builds the
    client, then [main] for the CLI scripts, with the value of the flag if
    the command line gives one; for the server [mcp.run()], which serves
    the tool function with the query a caller sends, if one does. *)
Definition launch (s : script) (w : World) (input : option string) :
  M (option string) :=
  match s with
  | GroqCli => groq_weather_function_call.script w input ;; ret None
  | OpenAICli => openai_stock_function_call.script w input ;; ret None
  | FastMcpServer =>
      fastmcp_groq_weather_server.client w ;;
      match input with
      | Some query => fastmcp_groq_weather_server.get_weather_with_groq w query
      | None => ret None
      end
  end.

(** The text [main] receives from the command line. *)
Definition command_line_argument (s : script) (input : option string) : string :=
  match s with
  | GroqCli => groq_weather_function_call.parse_cli_args input
  | OpenAICli => openai_stock_function_call.parse_cli_args input
  | FastMcpServer => match input with Some query => query | None => "" end
  end.

(** ** Reading payloads and logs *)

(** The parameters of the OpenWeatherMap request for a location. *)
Definition weather_params (location : json) (api_key : string) : json :=
  JObj [(codes "q", location);
        (codes "units", JStr (codes "metric"));
        (codes "appid", JStr (codes api_key))].

(** The outputs a CLI script prints on its [Tool output (JSON):] lines. *)
Fixpoint printed_outputs (lines : list (list printable)) : list string :=
  match lines with
  | [] => []
  | [PStr label; PStr out] :: rest =>
      if String.eqb label "Tool output (JSON):" then out :: printed_outputs rest
      else printed_outputs rest
  | _ :: rest => printed_outputs rest
  end.

(** A payload reports an error when its only member is [error], with a
    text; it reports data when it has no member [error]. *)
Definition error_object (members : list (pystr * json)) : Prop :=
  exists msg, members = [(codes "error", JStr msg)].

Definition data_object (members : list (pystr * json)) : Prop :=
  ~ In (codes "error") (map fst members).

Definition is_tool_result (m : message) : bool :=
  match m with
  | RoleTool _ _ _ => true
  | _ => false
  end.

(** How a dispatched request fails: its arguments decode to something
    that binds no parameter, or the executor raises. *)
Inductive fails (s : script) (w : World) (call : tool_call) :
  exn -> list tool_call -> Prop :=
| fails_unbound (args : json) :
    json_loads (function_arguments call) = Some args ->
    argument_of s call = None ->
    fails s w call TypeError []
| fails_raised (v : json) (e : exn) :
    argument_of s call = Some v ->
    fst (executor s w v) = Raise e ->
    fails s w call e [call].

(** ** More concrete conversations *)

(** A world in which the keys of the model providers are configured. *)
Definition with_llm_key (w : World) : World :=
  {| getenv :=
       fun name =>
         if String.eqb name "GROQ_API_KEY" || String.eqb name "OPENAI_API_KEY"
         then Some "sk-test"
         else getenv w name;
     chat_completions_create := chat_completions_create w;
     requests_get := requests_get w;
     ticker_history := ticker_history w;
     fast_info_get := fast_info_get w;
     py_str := py_str w |}.

(** A body as OpenWeatherMap sends it. *)
Definition scattered_clouds : json :=
  JObj [(codes "weather",
         JArr [JObj [(codes "id", JNum "802");
                     (codes "main", JStr (codes "Clouds"));
                     (codes "description", JStr (codes "scattered clouds"));
                     (codes "icon", JStr (codes "03d"))]]);
        (codes "main",
         JObj [(codes "temp", JNum "26.87");
               (codes "feels_like", JNum "27.7");
               (codes "pressure", JNum "1011");
               (codes "humidity", JNum "57")]);
        (codes "wind", JObj [(codes "speed", JNum "7.2"); (codes "deg", JNum "250")]);
        (codes "name", JStr (codes "Bengaluru"))].

Definition ok_response : response :=
  {| status_code := 200; error_text := []; text := json_dumps scattered_clouds |}.

Definition online_world : World :=
  scripted (asks [bengaluru_call]) (Some "key") (GetResponse ok_response) no_history.

(** A provider that answers 404. *)
Definition not_found : response :=
  {| status_code := 404;
     error_text := codes "404 Client Error: Not Found for url";
     text := json_dumps (JObj [(codes "cod", JStr (codes "404"));
                               (codes "message", JStr (codes "city not found"))]) |}.

Definition unknown_city_world : World :=
  scripted (asks [bengaluru_call]) (Some "key") (GetResponse not_found) no_history.

(** Arguments that are a JSON document and bind no parameter. *)
Definition listed_call : tool_call :=
  weather_request "call_1" (json_dumps (JArr [JStr (codes "Bengaluru")])).

Definition listed_world : World :=
  scripted (asks [listed_call]) (Some "key") timed_out no_history.

(** A price provider that raises. *)
Definition delisted : history_outcome :=
  HistoryRaised (codes "No data found, symbol may be delisted").

Definition delisted_world : World :=
  scripted (asks [ticker_call]) None timed_out delisted.

(** Two days of trading. *)
Definition two_days : history_outcome :=
  HistoryFrame [ {| close_price := Ret "1498.05";
                    timestamp := Ret (codes "2025-01-01T00:00:00+05:30") |};
                 {| close_price := Ret "1523.4";
                    timestamp := Ret (codes "2025-01-02T00:00:00+05:30") |} ].

Definition two_days_world : World :=
  scripted (asks [ticker_call]) None timed_out two_days.

(** A provider whose [fast_info] fails after the history was read. *)
Definition fast_info_down : World :=
  {| getenv := fun _ => None;
     chat_completions_create := fun _ => Ret (asks [ticker_call]);
     requests_get := fun _ _ _ => timed_out;
     ticker_history := fun _ _ => one_day;
     fast_info_get := fun _ _ _ => Raise (ProviderError (codes "Too Many Requests"));
     py_str := fun _ => codes "<object>" |}.

(** A model that fails on the second call. *)
Definition second_call_fails : World :=
  {| getenv := fun _ => None;
     chat_completions_create :=
       fun req =>
         match tools_arg req with
         | Some _ => Ret (asks [ticker_call])
         | None => Raise (APIError "rate limit")
         end;
     requests_get := fun _ _ _ => timed_out;
     ticker_history := fun _ _ => one_day;
     fast_info_get := fun _ _ _ => Ret (Some (codes "USD"));
     py_str := fun _ => codes "<object>" |}.

(** A model that is unreachable. *)
Definition unreachable : World :=
  {| getenv := fun _ => None;
     chat_completions_create := fun _ => Raise (APIError "Connection error.");
     requests_get := fun _ _ _ => timed_out;
     ticker_history := fun _ _ => no_history;
     fast_info_get := fun _ _ _ => Ret None;
     py_str := fun _ => codes "<object>" |}.
(* ===================================================================== *)
(** * Part II: lemmas and theorems *)
(* ===================================================================== *)

(** ** Strings *)

Lemma append_assoc (a b c : string) : (a +++ b) +++ c = a +++ (b +++ c).
Proof. induction a as [|x a IH]; simpl; [reflexivity | now rewrite IH]. Qed.

Lemma append_nil_r (a : string) : a +++ "" = a.
Proof. induction a as [|x a IH]; simpl; [reflexivity | now rewrite IH]. Qed.

Lemma length_append (a b : string) :
  String.length (a +++ b) = String.length a + String.length b.
Proof. induction a as [|x a IH]; simpl; [reflexivity | now rewrite IH]. Qed.

Lemma unit_eqb_eq (a b : unit16) : unit_eqb a b = true <-> a = b.
Proof.
  destruct a as [h l], b as [h' l']; unfold unit_eqb; simpl.
  rewrite andb_true_iff, !Ascii.eqb_eq.
  split; [intros [-> ->]; reflexivity | intros H; inversion H; auto].
Qed.

Lemma pystr_eqb_eq (a b : pystr) : pystr_eqb a b = true <-> a = b.
Proof.
  revert b; induction a as [|x a IH]; intros [|y b]; simpl;
    try (split; [discriminate | discriminate]); [tauto|].
  rewrite andb_true_iff, unit_eqb_eq, IH.
  split; [intros [-> ->]; reflexivity | intros H; inversion H; auto].
Qed.

Lemma pystr_eqb_refl (a : pystr) : pystr_eqb a a = true.
Proof. now apply pystr_eqb_eq. Qed.

Lemma pystr_eqb_neq (a b : pystr) : pystr_eqb a b = false <-> a <> b.
Proof.
  destruct (pystr_eqb a b) eqn:E.
  - apply pystr_eqb_eq in E. split; [discriminate | contradiction].
  - split; [|reflexivity]. intros _ H. apply pystr_eqb_eq in H. congruence.
Qed.

(** ** The JSON codec *)


Lemma byte_of_hex_hex2 (b : ascii) :
  byte_of_hex (hex_digit (nat_of_ascii b / 16)) (hex_digit (nat_of_ascii b mod 16))
  = Some b.
Proof. destruct b as [[] [] [] [] [] [] [] []]; vm_compute; reflexivity. Qed.

Lemma scan_u_escape (a b c d : ascii) (r : string) :
  scan_string (String backslash (String "u" (String a (String b (String c (String d r))))))
  = match byte_of_hex a b, byte_of_hex c d with
    | Some h, Some l => push (h, l) (scan_string r)
    | _, _ => None
    end.
Proof. reflexivity. Qed.

Lemma scan_escape_unit (u : unit16) (tail : string) :
  scan_string (escape_unit u +++ tail) = push u (scan_string tail).
Proof.
  destruct u as [h l]; unfold escape_unit.
  destruct (Ascii.eqb h zero) eqn:Eh.
  - apply Ascii.eqb_eq in Eh; subst h.
    destruct l as [[] [] [] [] [] [] [] []]; reflexivity.
  - unfold hex2. cbn [String.append].
    change (String "\" (String "u" ?x)) with (String backslash (String "u" x)).
    rewrite scan_u_escape, !byte_of_hex_hex2. reflexivity.
Qed.

Lemma scan_escape_units (s : pystr) (rest : string) :
  scan_string (escape_units s +++ String dquote rest) = Some (s, rest).
Proof.
  induction s as [|u s IH]; [reflexivity|].
  cbn [escape_units]. rewrite append_assoc, scan_escape_unit, IH. reflexivity.
Qed.

Lemma quote_append (s : pystr) (rest : string) :
  quote s +++ rest = String dquote (escape_units s +++ String dquote rest).
Proof. unfold quote. cbn [String.append]. now rewrite append_assoc. Qed.

(** Numerals. *)

Lemma num_char_head (c : ascii) :
  is_num_char c = true ->
  is_ws c = false /\ Ascii.eqb "]" c = false /\ Ascii.eqb c dquote = false
  /\ Ascii.eqb c "[" = false /\ Ascii.eqb c "{" = false.
Proof.
  destruct c as [[] [] [] [] [] [] [] []]; vm_compute; intros H;
    try discriminate H; repeat split.
Qed.

Lemma digit_num_char (c : ascii) : is_digit c = true -> is_num_char c = true.
Proof. unfold is_num_char. now intros ->. Qed.

Lemma all_num_skip_digits (s : string) :
  all_num (skip_digits s) = true -> all_num s = true.
Proof.
  induction s as [|c r IH]; [reflexivity|]. simpl.
  destruct (is_digit c) eqn:E; [|exact (fun H => H)].
  intros H. now rewrite (digit_num_char _ E), IH.
Qed.

Lemma valid_exp_all_num (s : string) : valid_exp s = true -> all_num s = true.
Proof.
  destruct s as [|e r]; [reflexivity|]. unfold valid_exp.
  destruct (Ascii.eqb e "e" || Ascii.eqb e "E") eqn:Ee; [|discriminate].
  assert (He : is_num_char e = true).
  { unfold is_num_char. apply orb_true_iff in Ee as [->| ->];
      now rewrite ?orb_true_r. }
  assert (Hd : forall t, match t with
                         | String d r0 => is_digit d && String.eqb (skip_digits r0) ""
                         | EmptyString => false
                         end = true -> all_num t = true).
  { intros [|d r0]; [discriminate|]. intros H.
    apply andb_true_iff in H as [H1 H2]. apply String.eqb_eq in H2.
    simpl. rewrite (digit_num_char _ H1). apply all_num_skip_digits.
    now rewrite H2. }
  intros H. cbn [all_num]. rewrite He. cbn [andb].
  destruct r as [|sg r0]; [discriminate|].
  destruct (Ascii.eqb sg "-" || Ascii.eqb sg "+") eqn:Es.
  - cbn [all_num]. rewrite (Hd _ H), andb_true_r.
    unfold is_num_char. apply orb_true_iff in Es as [->| ->];
      now rewrite ?orb_true_r.
  - now apply Hd.
Qed.

Lemma valid_frac_all_num (s : string) : valid_frac s = true -> all_num s = true.
Proof.
  destruct s as [|c r]; [reflexivity|]. unfold valid_frac.
  destruct (Ascii.eqb c ".") eqn:Ec; [|apply valid_exp_all_num].
  destruct r as [|d r0]; [discriminate|]. intros H.
  apply andb_true_iff in H as [H1 H2].
  cbn [all_num]. rewrite (digit_num_char _ H1).
  rewrite (all_num_skip_digits _ (valid_exp_all_num _ H2)).
  unfold is_num_char. now rewrite Ec, ?orb_true_r.
Qed.

(** The integer part of a valid numeral starts with a digit. *)
Lemma valid_body_all_num (s : string) :
  match s with
  | String d r =>
      if Ascii.eqb d "0" then valid_frac r
      else is_digit d && valid_frac (skip_digits r)
  | EmptyString => false
  end = true ->
  exists d r, s = String d r /\ is_digit d = true /\ all_num s = true.
Proof.
  destruct s as [|d r]; [discriminate|]. intros H. exists d, r.
  destruct (Ascii.eqb d "0") eqn:Ed.
  - apply Ascii.eqb_eq in Ed; subst d. repeat split.
    cbn [all_num]. now rewrite (valid_frac_all_num _ H).
  - apply andb_true_iff in H as [H1 H2]. repeat split; [exact H1|].
    cbn [all_num]. rewrite (digit_num_char _ H1).
    now rewrite (all_num_skip_digits _ (valid_frac_all_num _ H2)).
Qed.

Lemma valid_number_shape (t : string) :
  valid_number t = true ->
  all_num t = true /\
  exists c r, t = String c r /\
    (is_digit c = true \/
     (c = "-"%char /\ is_digit c = false /\
      exists d r', r = String d r' /\ is_digit d = true)).
Proof.
  unfold valid_number. destruct t as [|c r]; [discriminate|].
  destruct (Ascii.eqb c "-") eqn:Ec; intros H.
  - apply Ascii.eqb_eq in Ec; subst c.
    destruct (valid_body_all_num _ H) as (d & r' & -> & Hd & Hall).
    split.
    { change (is_num_char "-" && all_num (String d r') = true).
      now rewrite Hall. }
    exists "-"%char, (String d r'). split; [reflexivity|]. right.
    repeat split. now exists d, r'.
  - destruct (valid_body_all_num (String c r) H) as (d & r' & E & Hd & Hall).
    inversion E; subst d r'. split; [exact Hall|].
    exists c, r. split; [reflexivity|]. now left.
Qed.

Lemma span_num_append (t rest : string) :
  all_num t = true -> delimited rest = true ->
  span_num (t +++ rest) = (t, rest).
Proof.
  intros Ht Hr. induction t as [|c t IH].
  - destruct rest as [|c r]; [reflexivity|]. simpl in *.
    now rewrite (proj1 (negb_true_iff _) Hr).
  - simpl in *. apply andb_true_iff in Ht as [-> Ht]. now rewrite (IH Ht).
Qed.

Lemma digit_not_I (d : ascii) : is_digit d = true -> Ascii.eqb "I" d = false.
Proof.
  destruct d as [[] [] [] [] [] [] [] []]; vm_compute; intros H;
    try discriminate H; reflexivity.
Qed.

Lemma strip_Infinity_digit (d : ascii) (r : string) :
  is_digit d = true -> strip_prefix "Infinity" (String d r) = None.
Proof.
  intros Hd.
  change (strip_prefix "Infinity" (String d r))
    with (if Ascii.eqb "I" d then strip_prefix "nfinity" r else None).
  now rewrite (digit_not_I _ Hd).
Qed.

Lemma parse_atom_minus (r : string) :
  parse_atom (String "-" r)
  = match strip_prefix "Infinity" r with
    | Some r' => Some (JNum "-Infinity", r')
    | None => parse_number (String "-" r)
    end.
Proof. reflexivity. Qed.

Lemma parse_number_append (n rest : string) :
  valid_number n = true -> String.eqb n "-0" = false ->
  delimited rest = true ->
  parse_number (n +++ rest) = Some (JNum n, rest).
Proof.
  intros Hv Hz Hr. unfold parse_number.
  rewrite (span_num_append _ _ (proj1 (valid_number_shape _ Hv)) Hr).
  now rewrite Hv, Hz.
Qed.

Lemma parse_atom_numeral (n rest : string) :
  number_token n = true -> delimited rest = true ->
  parse_atom (n +++ rest) = Some (JNum n, rest).
Proof.
  unfold number_token. intros H Hr.
  repeat (apply orb_true_iff in H as [H|H]).
  - apply andb_true_iff in H as [Hv Hz]. apply negb_true_iff in Hz.
    destruct (valid_number_shape _ Hv) as (_ & c & r & -> & Hc).
    cbn [String.append].
    destruct Hc as [Hc | (-> & Hc & d & r' & -> & Hd)].
    + cbn [parse_atom]. rewrite Hc. change (String c (r +++ rest)) with (String c r +++ rest).
      now apply parse_number_append.
    + rewrite parse_atom_minus. cbn [String.append].
      rewrite (strip_Infinity_digit _ _ Hd).
      change (String "-" (String d (r' +++ rest)))
        with (String "-" (String d r') +++ rest).
      now apply parse_number_append.
  - apply String.eqb_eq in H; subst n. reflexivity.
  - apply String.eqb_eq in H; subst n. reflexivity.
  - apply String.eqb_eq in H; subst n. reflexivity.
Qed.

(** The first character of a numeral. *)
Lemma number_token_head (n : string) :
  number_token n = true ->
  exists c t, n = String c t /\ is_ws c = false /\ Ascii.eqb "]" c = false
    /\ Ascii.eqb c dquote = false /\ Ascii.eqb c "[" = false
    /\ Ascii.eqb c "{" = false.
Proof.
  unfold number_token. intros H.
  repeat (apply orb_true_iff in H as [H|H]).
  - apply andb_true_iff in H as [Hv _].
    destruct (valid_number_shape _ Hv) as (Hall & c & r & -> & _).
    exists c, r. split; [reflexivity|]. apply num_char_head.
    simpl in Hall. now apply andb_true_iff in Hall as [-> _].
  - apply String.eqb_eq in H; subst n.
    eexists _, _; split; [reflexivity|]. repeat split.
  - apply String.eqb_eq in H; subst n.
    eexists _, _; split; [reflexivity|]. repeat split.
  - apply String.eqb_eq in H; subst n.
    eexists _, _; split; [reflexivity|]. repeat split.
Qed.

(** ** Decoding what was encoded *)

Lemma parse_value_string (f : nat) (r : string) :
  parse_value (S f) (String dquote r)
  = match scan_string r with
    | Some (u, r') => Some (JStr u, r')
    | None => None
    end.
Proof. reflexivity. Qed.

Lemma parse_value_array (f : nat) (r : string) :
  parse_value (S f) (String "[" r)
  = match strip_prefix "]" (skip_ws r) with
    | Some r' => Some (JArr [], r')
    | None => parse_items f (skip_ws r) []
    end.
Proof. reflexivity. Qed.

Lemma parse_value_object (f : nat) (r : string) :
  parse_value (S f) (String "{" r)
  = match strip_prefix "}" (skip_ws r) with
    | Some r' => Some (JObj [], r')
    | None => parse_members f (skip_ws r) []
    end.
Proof. reflexivity. Qed.

Lemma parse_value_atom (f : nat) (c : ascii) (r : string) :
  Ascii.eqb c dquote = false -> Ascii.eqb c "[" = false ->
  Ascii.eqb c "{" = false ->
  parse_value (S f) (String c r) = parse_atom (String c r).
Proof. intros H1 H2 H3. cbn [parse_value]. now rewrite H1, H2, H3. Qed.

Lemma skip_ws_head (c : ascii) (t : string) :
  is_ws c = false -> skip_ws (String c t) = String c t.
Proof. intros H. cbn [skip_ws]. now rewrite H. Qed.

(** A serialised value starts with a character that is neither white
    space nor a closing bracket. *)
Lemma json_dumps_head (v : json) :
  wf_json v = true ->
  exists c t, json_dumps v = String c t /\ is_ws c = false
              /\ Ascii.eqb "]" c = false.
Proof.
  destruct v as [|[]|n|s|items|members]; intros H;
    try (eexists _, _; split; [reflexivity|]; split; reflexivity).
  destruct (number_token_head _ H) as (c & t & -> & H1 & H2 & _).
  now exists c, t.
Qed.

Lemma parse_items_dumps (items : list json) :
  Forall (fun v => wf_json v = true /\ decodes v) items -> items <> [] ->
  forall acc fuel rest,
    list_sum (map (fun x => S (weight x)) items) <= fuel ->
    parse_items fuel
      (String.concat ", " (map json_dumps items) +++ String "]" rest) acc
    = Some (JArr (acc ++ items), rest).
Proof.
  induction 1 as [|x l [Hwf Hx] Hl IH]; [congruence|]. intros _ acc fuel rest Hf.
  change (S (weight x) + list_sum (map (fun x => S (weight x)) l) <= fuel) in Hf.
  destruct fuel as [|f]; [lia|].
  cbn [parse_items]. destruct l as [|y l'].
  - cbn [map String.concat].
    rewrite (Hx f (String "]" rest)) by (lia || reflexivity).
    reflexivity.
  - change (String.concat ", " (map json_dumps (x :: y :: l')))
      with (json_dumps x +++ ", " +++ String.concat ", " (map json_dumps (y :: l'))).
    rewrite !append_assoc.
    rewrite (Hx f) by (lia || reflexivity).
    cbn [String.append skip_ws is_ws Ascii.eqb Bool.eqb orb].
    change (is_ws ","%char) with false. cbv iota.
    change (Ascii.eqb "," ",") with true. cbv iota.
    change (is_ws " "%char) with true. cbv iota.
    assert (Hy : exists c t,
      String.concat ", " (map json_dumps (y :: l')) = String c t
      /\ is_ws c = false).
    { inversion Hl as [|? ? [Hwy _] _]; subst.
      destruct (json_dumps_head _ Hwy) as (c & t & E & Hc & _).
      destruct l'; cbn [map String.concat]; rewrite E; cbn [String.append];
        eexists _, _; split; try reflexivity; exact Hc. }
    destruct Hy as (c & t & E & Hc). rewrite E.
    cbn [String.append]. rewrite (skip_ws_head _ _ Hc).
    change (String c (t +++ String "]" rest)) with (String c t +++ String "]" rest).
    rewrite <- E. rewrite IH by (congruence || lia).
    now rewrite <- app_assoc.
Qed.

Lemma dict_set_fresh (k : pystr) (v : json) (d : list (pystr * json)) :
  existsb (pystr_eqb k) (map fst d) = false -> dict_set k v d = d ++ [(k, v)].
Proof.
  induction d as [|[k' v'] d IH]; [reflexivity|]. cbn [map fst existsb dict_set app].
  intros H. apply orb_false_iff in H as [-> H]. now rewrite (IH H).
Qed.

Lemma nodup_keys_fresh (k : pystr) (d : list pystr) (ks : list pystr) :
  nodup_keys (d ++ k :: ks) = true -> existsb (pystr_eqb k) d = false.
Proof.
  induction d as [|k' d IH]; [reflexivity|]. cbn [app nodup_keys existsb].
  intros H. apply andb_true_iff in H as [H1 H2]. apply negb_true_iff in H1.
  rewrite (IH H2), orb_false_r.
  rewrite existsb_app in H1. apply orb_false_iff in H1 as [_ H1].
  cbn [existsb] in H1. apply orb_false_iff in H1 as [H1 _].
  apply pystr_eqb_neq. apply pystr_eqb_neq in H1. congruence.
Qed.

Lemma parse_member (f : nat) (k : pystr) (v : json) (tail : string)
  (acc : list (pystr * json)) :
  wf_json v = true -> decodes v -> weight v <= f -> delimited tail = true ->
  parse_members (S f) (member_text (k, v) +++ tail) acc
  = match skip_ws tail with
    | String c r4 =>
        if Ascii.eqb c "," then parse_members f (skip_ws r4) (dict_set k v acc)
        else if Ascii.eqb c "}" then Some (JObj (dict_set k v acc), r4)
        else None
    | EmptyString => None
    end.
Proof.
  intros Hwf Hv Hf Ht. unfold member_text. cbn [fst snd].
  rewrite !append_assoc, quote_append.
  cbn [parse_members].
  change (strip_prefix (String dquote "") (String dquote ?x)) with (Some x).
  cbv iota. rewrite scan_escape_units.
  destruct (json_dumps_head _ Hwf) as (c & t & E & Hc & _).
  cbn [String.append skip_ws].
  change (is_ws ":"%char) with false. cbv iota.
  change (strip_prefix ":" (String ":" ?x)) with (Some x). cbv iota.
  cbn [skip_ws]. change (is_ws " "%char) with true. cbv iota.
  rewrite E. cbn [String.append]. rewrite (skip_ws_head _ _ Hc).
  change (String c (t +++ tail)) with (String c t +++ tail).
  rewrite <- E, (Hv f tail Hf Ht). reflexivity.
Qed.

Lemma members_text_head (kv : pystr * json) (l : list (pystr * json))
  (tail : string) :
  exists t,
    String.concat ", " (map member_text (kv :: l)) +++ tail = String dquote t.
Proof.
  destruct l; cbn [map String.concat]; unfold member_text at 1;
    rewrite !append_assoc, quote_append; eexists; reflexivity.
Qed.

Lemma parse_members_dumps (members : list (pystr * json)) :
  Forall (fun kv => wf_json (snd kv) = true /\ decodes (snd kv)) members ->
  members <> [] ->
  forall acc fuel rest,
    nodup_keys (map fst (acc ++ members)) = true ->
    list_sum (map (fun kv => S (weight (snd kv))) members) <= fuel ->
    parse_members fuel
      (String.concat ", " (map member_text members) +++ String "}" rest) acc
    = Some (JObj (acc ++ members), rest).
Proof.
  induction 1 as [|[k v] l [Hwf Hx] Hl IH]; [congruence|].
  intros _ acc fuel rest Hnd Hf. cbn [snd] in Hwf, Hx.
  change (S (weight v) + list_sum (map (fun kv => S (weight (snd kv))) l) <= fuel)
    in Hf.
  destruct fuel as [|f]; [lia|].
  assert (Hfresh : dict_set k v acc = acc ++ [(k, v)]).
  { apply dict_set_fresh. rewrite map_app in Hnd. cbn [map fst] in Hnd.
    exact (nodup_keys_fresh _ _ _ Hnd). }
  destruct l as [|y l'].
  - cbn [map String.concat].
    rewrite (parse_member f k v (String "}" rest) acc Hwf Hx)
      by (lia || reflexivity).
    cbn [skip_ws]. change (is_ws "}"%char) with false. cbv iota.
    change (Ascii.eqb "}" ",") with false. change (Ascii.eqb "}" "}") with true.
    cbv iota. now rewrite Hfresh.
  - change (String.concat ", " (map member_text ((k, v) :: y :: l')))
      with (member_text (k, v) +++ ", "
            +++ String.concat ", " (map member_text (y :: l'))).
    rewrite !append_assoc.
    rewrite (parse_member f k v) by (lia || reflexivity || assumption).
    cbn [String.append skip_ws].
    change (is_ws ","%char) with false. cbv iota.
    change (Ascii.eqb "," ",") with true. cbv iota.
    cbn [skip_ws]. change (is_ws " "%char) with true. cbv iota.
    destruct (members_text_head y l' (String "}" rest)) as (t & E).
    rewrite E. change (skip_ws (String dquote t)) with (String dquote t).
    rewrite <- E, Hfresh, IH; [now rewrite <- app_assoc|congruence| |lia].
    now rewrite <- app_assoc.
Qed.

(** [json.loads] inverts [json.dumps] on well-formed values. *)
Lemma parse_value_dumps (v : json) : wf_json v = true -> decodes v.
Proof.
  induction v as [|b|n|s|items IH|members IH] using json_ind;
    intros Hwf fuel rest Hf Hr; cbn [weight] in Hf;
    (destruct fuel as [|f]; [lia|]).
  - reflexivity.
  - destruct b; reflexivity.
  - cbn [wf_json json_dumps] in *.
    destruct (number_token_head _ Hwf) as (c & t & E & _ & _ & H1 & H2 & H3).
    rewrite E. cbn [String.append]. rewrite (parse_value_atom f c _ H1 H2 H3).
    change (String c (t +++ rest)) with (String c t +++ rest). rewrite <- E.
    now apply parse_atom_numeral.
  - cbn [json_dumps]. rewrite quote_append, parse_value_string.
    now rewrite scan_escape_units.
  - cbn [json_dumps wf_json] in *. rewrite !append_assoc.
    cbn [String.append]. rewrite parse_value_array.
    assert (Hall : Forall (fun v => wf_json v = true /\ decodes v) items).
    { rewrite forallb_forall in Hwf. rewrite Forall_forall in IH |- *.
      intros x Hx. split; [now apply Hwf | apply IH; [exact Hx | now apply Hwf]]. }
    destruct items as [|x l]; [reflexivity|].
    assert (Hnone : exists c t,
      String.concat ", " (map json_dumps (x :: l)) +++ String "]" rest = String c t
      /\ is_ws c = false /\ Ascii.eqb "]" c = false).
    { inversion Hall as [|? ? [Hwx _] _]; subst.
      destruct (json_dumps_head _ Hwx) as (c & t & E & Hc & Hb).
      destruct l; cbn [map String.concat]; rewrite E; cbn [String.append];
        eexists _, _; (split; [reflexivity|]); split; assumption. }
    destruct Hnone as (c & t & E & Hc & Hb).
    change ("]" +++ rest) with (String "]" rest).
    rewrite E, (skip_ws_head _ _ Hc).
    change (strip_prefix "]" (String c t))
      with (if Ascii.eqb "]" c then Some t else None).
    rewrite Hb, <- E.
    rewrite parse_items_dumps; [reflexivity|exact Hall|congruence|lia].
  - cbn [json_dumps wf_json] in *. apply andb_true_iff in Hwf as [Hnd Hwf].
    rewrite !append_assoc. cbn [String.append]. rewrite parse_value_object.
    assert (Hall : Forall (fun kv => wf_json (snd kv) = true /\ decodes (snd kv))
                          members).
    { rewrite forallb_forall in Hwf. rewrite Forall_forall in IH |- *.
      intros x Hx. split; [now apply Hwf | apply IH; [exact Hx | now apply Hwf]]. }
    destruct members as [|[k v] l]; [reflexivity|].
    change ("}" +++ rest) with (String "}" rest).
    change (map _ ((k, v) :: l)) with (map member_text ((k, v) :: l)).
    destruct (members_text_head (k, v) l (String "}" rest)) as (t & E).
    rewrite E.
    change (skip_ws (String dquote t)) with (String dquote t).
    change (strip_prefix "}" (String dquote t)) with (@None string).
    rewrite <- E.
    rewrite parse_members_dumps; [reflexivity|exact Hall|congruence|exact Hnd|lia].
Qed.

(** The fuel [json_loads] starts with covers every serialised value. *)
Lemma concat_weight {A : Type} (w : A -> nat) (txt : A -> string) (l : list A) :
  Forall (fun x => w x <= 2 * String.length (txt x) + 1) l ->
  list_sum (map (fun x => S (w x)) l)
  <= 2 * String.length (String.concat ", " (map txt l)) + 2.
Proof.
  induction 1 as [|x l Hx Hl IH]; [simpl; lia|].
  change (S (w x) + list_sum (map (fun x => S (w x)) l)
          <= 2 * String.length (String.concat ", " (map txt (x :: l))) + 2).
  destruct l as [|y l'].
  - cbn [map String.concat list_sum fold_right]. lia.
  - change (String.concat ", " (map txt (x :: y :: l')))
      with (txt x +++ ", " +++ String.concat ", " (map txt (y :: l'))).
    rewrite !length_append. cbn [String.length]. lia.
Qed.

Lemma weight_bound (v : json) : weight v <= 2 * String.length (json_dumps v) + 1.
Proof.
  induction v as [|b|n|s|items IH|members IH] using json_ind;
    cbn [weight json_dumps]; try lia.
  - pose proof (concat_weight weight json_dumps items IH) as H.
    rewrite !length_append. cbn [String.length]. lia.
  - assert (H : Forall (fun kv => weight (snd kv)
                          <= 2 * String.length (member_text kv) + 1) members).
    { eapply Forall_impl; [|exact IH]. intros [k v] H. cbn [snd] in *.
      unfold member_text. cbn [fst snd]. rewrite !length_append. lia. }
    apply (concat_weight (fun kv => weight (snd kv)) member_text) in H.
    change (map _ members) with (map member_text members) at 2.
    rewrite !length_append. cbn [String.length]. lia.
Qed.

Theorem json_loads_dumps (v : json) :
  wf_json v = true -> json_loads (json_dumps v) = Some v.
Proof.
  intros Hwf. unfold json_loads.
  destruct (json_dumps_head _ Hwf) as (c & t & E & Hc & _).
  rewrite E, (skip_ws_head _ _ Hc), <- E.
  rewrite <- (append_nil_r (json_dumps v)) at 2.
  rewrite (parse_value_dumps v Hwf); [reflexivity| |reflexivity].
  pose proof (weight_bound v). lia.
Qed.

(** ** The decoder builds well-formed values *)

Lemma parse_number_wf (s : string) (v : json) (r : string) :
  parse_number s = Some (v, r) -> wf_json v = true.
Proof.
  unfold parse_number. destruct (span_num s) as [t r0].
  destruct (valid_number t) eqn:Hv; [|discriminate].
  destruct (String.eqb t "-0") eqn:Hz; intros H; inversion H; subst.
  - reflexivity.
  - cbn [wf_json]. unfold number_token. now rewrite Hv, Hz.
Qed.

Lemma parse_atom_wf (s : string) (v : json) (r : string) :
  parse_atom s = Some (v, r) -> wf_json v = true.
Proof.
  unfold parse_atom. destruct s as [|c s']; [discriminate|].
  destruct (is_digit c); [apply parse_number_wf|].
  destruct (Ascii.eqb c "-").
  - destruct (strip_prefix "Infinity" s').
    + intros H; inversion H; reflexivity.
    + apply parse_number_wf.
  - repeat match goal with
           | |- context [match strip_prefix ?p ?x with _ => _ end] =>
               destruct (strip_prefix p x)
           end; intros H; inversion H; reflexivity.
Qed.

Lemma dict_set_keys (k : pystr) (v : json) (d : list (pystr * json)) :
  map fst (dict_set k v d)
  = if existsb (pystr_eqb k) (map fst d) then map fst d else map fst d ++ [k].
Proof.
  induction d as [|[k' v'] d IH]; [reflexivity|]. cbn [dict_set map fst existsb].
  destruct (pystr_eqb k k'); [reflexivity|]. cbn [map fst orb]. rewrite IH.
  now destruct (existsb (pystr_eqb k) (map fst d)).
Qed.

Lemma nodup_keys_snoc (k : pystr) (ks : list pystr) :
  nodup_keys ks = true -> existsb (pystr_eqb k) ks = false ->
  nodup_keys (ks ++ [k]) = true.
Proof.
  induction ks as [|k' ks IH]; [reflexivity|]. cbn [nodup_keys existsb app].
  intros H1 H2. apply andb_true_iff in H1 as [H1 H1'].
  apply orb_false_iff in H2 as [H2 H2'].
  rewrite (IH H1' H2'), andb_true_r, existsb_app. cbn [existsb].
  apply negb_true_iff in H1. rewrite H1, orb_false_r. cbn [orb negb].
  apply negb_true_iff. apply pystr_eqb_neq. apply pystr_eqb_neq in H2. congruence.
Qed.

Lemma dict_set_wf (k : pystr) (v : json) (d : list (pystr * json)) :
  wf_json (JObj d) = true -> wf_json v = true ->
  wf_json (JObj (dict_set k v d)) = true.
Proof.
  cbn [wf_json]. intros H Hv. apply andb_true_iff in H as [Hk Hd].
  apply andb_true_iff; split.
  - rewrite dict_set_keys.
    destruct (existsb (pystr_eqb k) (map fst d)) eqn:E; [exact Hk|].
    now apply nodup_keys_snoc.
  - clear Hk. induction d as [|[k' v'] d IH]; cbn [dict_set forallb snd].
    + now rewrite Hv.
    + cbn [forallb snd] in Hd. apply andb_true_iff in Hd as [H1 H2].
      destruct (pystr_eqb k k'); cbn [forallb snd].
      * now rewrite Hv, H2.
      * now rewrite H1, (IH H2).
Qed.

Lemma parse_wf (fuel : nat) :
  (forall s v r, parse_value fuel s = Some (v, r) -> wf_json v = true)
  /\ (forall s acc v r, parse_items fuel s acc = Some (v, r) ->
        forallb wf_json acc = true -> wf_json v = true)
  /\ (forall s acc v r, parse_members fuel s acc = Some (v, r) ->
        wf_json (JObj acc) = true -> wf_json v = true).
Proof.
  induction fuel as [|f (IHv & IHi & IHm)];
    [repeat split; intros; discriminate|].
  repeat split.
  - intros s v r. cbn [parse_value]. destruct s as [|c s']; [discriminate|].
    destruct (Ascii.eqb c dquote).
    { destruct (scan_string s') as [[u r']|]; intros H; inversion H; reflexivity. }
    destruct (Ascii.eqb c "[").
    { destruct (strip_prefix "]" (skip_ws s')).
      - intros H; inversion H; reflexivity.
      - intros H. now apply (IHi _ _ _ _ H). }
    destruct (Ascii.eqb c "{").
    { destruct (strip_prefix "}" (skip_ws s')).
      - intros H; inversion H; reflexivity.
      - intros H. now apply (IHm _ _ _ _ H). }
    apply parse_atom_wf.
  - intros s acc v r. cbn [parse_items].
    destruct (parse_value f s) as [[x r0]|] eqn:Ex; [|discriminate].
    apply IHv in Ex. intros H Hacc.
    assert (Hall : forallb wf_json (acc ++ [x]) = true).
    { rewrite forallb_app, Hacc. cbn [forallb]. now rewrite Ex. }
    destruct (skip_ws r0) as [|c r']; [discriminate|].
    destruct (Ascii.eqb c ","); [now apply (IHi _ _ _ _ H)|].
    destruct (Ascii.eqb c "]"); [|discriminate]. inversion H; subst. exact Hall.
  - intros s acc v r. cbn [parse_members].
    destruct (strip_prefix (String dquote "") s) as [r0|]; [|discriminate].
    destruct (scan_string r0) as [[k r1]|]; [|discriminate].
    destruct (strip_prefix ":" (skip_ws r1)) as [r2|]; [|discriminate].
    destruct (parse_value f (skip_ws r2)) as [[x r3]|] eqn:Ex; [|discriminate].
    apply IHv in Ex. intros H Hacc.
    pose proof (dict_set_wf k x acc Hacc Ex) as Hset.
    destruct (skip_ws r3) as [|c r4]; [discriminate|].
    destruct (Ascii.eqb c ","); [now apply (IHm _ _ _ _ H)|].
    destruct (Ascii.eqb c "}"); [|discriminate]. inversion H; subst. exact Hset.
Qed.

Theorem json_loads_wf (s : string) (v : json) :
  json_loads s = Some v -> wf_json v = true.
Proof.
  unfold json_loads.
  destruct (parse_value _ _) as [[x r]|] eqn:E; [|discriminate].
  destruct (skip_ws r); [|discriminate]. intros H; inversion H; subst.
  exact (proj1 (parse_wf _) _ _ _ E).
Qed.

(** ** Computations and their logs *)

Lemma bind_Ret {A B : Type} (a : A) (l : list event) (k : A -> M B) :
  bind (Ret a, l) k = (fst (k a), l ++ snd (k a)).
Proof. unfold bind. now destruct (k a). Qed.

Lemma bind_Raise {A B : Type} (e : exn) (l : list event) (k : A -> M B) :
  bind (Raise e, l) k = (Raise e, l).
Proof. reflexivity. Qed.

Lemma bind_emit {B : Type} (e : event) (k : unit -> M B) :
  bind (emit e) k = (fst (k tt), e :: snd (k tt)).
Proof. unfold emit. now rewrite bind_Ret. Qed.

Lemma bind_print {B : Type} (args : list printable) (k : unit -> M B) :
  bind (print args) k = (fst (k tt), Print args :: snd (k tt)).
Proof. apply bind_emit. Qed.

Lemma bind_ret {A B : Type} (a : A) (k : A -> M B) : bind (ret a) k = k a.
Proof. unfold ret. rewrite bind_Ret. now destruct (k a). Qed.

Lemma create_run (w : World) (req : chat_request) :
  create w req = (chat_completions_create w req, [Transport req]).
Proof. reflexivity. Qed.

Lemma transports_app (l1 l2 : list event) :
  transports (l1 ++ l2) = transports l1 ++ transports l2.
Proof.
  induction l1 as [|e l1 IH]; [reflexivity|].
  destruct e; cbn [app transports]; now rewrite IH.
Qed.

Lemma executions_app (l1 l2 : list event) :
  executions (l1 ++ l2) = executions l1 ++ executions l2.
Proof.
  induction l1 as [|e l1 IH]; [reflexivity|].
  destruct e; cbn [app executions]; now rewrite IH.
Qed.

Lemma lookups_app (l1 l2 : list event) :
  lookups (l1 ++ l2) = lookups l1 ++ lookups l2.
Proof.
  induction l1 as [|e l1 IH]; [reflexivity|].
  destruct e; cbn [app lookups]; now rewrite IH.
Qed.

Lemma printed_app (l1 l2 : list event) :
  printed (l1 ++ l2) = printed l1 ++ printed l2.
Proof.
  induction l1 as [|e l1 IH]; [reflexivity|].
  destruct e; cbn [app printed]; now rewrite IH.
Qed.

(** ** The loops of the CLI scripts are [cli_tool_loop] *)

Lemma groq_tool_loop (w : World) (calls : list tool_call) (acc : list message) :
  groq_weather_function_call.tool_loop w calls acc = cli_tool_loop GroqCli w calls acc.
Proof.
  revert acc. induction calls as [|call rest IH]; intros acc; [reflexivity|].
  cbn [groq_weather_function_call.tool_loop cli_tool_loop dispatched].
  destruct (negb _).
  - now rewrite !bind_print, IH.
  - unfold loads. destruct (json_loads _) as [args|]; [|reflexivity].
    rewrite !bind_ret, !bind_print. cbn [fst snd].
    change (executor GroqCli w) with (groq_weather_function_call.get_current_weather w).
    change (parameter GroqCli) with (codes "location").
    destruct (call_with_kwargs _ _ _ _) as [[out|e] l]; [|reflexivity].
    rewrite !bind_Ret, !bind_print. cbn [fst snd]. now rewrite IH.
Qed.

Lemma openai_tool_loop (w : World) (calls : list tool_call) (acc : list message) :
  openai_stock_function_call.tool_loop w calls acc = cli_tool_loop OpenAICli w calls acc.
Proof.
  revert acc. induction calls as [|call rest IH]; intros acc; [reflexivity|].
  cbn [openai_stock_function_call.tool_loop cli_tool_loop dispatched].
  destruct (negb _).
  - now rewrite !bind_print, IH.
  - unfold loads. destruct (json_loads _) as [args|]; [|reflexivity].
    rewrite !bind_ret, !bind_print. cbn [fst snd].
    change (executor OpenAICli w)
      with (openai_stock_function_call.get_current_stock_price w).
    change (parameter OpenAICli) with (codes "stock_symbol").
    destruct (call_with_kwargs _ _ _ _) as [[out|e] l]; [|reflexivity].
    rewrite !bind_Ret, !bind_print. cbn [fst snd]. now rewrite IH.
Qed.

(** ** The executors reach the data providers and nothing else *)


Lemma quiet_ret {A : Type} (a : A) : quiet (ret a).
Proof. repeat split. Qed.

Lemma quiet_raise {A : Type} (e : exn) : quiet (@raise A e).
Proof. repeat split. Qed.

Lemma quiet_lift {A : Type} (r : result A) : quiet (lift r).
Proof. repeat split. Qed.

Lemma quiet_bind {A B : Type} (m : M A) (k : A -> M B) :
  quiet m -> (forall a, quiet (k a)) -> quiet (bind m k).
Proof.
  intros (H1 & H2 & H3) Hk. destruct m as [[a|e] l]; [|now repeat split].
  rewrite bind_Ret. destruct (Hk a) as (K1 & K2 & K3). cbn [snd] in *.
  unfold quiet. cbn [snd].
  now rewrite transports_app, executions_app, printed_app, H1, H2, H3, K1, K2, K3.
Qed.

Lemma quiet_getitem (obj : json) (key : pystr) : quiet (getitem obj key).
Proof.
  destruct obj; try apply quiet_raise. cbn [getitem].
  destruct (dict_get key members); [apply quiet_ret | apply quiet_raise].
Qed.

Lemma quiet_getitem0 (obj : json) : quiet (getitem0 obj).
Proof.
  destruct obj as [| | |s|[|x l]|]; try apply quiet_raise; try apply quiet_ret.
  cbn [getitem0]. destruct (first_char s); [apply quiet_ret | apply quiet_raise].
Qed.

Lemma quiet_response_json (r : response) : quiet (response_json r).
Proof.
  unfold response_json.
  destruct (json_loads (text r)); [apply quiet_ret | apply quiet_raise].
Qed.

Create HintDb quiet.

#[local] Hint Resolve quiet_ret quiet_raise quiet_lift quiet_getitem
  quiet_getitem0 quiet_response_json : quiet.

Ltac quiet_steps :=
  repeat first
    [ apply quiet_bind; [|intros]
    | solve [auto with quiet]
    | solve [repeat split] ].

Lemma quiet_openweathermap (w : World) (location : json) (api_key : string) :
  quiet (openweathermap_weather w location api_key).
Proof.
  unfold openweathermap_weather.
  apply quiet_bind; [repeat split|intros _].
  destruct (requests_get w _ _ _) as [exc|e|r]; [apply quiet_ret|apply quiet_raise|].
  destruct (raises_for_status r); [apply quiet_ret|].
  quiet_steps.
Qed.

Lemma quiet_executor (s : script) (w : World) (v : json) : quiet (executor s w v).
Proof.
  destruct s; cbn [executor].
  - unfold groq_weather_function_call.get_current_weather.
    apply quiet_bind; [|intros; apply quiet_openweathermap].
    unfold groq_weather_function_call.require_env.
    destruct (getenv w _) as [[|c k]|]; auto with quiet.
  - unfold openai_stock_function_call.get_current_stock_price.
    destruct (negb (py_truthy v)); [apply quiet_ret|].
    apply quiet_bind; [repeat split|intros _].
    destruct (ticker_history w v _) as [exc|rows]; [apply quiet_ret|].
    destruct (rev rows); [apply quiet_ret|]. quiet_steps.
  - unfold fastmcp_groq_weather_server.get_current_weather.
    destruct (getenv w _) as [[|c k]|]; auto with quiet.
    apply quiet_openweathermap.
Qed.

(** ** One request in a CLI loop *)

Lemma call_with_kwargs_run (param : pystr) (f : json -> M string)
  (call : tool_call) (args : json) :
  call_with_kwargs param f call args
  = match args with
    | JObj [(k, v)] =>
        if pystr_eqb k param
        then (fst (f v), Execute call v :: snd (f v))
        else (Raise TypeError, [])
    | _ => (Raise TypeError, [])
    end.
Proof.
  destruct args as [| | | | |[|[k v] [|? ?]]]; try reflexivity.
  cbn [call_with_kwargs]. destruct (pystr_eqb k param); [|reflexivity].
  apply bind_emit.
Qed.

(** The arguments of a request bind to [v]. *)
Lemma argument_of_Some (s : script) (call : tool_call) (v : json) :
  argument_of s call = Some v ->
  exists k, json_loads (function_arguments call) = Some (JObj [(k, v)])
            /\ pystr_eqb k (parameter s) = true.
Proof.
  unfold argument_of.
  destruct (json_loads _) as [[| | | | |[|[k x] [|? ?]]]|]; try discriminate.
  destruct (pystr_eqb k (parameter s)) eqn:E; [|discriminate].
  intros H; inversion H; subst. now exists k.
Qed.

(** The executions of a dispatched request: decoding, binding, running. *)
Lemma cli_tool_loop_cons (s : script) (w : World) (call : tool_call)
  (rest : list tool_call) (acc : list message) :
  cli_tool_loop s w (call :: rest) acc
  = if dispatched s call then
      match json_loads (function_arguments call) with
      | None => (Raise JSONDecodeError, [])
      | Some args =>
          match argument_of s call with
          | None => (Raise TypeError, [Print [PStr (arguments_text s); PValue args]])
          | Some v =>
              match executor s w v with
              | (Raise e, l) =>
                  (Raise e,
                   Print [PStr (arguments_text s); PValue args] :: Execute call v :: l)
              | (Ret out, l) =>
                  let m := cli_tool_loop s w rest (acc ++ [tool_message call out]) in
                  (fst m,
                   Print [PStr (arguments_text s); PValue args]
                   :: Execute call v :: l
                   ++ Print [PStr "Tool output (JSON):"; PStr out] :: snd m)
              end
          end
      end
    else
      let m := cli_tool_loop s w rest acc in
      (fst m, Print [PStr (skip_text s +++ function_name call)] :: snd m).
Proof.
  cbn [cli_tool_loop]. destruct (dispatched s call); cbn [negb].
  2: now rewrite bind_print.
  unfold loads, argument_of.
  destruct (json_loads _) as [args|]; [|reflexivity].
  rewrite bind_ret, bind_print, call_with_kwargs_run. cbn [fst snd].
  destruct args as [| | | | |[|[k v] [|? ?]]]; try reflexivity.
  destruct (pystr_eqb k (parameter s)); [|reflexivity].
  destruct (executor s w v) as [[out|e] l]; cbn [fst snd]; [|reflexivity].
  rewrite bind_Ret, bind_print. reflexivity.
Qed.

Lemma executor_run (s : script) (w : World) (v : json) (r : result string)
  (l : list event) :
  executor s w v = (r, l) ->
  transports l = [] /\ executions l = [] /\ printed l = [].
Proof. intros E. pose proof (quiet_executor s w v) as H. now rewrite E in H. Qed.

(** What holds of every run of the loop: it makes no transport call, it
    executes only requests it dispatches, with the argument they bind, and
    the messages it adds are the results of its executions, in order. *)
Lemma cli_tool_loop_invariant (s : script) (w : World) (calls : list tool_call) :
  forall acc,
    transports (snd (cli_tool_loop s w calls acc)) = []
    /\ Forall (fun cv => In (fst cv) calls /\ dispatched s (fst cv) = true
                         /\ argument_of s (fst cv) = Some (snd cv))
              (executions (snd (cli_tool_loop s w calls acc)))
    /\ forall msgs, fst (cli_tool_loop s w calls acc) = Ret msgs ->
         exists new, msgs = acc ++ new
           /\ Forall2 (fun cv msg => exists out,
                         fst (executor s w (snd cv)) = Ret out
                         /\ msg = tool_message (fst cv) out)
                      (executions (snd (cli_tool_loop s w calls acc))) new.
Proof.
  induction calls as [|call rest IH]; intros acc.
  - repeat split; [constructor|]. intros msgs H. inversion H; subst.
    exists []. now rewrite app_nil_r.
  - rewrite cli_tool_loop_cons. destruct (dispatched s call) eqn:Hd.
    + destruct (json_loads _) as [args|]; [|repeat split; [constructor|discriminate]].
      destruct (argument_of s call) as [v|] eqn:Ha;
        [|repeat split; [constructor|discriminate]].
      destruct (executor s w v) as [[out|e] l] eqn:He;
        destruct (executor_run _ _ _ _ _ He) as (T & X & _).
      * destruct (IH (acc ++ [tool_message call out])) as (IT & IX & IM).
        cbn [fst snd transports executions].
        rewrite transports_app, executions_app, T, X. cbn [app transports executions].
        split; [exact IT|]. split.
        { constructor; [cbn [fst snd]; auto using in_eq|].
          eapply Forall_impl; [|exact IX]. intros cv (H1 & H2 & H3).
          auto using in_cons. }
        intros msgs H. destruct (IM msgs H) as (new & -> & HF).
        exists (tool_message call out :: new). rewrite <- app_assoc.
        split; [reflexivity|]. constructor; [|exact HF].
        exists out. cbn [fst snd]. now rewrite He.
      * cbn [fst snd transports executions]. rewrite T, X.
        repeat split; [|discriminate].
        constructor; [cbn [fst snd]; auto using in_eq|constructor].
    + destruct (IH acc) as (IT & IX & IM). cbn [fst snd transports executions].
      split; [exact IT|]. split; [|exact IM].
      eapply Forall_impl; [|exact IX]. intros cv (H1 & H2 & H3).
      auto using in_cons.
Qed.

(** When every dispatched request is served, the loop returns one message
    per dispatched request, in request order. *)
Lemma cli_tool_loop_served (s : script) (w : World) (calls : list tool_call) :
  Forall (fun c => output_of s w c <> None) (filter (dispatched s) calls) ->
  forall acc, exists new,
    fst (cli_tool_loop s w calls acc) = Ret (acc ++ new)
    /\ map fst (executions (snd (cli_tool_loop s w calls acc)))
       = filter (dispatched s) calls
    /\ Forall2 (fun c msg => exists out,
                  output_of s w c = Some out /\ msg = tool_message c out)
               (filter (dispatched s) calls) new.
Proof.
  induction calls as [|call rest IH]; intros Hs acc.
  - exists []. cbn. now rewrite app_nil_r.
  - rewrite cli_tool_loop_cons. cbn [filter] in *.
    destruct (dispatched s call) eqn:Hd.
    + inversion Hs as [|? ? Hc Hrest]; subst. unfold output_of in Hc.
      destruct (argument_of s call) as [v|] eqn:Ha; [|congruence].
      destruct (argument_of_Some _ _ _ Ha) as (k & -> & _).
      destruct (executor s w v) as [[out|e] l] eqn:He; cbn [fst] in Hc; [|congruence].
      destruct (executor_run _ _ _ _ _ He) as (_ & X & _).
      destruct (IH Hrest (acc ++ [tool_message call out])) as (new & E1 & E2 & E3).
      exists (tool_message call out :: new). cbn [fst snd executions].
      rewrite executions_app, X. cbn [app executions map fst].
      rewrite E1, E2, <- app_assoc. repeat split.
      constructor; [|exact E3]. exists out. split; [|reflexivity].
      unfold output_of. now rewrite Ha, He.
    + destruct (IH Hs acc) as (new & E1 & E2 & E3). exists new.
      cbn [fst snd executions]. auto.
Qed.

(** The loop stops at the first dispatched request whose arguments do not
    decode. *)
Lemma cli_tool_loop_stops (s : script) (w : World) (pre post : list tool_call)
  (call : tool_call) :
  Forall (fun c => dispatched s c = false \/ output_of s w c <> None) pre ->
  dispatched s call = true ->
  json_loads (function_arguments call) = None ->
  forall acc,
    fst (cli_tool_loop s w (pre ++ call :: post) acc) = Raise JSONDecodeError
    /\ map fst (executions (snd (cli_tool_loop s w (pre ++ call :: post) acc)))
       = filter (dispatched s) pre.
Proof.
  intros Hpre Hd Hl. induction pre as [|c pre IH]; intros acc.
  - cbn [app filter]. rewrite cli_tool_loop_cons, Hd, Hl. split; reflexivity.
  - inversion Hpre as [|? ? Hc Hrest]; subst. cbn [app filter].
    rewrite cli_tool_loop_cons. destruct (dispatched s c) eqn:Hdc.
    + destruct Hc as [Hc|Hc]; [discriminate|]. unfold output_of in Hc.
      destruct (argument_of s c) as [v|] eqn:Ha; [|congruence].
      destruct (argument_of_Some _ _ _ Ha) as (k & -> & _).
      destruct (executor s w v) as [[out|e] l] eqn:He; cbn [fst] in Hc; [|congruence].
      destruct (executor_run _ _ _ _ _ He) as (_ & X & _).
      destruct (IH Hrest (acc ++ [tool_message c out])) as (E1 & E2).
      cbn [fst snd executions]. rewrite executions_app, X.
      cbn [app executions map fst]. now rewrite E1, E2.
    + destruct (IH Hrest acc) as (E1 & E2). cbn [fst snd executions]. auto.
Qed.

(** A loop that dispatches nothing prints one line per request. *)
Lemma cli_tool_loop_skips (s : script) (w : World) (calls : list tool_call)
  (acc : list message) :
  Forall (fun c => dispatched s c = false) calls ->
  cli_tool_loop s w calls acc
  = (Ret acc, map (fun c => Print [PStr (skip_text s +++ function_name c)]) calls).
Proof.
  induction 1 as [|c calls Hc _ IH]; [reflexivity|].
  now rewrite cli_tool_loop_cons, Hc, IH.
Qed.

(** ** The tool phase *)

Lemma tool_phase_invariant (s : script) (w : World) (calls : list tool_call) :
  transports (snd (tool_phase s w calls)) = []
  /\ Forall (fun cv => In (fst cv) calls /\ dispatched s (fst cv) = true
                       /\ argument_of s (fst cv) = Some (snd cv))
            (executions (snd (tool_phase s w calls)))
  /\ forall msgs, fst (tool_phase s w calls) = Ret msgs ->
       Forall2 (fun cv msg => exists out,
                  fst (executor s w (snd cv)) = Ret out
                  /\ msg = result_message s (fst cv) out)
               (executions (snd (tool_phase s w calls))) msgs.
Proof.
  destruct s; cbn [tool_phase].
  1, 2: match goal with
        | |- context [cli_tool_loop ?s _ _ _] =>
            destruct (cli_tool_loop_invariant s w calls []) as (T & X & Hm)
        end;
    split; [exact T|]; split; [exact X|]; intros msgs H;
    destruct (Hm msgs H) as (new & -> & HF); exact HF.
  destruct calls as [|call0 rest]; [repeat split; [constructor|]|].
  { intros msgs H; inversion H; constructor. }
  unfold loads.
  destruct (json_loads (function_arguments call0)) as [args|] eqn:El;
    [|repeat split; [constructor|discriminate]].
  rewrite bind_ret, call_with_kwargs_run.
  destruct args as [| | | | |[|[k v] [|? ?]]];
    try (repeat split; [constructor|discriminate]).
  destruct (pystr_eqb k (parameter FastMcpServer)) eqn:Ek;
    [|repeat split; [constructor|discriminate]].
  assert (Ha : argument_of FastMcpServer call0 = Some v).
  { unfold argument_of. now rewrite El, Ek. }
  destruct (executor FastMcpServer w v) as [[out|e] l] eqn:He;
    destruct (executor_run _ _ _ _ _ He) as (T & X & _); cbn [fst snd].
  - rewrite bind_Ret. cbn [fst snd ret]. rewrite app_nil_r.
    cbn [transports executions]. rewrite T, X. repeat split.
    + constructor; [cbn [fst snd]; auto using in_eq|constructor].
    + intros msgs H. inversion H; subst. constructor; [|constructor].
      exists out. cbn [fst snd]. now rewrite He.
  - rewrite bind_Raise. cbn [fst snd transports executions]. rewrite T, X.
    repeat split; [|discriminate].
    constructor; [cbn [fst snd]; auto using in_eq|constructor].
Qed.

Lemma tool_phase_served (s : script) (w : World) (calls : list tool_call) :
  Forall (fun c => output_of s w c <> None) (considered s calls) ->
  exists msgs,
    fst (tool_phase s w calls) = Ret msgs
    /\ map fst (executions (snd (tool_phase s w calls))) = considered s calls
    /\ Forall2 (fun c msg => exists out,
                  output_of s w c = Some out /\ msg = result_message s c out)
               (considered s calls) msgs.
Proof.
  destruct s; cbn [tool_phase considered]; intros Hs.
  1, 2: match goal with
        | |- context [cli_tool_loop ?s _ _ _] =>
            destruct (cli_tool_loop_served s w calls Hs []) as (new & E1 & E2 & E3)
        end;
    exists new; auto.
  destruct calls as [|call0 rest]; [exists []; repeat split; constructor|].
  cbn [firstn] in *. inversion Hs as [|? ? Hc _]; subst. unfold output_of in Hc.
  destruct (argument_of FastMcpServer call0) as [v|] eqn:Ha; [|congruence].
  destruct (argument_of_Some _ _ _ Ha) as (k & El & Ek).
  destruct (executor FastMcpServer w v) as [[out|e] l] eqn:He;
    cbn [fst] in Hc; [|congruence].
  destruct (executor_run _ _ _ _ _ He) as (_ & X & _).
  exists [result_message FastMcpServer call0 out].
  unfold loads. rewrite El, bind_ret, call_with_kwargs_run, Ek, He. cbn [fst snd].
  rewrite bind_Ret. cbn [fst snd ret]. rewrite app_nil_r.
  cbn [executions map fst]. rewrite X. repeat split.
  constructor; [|constructor]. exists out. split; [|reflexivity].
  unfold output_of. now rewrite Ha, He.
Qed.

Lemma tool_phase_stops (s : script) (w : World) (pre post : list tool_call)
  (call : tool_call) :
  (s = FastMcpServer -> pre = []) ->
  Forall (fun c => dispatched s c = false \/ output_of s w c <> None) pre ->
  dispatched s call = true ->
  json_loads (function_arguments call) = None ->
  fst (tool_phase s w (pre ++ call :: post)) = Raise JSONDecodeError
  /\ map fst (executions (snd (tool_phase s w (pre ++ call :: post))))
     = filter (dispatched s) pre.
Proof.
  intros Hf Hpre Hd Hl. destruct s; cbn [tool_phase].
  1, 2: now apply cli_tool_loop_stops.
  rewrite (Hf eq_refl). cbn [app]. unfold loads. now rewrite Hl.
Qed.

(** ** The shape of a run *)

Lemma bind_ret_None (m : M unit) :
  bind m (fun _ => @ret (option string) None)
  = (match fst m with Ret _ => Ret None | Raise e => Raise e end, snd m).
Proof.
  destruct m as [[[]|e] l]; [|reflexivity].
  rewrite bind_Ret. cbn [fst snd ret]. now rewrite app_nil_r.
Qed.

Ltac log_simpl :=
  cbn [print emit fst snd app transports executions printed];
  rewrite ?transports_app, ?executions_app, ?printed_app;
  cbn [print emit fst snd app transports executions printed].

Ltac run_steps :=
  repeat first
    [ rewrite bind_Ret | rewrite bind_Raise | rewrite bind_print
    | rewrite bind_ret | rewrite create_run
    | progress cbn [fst snd] | progress cbv beta iota ].

Lemma orchestrate_shape (s : script) (w : World) (question : string)
  (reply : chat_message) :
  chat_completions_create w (round_one s question) = Ret reply ->
  executions (snd (orchestrate s w question))
  = executions (snd (tool_phase s w (tool_calls_or_empty reply)))
  /\ match fst (tool_phase s w (tool_calls_or_empty reply)) with
     | Raise e =>
         fst (orchestrate s w question) = Raise e
         /\ transports (snd (orchestrate s w question)) = [round_one s question]
     | Ret [] =>
         fst (orchestrate s w question) = Ret (early_answer s reply)
         /\ transports (snd (orchestrate s w question)) = [round_one s question]
     | Ret (x :: msgs) =>
         transports (snd (orchestrate s w question))
         = [round_one s question; round_two s question reply (x :: msgs)]
         /\ fst (orchestrate s w question)
            = match chat_completions_create w
                      (round_two s question reply (x :: msgs)) with
              | Ret final => Ret (final_answer s final)
              | Raise e => Raise e
              end
     end.
Proof.
  intros Hchat.
  pose proof (tool_phase_invariant s w (tool_calls_or_empty reply)) as (T & _ & _).
  destruct s; cbn [orchestrate round_one] in *.
  - (* groq_weather_function_call *)
    rewrite bind_ret_None. unfold groq_weather_function_call.call_model_with_tools.
    rewrite create_run, Hchat. run_steps. cbn [tool_phase] in *.
    destruct (tool_calls_or_empty reply) as [|c calls] eqn:Ec.
    + run_steps. cbn. repeat split.
    + rewrite groq_tool_loop.
      destruct (cli_tool_loop GroqCli w (c :: calls) []) as [[[|x msgs]|e] l];
        cbn [fst snd] in *; run_steps.
      * log_simpl. rewrite T, app_nil_r. repeat split.
      * unfold round_two, extended, conversation.
        cbn [round_one echoed messages groq_weather_function_call.first_request].
        rewrite Ec.
        clear Hchat.
      destruct (chat_completions_create w _) as [final|e]; run_steps;
          log_simpl; rewrite T, ?app_nil_r; repeat split.
      * log_simpl. rewrite T. repeat split.
  - (* openai_stock_function_call *)
    rewrite bind_ret_None. unfold openai_stock_function_call.call_model_with_tools.
    rewrite create_run, Hchat. run_steps. cbn [tool_phase] in *.
    rewrite openai_tool_loop.
    destruct (cli_tool_loop OpenAICli w (tool_calls_or_empty reply) [])
      as [[[|x msgs]|e] l]; cbn [fst snd] in *; run_steps.
    + log_simpl. rewrite T, app_nil_r. repeat split.
    + unfold round_two, extended, conversation.
      cbn [round_one echoed messages openai_stock_function_call.first_request].
      clear Hchat.
      destruct (chat_completions_create w _) as [final|e]; run_steps;
        log_simpl; rewrite T, ?app_nil_r; repeat split.
    + log_simpl. rewrite T. repeat split.
  - (* fastmcp_groq_weather_server *)
    unfold fastmcp_groq_weather_server.get_weather_with_groq.
    rewrite create_run, Hchat. run_steps. cbn [tool_phase] in *.
    destruct (tool_calls_or_empty reply) as [|call0 rest] eqn:Ec; [cbn; repeat split|].
    change (fastmcp_groq_weather_server.get_current_weather w)
      with (executor FastMcpServer w).
    change (codes "location") with (parameter FastMcpServer).
    unfold loads in *.
    destruct (json_loads (function_arguments call0)) as [args|].
    2: { run_steps. cbn. repeat split. }
    rewrite bind_ret in T. rewrite !bind_ret.
    destruct (call_with_kwargs _ _ call0 args) as [[out|e] l1] eqn:Ek.
    2: { rewrite bind_Raise in T. rewrite ?Ek. run_steps. cbn [fst snd] in T.
         log_simpl. rewrite T. repeat split. }
    rewrite bind_Ret in T. cbn [fst snd ret] in T. rewrite app_nil_r in T.
    rewrite ?Ek. run_steps. cbn [fst snd ret].
    unfold round_two, extended, conversation.
    cbn [round_one echoed messages fastmcp_groq_weather_server.first_request
         result_message].
    rewrite Ec. cbn [firstn map app]. clear Hchat.
    destruct (chat_completions_create w _) as [final|e]; run_steps;
      log_simpl; rewrite T, ?app_nil_r; repeat split.
Qed.

(** ** Facts shared by the claims *)

Lemma declared_dispatched (s : script) (call : tool_call) :
  declared s call -> dispatched s call = true.
Proof.
  unfold declared. destruct s; cbn; intros [H|[]]; try reflexivity;
    rewrite <- H; reflexivity.
Qed.

Lemma messages_round_two (s : script) (q : string) (reply : chat_message)
  (msgs : list message) :
  messages (round_two s q reply msgs) = extended s q reply msgs.
Proof. destruct s; reflexivity. Qed.

Lemma tool_results_app (l1 l2 : list message) :
  tool_results (l1 ++ l2) = tool_results l1 ++ tool_results l2.
Proof.
  induction l1 as [|m l1 IH]; [reflexivity|].
  destruct m; cbn [app tool_results]; now rewrite IH.
Qed.

Lemma tool_results_conversation (s : script) (q : string) :
  tool_results (conversation s q) = [].
Proof. destruct s; reflexivity. Qed.

Lemma tool_results_extended (s : script) (q : string) (reply : chat_message)
  (msgs : list message) :
  tool_results (extended s q reply msgs) = tool_results msgs.
Proof.
  unfold extended. now rewrite !tool_results_app, tool_results_conversation.
Qed.

Lemma orchestrate_no_reply (s : script) (w : World) (q : string) (e : exn) :
  chat_completions_create w (round_one s q) = Raise e ->
  orchestrate s w q = (Raise e, [Transport (round_one s q)]).
Proof.
  intros H. destruct s; cbn [orchestrate round_one] in *.
  - unfold groq_weather_function_call.call_model_with_tools.
    now rewrite create_run, H.
  - unfold openai_stock_function_call.call_model_with_tools.
    now rewrite create_run, H.
  - unfold fastmcp_groq_weather_server.get_weather_with_groq.
    now rewrite create_run, H.
Qed.

Lemma entry_point_outcome (s : script) (w : World) (arg : string) :
  fst (entry_point s w arg) = fst (orchestrate s w (entry_question s arg)).
Proof.
  destruct s; cbn [entry_point orchestrate entry_question]; [| |reflexivity].
  - unfold groq_weather_function_call.main. rewrite !bind_ret_None.
    now rewrite bind_print.
  - unfold openai_stock_function_call.main. rewrite !bind_ret_None.
    now rewrite bind_print.
Qed.

Lemma output_of_Some (s : script) (w : World) (call : tool_call) (out : string) :
  output_of s w call = Some out ->
  exists v, argument_of s call = Some v /\ fst (executor s w v) = Ret out.
Proof.
  unfold output_of. destruct (argument_of s call) as [v|]; [|discriminate].
  destruct (fst (executor s w v)) as [o|e] eqn:E; [|discriminate].
  intros H; inversion H; subst. now exists v.
Qed.

Lemma output_of_intro (s : script) (w : World) (call : tool_call) (v : json)
  (out : string) :
  argument_of s call = Some v -> fst (executor s w v) = Ret out ->
  output_of s w call = Some out.
Proof. intros Ha He. unfold output_of. now rewrite Ha, He. Qed.

(* ===================================================================== *)
(** * The claims *)
(* ===================================================================== *)

(** ** C1 *)

(** C1, as amended.  When the model's first response requests exactly one
    invocation, of a tool the script declares, whose arguments decode to a
    dict binding exactly the executor's parameter, and the execution
    returns, the run makes exactly two transport calls and one tool
    execution, and the second call carries the first round's messages,
    the assistant echo and one tool-result message: two messages more. *)
Theorem one_declared_request_two_rounds (s : script) (w : World) (q : string)
  (reply : chat_message) (call : tool_call) (v : json) (out : string) :
  chat_completions_create w (round_one s q) = Ret reply ->
  tool_calls reply = Some [call] ->
  declared s call ->
  argument_of s call = Some v ->
  fst (executor s w v) = Ret out ->
  transports (snd (orchestrate s w q))
  = [round_one s q; round_two s q reply [result_message s call out]]
  /\ executions (snd (orchestrate s w q)) = [(call, v)]
  /\ messages (round_two s q reply [result_message s call out])
     = messages (round_one s q)
       ++ [RoleAssistant (content reply) [echo call]; result_message s call out]
  /\ length (messages (round_two s q reply [result_message s call out]))
     = length (messages (round_one s q)) + 2.
Proof.
  intros Hchat Hcalls Hdecl Harg Hout.
  assert (Ecalls : tool_calls_or_empty reply = [call]).
  { unfold tool_calls_or_empty. now rewrite Hcalls. }
  assert (Econs : considered s [call] = [call]).
  { pose proof (declared_dispatched _ _ Hdecl) as Hd.
    destruct s; cbn [considered filter firstn]; now rewrite ?Hd. }
  destruct (orchestrate_shape s w q reply Hchat) as (HX & Hshape).
  pose proof (tool_phase_invariant s w [call]) as (_ & Hinv & _).
  rewrite Ecalls in *.
  destruct (tool_phase_served s w [call]) as (msgs & Ep & Ex & Hm).
  { rewrite Econs. constructor; [|constructor].
    rewrite (output_of_intro _ _ _ _ _ Harg Hout). discriminate. }
  rewrite Econs in *. rewrite Ep in Hshape.
  inversion Hm as [|? m ? ? (out' & Ho & ->) Hnil]; subst. inversion Hnil; subst.
  rewrite (output_of_intro _ _ _ _ _ Harg Hout) in Ho. inversion Ho; subst out'.
  destruct Hshape as (HT & _). rewrite HX.
  destruct (executions (snd (tool_phase s w [call]))) as [|[c x] [|? ?]];
    try discriminate.
  cbn [map fst] in Ex. inversion Ex; subst c.
  inversion Hinv as [|? ? (_ & _ & Hv) _]; subst. cbn [fst snd] in Hv.
  rewrite Harg in Hv. inversion Hv; subst x.
  assert (Hmsgs : messages (round_two s q reply [result_message s call out])
                  = messages (round_one s q)
                    ++ [RoleAssistant (content reply) [echo call];
                        result_message s call out]).
  { rewrite messages_round_two. unfold extended, conversation.
    rewrite Ecalls. destruct s; reflexivity. }
  repeat split; [exact HT|exact Hmsgs|].
  rewrite Hmsgs, length_app. reflexivity.
Qed.

(** The hypotheses of [one_declared_request_two_rounds] hold of a run of
    each script. *)
Lemma one_declared_request_two_rounds_witness :
  let reply := asks [bengaluru_call] in
  let out := json_dumps (fastmcp_groq_weather_server.demo_payload (JStr (codes "Bengaluru"))) in
  transports (snd (orchestrate FastMcpServer demo_world "What is the weather in Bengaluru?"))
  = [round_one FastMcpServer "What is the weather in Bengaluru?";
     round_two FastMcpServer "What is the weather in Bengaluru?" reply
       [result_message FastMcpServer bengaluru_call out]]
  /\ executions (snd (orchestrate FastMcpServer demo_world "What is the weather in Bengaluru?"))
     = [(bengaluru_call, JStr (codes "Bengaluru"))]
  /\ messages (round_two FastMcpServer "What is the weather in Bengaluru?" reply
                 [result_message FastMcpServer bengaluru_call out])
     = messages (round_one FastMcpServer "What is the weather in Bengaluru?")
       ++ [RoleAssistant (content reply) [echo bengaluru_call];
           result_message FastMcpServer bengaluru_call out]
  /\ length (messages (round_two FastMcpServer "What is the weather in Bengaluru?" reply
                         [result_message FastMcpServer bengaluru_call out]))
     = length (messages (round_one FastMcpServer "What is the weather in Bengaluru?")) + 2.
Proof.
  apply (one_declared_request_two_rounds FastMcpServer demo_world
           "What is the weather in Bengaluru?" (asks [bengaluru_call])
           bengaluru_call (JStr (codes "Bengaluru"))).
  - reflexivity.
  - reflexivity.
  - left. reflexivity.
  - vm_compute. reflexivity.
  - vm_compute. reflexivity.
Defined.

(** C1, as stated, fails: one request for the declared tool, with
    arguments that do not decode, ends the run after one transport call
    and no execution. *)
Lemma one_declared_request_one_round :
  chat_completions_create garbled_world (round_one GroqCli "What is the weather in Bengaluru?")
  = Ret (asks [garbled_call])
  /\ declared GroqCli garbled_call
  /\ orchestrate GroqCli garbled_world "What is the weather in Bengaluru?"
     = (Raise JSONDecodeError,
        [Transport (round_one GroqCli "What is the weather in Bengaluru?");
         Print [PStr (nl +++ "Initial assistant response (should contain a tool call):")];
         Print [PMessage (asks [garbled_call])]])
  /\ length (transports (snd (orchestrate GroqCli garbled_world "What is the weather in Bengaluru?"))) = 1
  /\ executions (snd (orchestrate GroqCli garbled_world "What is the weather in Bengaluru?")) = [].
Proof.
  split; [reflexivity|]. split; [left; reflexivity|].
  split; [vm_compute; reflexivity|]. split; vm_compute; reflexivity.
Qed.

(** ** C2 *)

(** C2, as amended.  When the first response requests no tool, the run
    makes one transport call and executes no tool.  A CLI script returns
    nothing and prints the response's content, as it is, last.  The
    server returns the content when it is a non-empty string, and the
    sentence [Model did not return any content.] when the content is
    missing or the empty string. *)
Theorem no_request_single_round (s : script) (w : World) (q : string)
  (reply : chat_message) :
  chat_completions_create w (round_one s q) = Ret reply ->
  tool_calls_or_empty reply = [] ->
  transports (snd (orchestrate s w q)) = [round_one s q]
  /\ executions (snd (orchestrate s w q)) = []
  /\ match s with
     | FastMcpServer =>
         fst (orchestrate s w q)
         = Ret (Some match content reply with
                     | Some (String a t) => String a t
                     | Some EmptyString | None => "Model did not return any content."
                     end)
     | _ =>
         fst (orchestrate s w q) = Ret None
         /\ last (printed (snd (orchestrate s w q))) [] = [PContent (content reply)]
     end.
Proof.
  intros Hchat Hcalls. destruct s; cbn [orchestrate round_one] in *.
  - rewrite bind_ret_None.
    unfold groq_weather_function_call.call_model_with_tools.
    rewrite create_run, Hchat. run_steps. rewrite Hcalls. run_steps.
    repeat split.
  - rewrite bind_ret_None.
    unfold openai_stock_function_call.call_model_with_tools.
    rewrite create_run, Hchat. run_steps. rewrite Hcalls. cbn. repeat split.
  - unfold fastmcp_groq_weather_server.get_weather_with_groq.
    rewrite create_run, Hchat. run_steps. rewrite Hcalls. cbn.
    repeat split.
Qed.

(** A server run whose first response has neither requests nor content. *)
Lemma no_request_single_round_witness :
  let w := scripted (asks []) None timed_out no_history in
  transports (snd (orchestrate FastMcpServer w "How are you?"))
  = [round_one FastMcpServer "How are you?"]
  /\ executions (snd (orchestrate FastMcpServer w "How are you?")) = []
  /\ fst (orchestrate FastMcpServer w "How are you?")
     = Ret (Some "Model did not return any content.").
Proof.
  apply (no_request_single_round FastMcpServer
           (scripted (asks []) None timed_out no_history)
           "How are you?" (asks [])).
  - reflexivity.
  - reflexivity.
Defined.

(** C2, as stated, fails on the server: a first response without tool
    request whose content is the empty string is answered with another
    text. *)
Lemma empty_content_not_returned :
  let w := scripted (says "") None timed_out no_history in
  chat_completions_create w (round_one FastMcpServer "How are you?") = Ret (says "")
  /\ tool_calls_or_empty (says "") = []
  /\ fst (orchestrate FastMcpServer w "How are you?")
     = Ret (Some "Model did not return any content.")
  /\ ~ surfaces FastMcpServer (orchestrate FastMcpServer w "How are you?")
         (content (says "")).
Proof.
  cbv zeta. repeat split. cbn. discriminate.
Qed.

(** ** C3 *)

Lemma dispatched_declared (s : script) (call : tool_call) :
  s <> FastMcpServer -> dispatched s call = true -> declared s call.
Proof.
  unfold declared. destruct s; cbn; intros Hs H; try congruence;
    apply String.eqb_eq in H; auto.
Qed.

Lemma undeclared_not_dispatched (s : script) (call : tool_call) :
  s <> FastMcpServer -> ~ declared s call -> dispatched s call = false.
Proof.
  intros Hs Hn. destruct (dispatched s call) eqn:E; [|reflexivity].
  destruct Hn. now apply dispatched_declared.
Qed.

Lemma skip_lines_log (f : tool_call -> list printable) (calls : list tool_call) :
  transports (map (fun c => Print (f c)) calls) = []
  /\ executions (map (fun c => Print (f c)) calls) = []
  /\ printed (map (fun c => Print (f c)) calls) = map f calls.
Proof.
  induction calls as [|c calls (IH1 & IH2 & IH3)]; [repeat split|].
  cbn [map transports executions printed]. now rewrite IH3.
Qed.

Lemma Forall2_In_r {A B : Type} (R : A -> B -> Prop) (l1 : list A) (l2 : list B)
  (b : B) :
  Forall2 R l1 l2 -> In b l2 -> exists a, In a l1 /\ R a b.
Proof.
  induction 1 as [|x y l1 l2 Hxy _ IH]; intros Hin; [destruct Hin|].
  destruct Hin as [->|Hin].
  - exists x. split; [now left|exact Hxy].
  - destruct (IH Hin) as (a & Ha & Hr). exists a. split; [now right|exact Hr].
Qed.

(** The loop prints its notice for a request it skips, once it has passed
    the requests before it. *)
Lemma skip_notice_printed (s : script) (w : World) (pre post : list tool_call)
  (call : tool_call) :
  Forall (fun c => dispatched s c = false \/ output_of s w c <> None) pre ->
  dispatched s call = false ->
  forall acc,
    In [PStr (skip_text s +++ function_name call)]
       (printed (snd (cli_tool_loop s w (pre ++ call :: post) acc))).
Proof.
  intros Hpre Hd. induction Hpre as [|c pre Hc _ IH]; intros acc.
  - cbn [app]. rewrite cli_tool_loop_cons, Hd. cbn [snd printed]. now left.
  - cbn [app]. rewrite cli_tool_loop_cons. destruct (dispatched s c) eqn:Hdc.
    + destruct Hc as [Hc|Hc]; [discriminate|]. unfold output_of in Hc.
      destruct (argument_of s c) as [v|] eqn:Ha; [|congruence].
      destruct (argument_of_Some _ _ _ Ha) as (k & -> & _).
      destruct (executor s w v) as [[out|e] l] eqn:He; cbn [fst] in Hc; [|congruence].
      cbn [snd printed]. right. rewrite printed_app. apply in_or_app. right.
      cbn [printed]. right. apply IH.
    + cbn [snd printed]. right. apply IH.
Qed.

(** What the loop prints is part of what the script prints. *)
Lemma loop_lines_printed (s : script) (w : World) (q : string)
  (reply : chat_message) (line : list printable) :
  s <> FastMcpServer ->
  chat_completions_create w (round_one s q) = Ret reply ->
  tool_calls_or_empty reply <> [] ->
  In line (printed (snd (tool_phase s w (tool_calls_or_empty reply)))) ->
  In line (printed (snd (orchestrate s w q))).
Proof.
  intros Hs Hchat Hne Hin.
  destruct s; [| |congruence]; cbn [orchestrate round_one tool_phase] in *.
  - rewrite bind_ret_None. unfold groq_weather_function_call.call_model_with_tools.
    rewrite create_run, Hchat. run_steps. clear Hchat.
    destruct (tool_calls_or_empty reply) as [|c calls] eqn:Ec; [congruence|].
    rewrite groq_tool_loop.
    destruct (cli_tool_loop GroqCli w (c :: calls) []) as [[[|x msgs]|e] l];
      cbn [snd] in Hin.
    + run_steps. log_simpl. right. right. apply in_or_app. now left.
    + run_steps.
      destruct (chat_completions_create w _) as [final|e]; run_steps; log_simpl;
        right; right; apply in_or_app; now left.
    + run_steps. log_simpl. right. right. exact Hin.
  - rewrite bind_ret_None. unfold openai_stock_function_call.call_model_with_tools.
    rewrite create_run, Hchat. run_steps. clear Hchat. rewrite openai_tool_loop.
    destruct (cli_tool_loop OpenAICli w (tool_calls_or_empty reply) [])
      as [[[|x msgs]|e] l]; cbn [snd] in Hin.
    + run_steps. log_simpl. right. right. apply in_or_app. now left.
    + run_steps.
      destruct (chat_completions_create w _) as [final|e]; run_steps; log_simpl;
        right; right; apply in_or_app; now left.
    + run_steps. log_simpl. right. right. exact Hin.
Qed.

(** C3, as amended.  In the two CLI scripts a request is executed only if
    it names the script's declared tool, and every tool-result message
    sent to the model carries the id and the name of an executed request,
    so that a request for an undeclared tool gets neither an execution nor
    a tool-result message.  When the loop reaches such a request (the
    requests before it were skipped or served), it prints its notice for
    it.  When the first response holds requests and none of them names a
    declared tool, nothing is executed, there is no second transport call,
    and the run ends normally after one notice per request and the
    closing lines: the stock script prints the first response's content
    last, the weather script a fixed notice (it printed the whole first
    response before the loop). *)
Theorem undeclared_requests_skipped (s : script) (w : World) (q : string)
  (reply : chat_message) :
  s <> FastMcpServer ->
  chat_completions_create w (round_one s q) = Ret reply ->
  (forall call v, In (call, v) (executions (snd (orchestrate s w q))) ->
     declared s call /\ In call (tool_calls_or_empty reply))
  /\ (forall req i n c,
        In req (transports (snd (orchestrate s w q))) ->
        In (RoleTool i n c) (messages req) ->
        exists call v,
          In (call, v) (executions (snd (orchestrate s w q)))
          /\ declared s call
          /\ i = call_id call
          /\ n = Some (function_name call))
  /\ (forall pre call post,
        tool_calls_or_empty reply = pre ++ call :: post ->
        ~ declared s call ->
        Forall (fun c => dispatched s c = false \/ output_of s w c <> None) pre ->
        In [PStr (match s with
                  | OpenAICli => "Skipping unsupported tool call: "
                  | _ => "Skipping unknown tool: "
                  end +++ function_name call)]
           (printed (snd (orchestrate s w q))))
  /\ (tool_calls_or_empty reply <> [] ->
      Forall (fun c => ~ declared s c) (tool_calls_or_empty reply) ->
      fst (orchestrate s w q) = Ret None
      /\ transports (snd (orchestrate s w q)) = [round_one s q]
      /\ executions (snd (orchestrate s w q)) = []
      /\ printed (snd (orchestrate s w q))
         = opening s reply
           ++ map (fun c => [PStr (skip_text s +++ function_name c)])
                  (tool_calls_or_empty reply)
           ++ closing s reply
      /\ match s with
         | OpenAICli => surfaces s (orchestrate s w q) (content reply)
         | _ =>
             last (printed (snd (orchestrate s w q))) []
             = [PStr "No tool output to send back to the model; stopping here."]
         end).
Proof.
  intros Hs Hchat.
  destruct (orchestrate_shape s w q reply Hchat) as (HX & Hshape0).
  pose proof (tool_phase_invariant s w (tool_calls_or_empty reply))
    as (_ & Hinv & Hmsgs).
  assert (Hexec : forall call v,
            In (call, v) (executions (snd (orchestrate s w q))) ->
            declared s call /\ In call (tool_calls_or_empty reply)).
  { intros call v Hin. rewrite HX in Hin. rewrite Forall_forall in Hinv.
    destruct (Hinv _ Hin) as (H1 & H2 & _). cbn [fst] in *.
    split; [now apply dispatched_declared | exact H1]. }
  split; [exact Hexec|]. split; [|split].
  - (* tool-result messages *)
    intros req i n c Hreq Hm.
    assert (Hfirst : ~ In (RoleTool i n c) (messages (round_one s q))).
    { destruct s; [| |congruence]; cbn; intros [H|[H|H]];
        try discriminate H; exact H. }
    destruct (fst (tool_phase s w (tool_calls_or_empty reply))) as [[|x msgs]|e].
    + destruct Hshape0 as (_ & HT). rewrite HT in Hreq.
      destruct Hreq as [<-|[]]. contradiction.
    + destruct Hshape0 as (HT & _). rewrite HT in Hreq.
      destruct Hreq as [<-|[<-|[]]]; [contradiction|].
      rewrite messages_round_two in Hm. unfold extended in Hm.
      apply in_app_or in Hm as [Hm|Hm]; [contradiction|].
      apply in_app_or in Hm as [[Hm|[]]|Hm]; [discriminate Hm|].
      destruct (Forall2_In_r _ _ _ _ (Hmsgs _ eq_refl) Hm)
        as ([call v] & Hcv & out & _ & Hrm).
      cbn [fst snd] in Hrm. exists call, v. rewrite HX.
      split; [exact Hcv|]. rewrite <- HX in Hcv.
      split; [exact (proj1 (Hexec _ _ Hcv))|].
      destruct s; [| |congruence]; cbn [result_message tool_message] in Hrm;
        inversion Hrm; auto.
    + destruct Hshape0 as (_ & HT). rewrite HT in Hreq.
      destruct Hreq as [<-|[]]. contradiction.
  - (* the notice of a request the loop reaches *)
    intros pre call post Hcalls Hn Hpre.
    apply (loop_lines_printed s w q reply _ Hs Hchat).
    { rewrite Hcalls. now destruct pre. }
    rewrite Hcalls.
    pose proof (skip_notice_printed s w pre post call Hpre
                  (undeclared_not_dispatched s call Hs Hn) []) as Hp.
    destruct s; [exact Hp|exact Hp|congruence].
  - intros Hne Hall. clear Hshape0 Hinv Hmsgs HX.
    assert (Hskip : Forall (fun c => dispatched s c = false) (tool_calls_or_empty reply)).
    { eapply Forall_impl; [|exact Hall]. intros c. now apply undeclared_not_dispatched. }
    destruct (skip_lines_log (fun c => [PStr (skip_text s +++ function_name c)])
                (tool_calls_or_empty reply)) as (L1 & L2 & L3).
    assert (Hlast : forall (a : list (list printable)) b x,
              last (a ++ b ++ [x]) [] = x).
    { intros a b x. now rewrite !app_assoc, last_last. }
    destruct s; [| |congruence]; cbn [orchestrate round_one surfaces] in *.
    + rewrite bind_ret_None.
      unfold groq_weather_function_call.call_model_with_tools.
      rewrite create_run, Hchat. run_steps.
      destruct (tool_calls_or_empty reply) as [|c calls] eqn:Ec; [congruence|].
      rewrite groq_tool_loop, (cli_tool_loop_skips _ _ _ _ Hskip). run_steps.
      log_simpl. rewrite L1, L2, L3. cbn [opening closing app].
      repeat split.
      change ([PStr (nl +++ "Initial assistant response (should contain a tool call):")]
              :: [PMessage reply] :: ?l ++ [?x])
        with (opening GroqCli reply ++ l ++ [x]).
      apply Hlast.
    + rewrite bind_ret_None.
      unfold openai_stock_function_call.call_model_with_tools.
      rewrite create_run, Hchat. run_steps.
      rewrite openai_tool_loop, (cli_tool_loop_skips _ _ _ _ Hskip). run_steps.
      log_simpl. rewrite L1, L2, L3. cbn [opening closing app].
      repeat split.
      change ([PStr (nl +++ "Initial assistant response:")]
              :: [PMessage reply] :: ?l
                 ++ [[PStr (nl +++ "Model response without tool call:")]; ?x])
        with ((opening OpenAICli reply ++ l)
              ++ [[PStr (nl +++ "Model response without tool call:")]] ++ [x]).
      apply Hlast.
Qed.

(** A first response that asks for two cities and, in between, for a
    forecast no script declares: the weather script prints its notice for
    the forecast and goes on. *)
Lemma undeclared_requests_skipped_witness :
  In [PStr ("Skipping unknown tool: " +++ "get_forecast")]
     (printed (snd (orchestrate GroqCli (two_cities_world (Some "key"))
                      "Compare Bengaluru and Mumbai."))).
Proof.
  refine (proj1 (proj2 (proj2
            (undeclared_requests_skipped GroqCli (two_cities_world (Some "key"))
               "Compare Bengaluru and Mumbai." two_cities _ _)))
            [bengaluru_call] forecast_call_2 [mumbai_call] _ _ _).
  - discriminate.
  - reflexivity.
  - reflexivity.
  - intros [H|[]]. discriminate H.
  - constructor; [|constructor]. right. vm_compute. discriminate.
Defined.

(** C3, as stated, fails twice.  The weather CLI script stops after round
    one on an undeclared request, but what it prints last is its notice,
    and the first response's content is never printed on its own.  The
    server does not look at the requested name: it executes the weather
    tool for the undeclared request and makes the second transport
    call. *)
Lemma undeclared_request_counterexample :
  chat_completions_create forecast_world (round_one GroqCli "Will it rain?")
  = Ret forecast_reply
  /\ tool_calls forecast_reply = Some [forecast_call]
  /\ ~ declared GroqCli forecast_call
  /\ ~ declared FastMcpServer forecast_call
  /\ fst (orchestrate GroqCli forecast_world "Will it rain?") = Ret None
  /\ ~ surfaces GroqCli (orchestrate GroqCli forecast_world "Will it rain?")
         (content forecast_reply)
  /\ ~ In [PContent (content forecast_reply)]
         (printed (snd (orchestrate GroqCli forecast_world "Will it rain?")))
  /\ executions (snd (orchestrate FastMcpServer forecast_world "Will it rain?"))
     = [(forecast_call, JStr (codes "Bengaluru"))]
  /\ length (transports (snd (orchestrate FastMcpServer forecast_world "Will it rain?")))
     = 2.
Proof.
  assert (Hn : forall s, ~ declared s forecast_call).
  { intros s H. destruct s; destruct H as [H|[]]; discriminate H. }
  split; [reflexivity|]. split; [reflexivity|].
  split; [apply Hn|]. split; [apply Hn|].
  split; [vm_compute; reflexivity|].
  split; [vm_compute; intros [_ H]; discriminate H|].
  split.
  { vm_compute. intros H. repeat destruct H as [H|H]; try discriminate H. exact H. }
  split; vm_compute; reflexivity.
Qed.

(** ** C4 *)

(** C4, as amended.  When the arguments of a request the script decodes
    are no JSON document (every earlier request having been skipped or
    served), [json.JSONDecodeError] is raised and nothing catches it: the
    run ends with this exception after the one transport call, the
    executor was invoked for the earlier dispatched requests only and not
    for this one, and the exception leaves the entry point of the script
    (for a CLI script, [main]: the process ends with a traceback). *)
Theorem malformed_arguments_propagate (s : script) (w : World) (q : string)
  (reply : chat_message) (pre post : list tool_call) (call : tool_call) :
  chat_completions_create w (round_one s q) = Ret reply ->
  tool_calls_or_empty reply = pre ++ call :: post ->
  (s = FastMcpServer -> pre = []) ->
  Forall (fun c => dispatched s c = false \/ output_of s w c <> None) pre ->
  dispatched s call = true ->
  json_loads (function_arguments call) = None ->
  fst (orchestrate s w q) = Raise JSONDecodeError
  /\ transports (snd (orchestrate s w q)) = [round_one s q]
  /\ map fst (executions (snd (orchestrate s w q))) = filter (dispatched s) pre
  /\ ~ In call (map fst (executions (snd (orchestrate s w q))))
  /\ (forall arg, q = entry_question s arg ->
        fst (entry_point s w arg) = Raise JSONDecodeError).
Proof.
  intros Hchat Hcalls Hf Hpre Hd Hl.
  destruct (orchestrate_shape s w q reply Hchat) as (HX & Hshape).
  rewrite Hcalls in *.
  destruct (tool_phase_stops s w pre post call Hf Hpre Hd Hl) as (E1 & E2).
  rewrite E1 in Hshape. destruct Hshape as (H1 & H2). rewrite HX, E2.
  repeat split; try assumption.
  - intros Hin. apply filter_In in Hin as [Hin Hdc].
    rewrite Forall_forall in Hpre. destruct (Hpre _ Hin) as [H|H]; [congruence|].
    apply H. unfold output_of, argument_of. now rewrite Hl.
  - intros arg ->. now rewrite entry_point_outcome.
Qed.

Lemma malformed_arguments_propagate_witness :
  fst (orchestrate GroqCli garbled_world (entry_question GroqCli "Bengaluru"))
  = Raise JSONDecodeError
  /\ transports (snd (orchestrate GroqCli garbled_world (entry_question GroqCli "Bengaluru")))
     = [round_one GroqCli (entry_question GroqCli "Bengaluru")]
  /\ map fst (executions (snd (orchestrate GroqCli garbled_world
                                 (entry_question GroqCli "Bengaluru"))))
     = filter (dispatched GroqCli) []
  /\ ~ In garbled_call
         (map fst (executions (snd (orchestrate GroqCli garbled_world
                                      (entry_question GroqCli "Bengaluru")))))
  /\ (forall arg, entry_question GroqCli "Bengaluru" = entry_question GroqCli arg ->
        fst (entry_point GroqCli garbled_world arg) = Raise JSONDecodeError).
Proof.
  apply (malformed_arguments_propagate GroqCli garbled_world
           (entry_question GroqCli "Bengaluru") (asks [garbled_call])
           [] [] garbled_call).
  - reflexivity.
  - reflexivity.
  - discriminate.
  - constructor.
  - reflexivity.
  - vm_compute. reflexivity.
Defined.

(** C4, as stated, fails: arguments that do not decode end the CLI script
    with an exception that leaves [main]; nothing is reported in its
    place. *)
Lemma malformed_arguments_end_the_script :
  declared GroqCli garbled_call
  /\ json_loads (function_arguments garbled_call) = None
  /\ groq_weather_function_call.main garbled_world "Bengaluru"
     = (Raise JSONDecodeError,
        [Print [PStr "Asking the model: What is the weather like in Bengaluru?"];
         Transport (round_one GroqCli "What is the weather like in Bengaluru?");
         Print [PStr (nl +++ "Initial assistant response (should contain a tool call):")];
         Print [PMessage (asks [garbled_call])]]).
Proof.
  split; [left; reflexivity|]. split; vm_compute; reflexivity.
Qed.

(** ** C5 *)

(** C5 fails on the code: with an API key configured and a response of
    status 200, a body that is no JSON document, or a JSON document
    without the expected fields, makes both weather executors raise
    instead of returning an error payload. *)
Lemma malformed_body_propagates :
  fst (groq_weather_function_call.get_current_weather html_world (JStr (codes "Bengaluru")))
  = Raise RequestsJSONDecodeError
  /\ fst (fastmcp_groq_weather_server.get_current_weather html_world
            (JStr (codes "Bengaluru")))
     = Raise RequestsJSONDecodeError
  /\ fst (groq_weather_function_call.get_current_weather empty_object_world
            (JStr (codes "Bengaluru")))
     = Raise (KeyError (JStr (codes "main")))
  /\ fst (fastmcp_groq_weather_server.get_current_weather empty_object_world
            (JStr (codes "Bengaluru")))
     = Raise (KeyError (JStr (codes "main"))).
Proof. repeat split; vm_compute; reflexivity. Qed.

(** ** C6 *)

(** The requests a CLI script considers are the requests for its declared
    tool. *)
Lemma considered_declared (s : script) (calls : list tool_call) (c : tool_call) :
  s <> FastMcpServer ->
  In c (considered s calls) <-> In c calls /\ declared s c.
Proof.
  intros Hs.
  assert (H : In c (filter (dispatched s) calls) <-> In c calls /\ declared s c).
  { rewrite filter_In. split; intros [H1 H2]; split; auto.
    - now apply dispatched_declared.
    - now apply declared_dispatched. }
  destruct s; [exact H|exact H|congruence].
Qed.

(** C6, as amended.  When every request a script considers is served (its
    arguments decode and bind, the executor returns), the executor runs
    once per considered request, in request order, each time with the
    argument the request binds, and round two carries one tool-result
    message per considered request, in the same order.  The CLI scripts
    consider the requests for their declared tool; the server considers
    the first request only, whatever its name. *)
Theorem considered_requests_executed_in_order (s : script) (w : World)
  (q : string) (reply : chat_message) :
  chat_completions_create w (round_one s q) = Ret reply ->
  Forall (fun c => output_of s w c <> None)
         (considered s (tool_calls_or_empty reply)) ->
  map fst (executions (snd (orchestrate s w q)))
  = considered s (tool_calls_or_empty reply)
  /\ Forall (fun cv => argument_of s (fst cv) = Some (snd cv))
            (executions (snd (orchestrate s w q)))
  /\ (exists msgs,
        Forall2 (fun c msg => exists out,
                   output_of s w c = Some out /\ msg = result_message s c out)
                (considered s (tool_calls_or_empty reply)) msgs
        /\ transports (snd (orchestrate s w q))
           = round_one s q
             :: match msgs with
                | [] => []
                | _ :: _ => [round_two s q reply msgs]
                end)
  /\ (s = FastMcpServer ->
      considered s (tool_calls_or_empty reply)
      = firstn 1 (tool_calls_or_empty reply))
  /\ (s <> FastMcpServer ->
      forall c, In c (considered s (tool_calls_or_empty reply))
                <-> In c (tool_calls_or_empty reply) /\ declared s c).
Proof.
  intros Hchat Hserved.
  destruct (orchestrate_shape s w q reply Hchat) as (HX & Hshape).
  pose proof (tool_phase_invariant s w (tool_calls_or_empty reply)) as (_ & Hinv & _).
  destruct (tool_phase_served s w _ Hserved) as (msgs & Ep & Ex & Hm).
  rewrite Ep in Hshape. rewrite HX. split; [exact Ex|]. split.
  { eapply Forall_impl; [|exact Hinv]. now intros cv (_ & _ & H). }
  split.
  { exists msgs. split; [exact Hm|]. destruct msgs; now destruct Hshape. }
  split; [now intros ->|]. intros Hs c. now apply considered_declared.
Qed.

Lemma considered_requests_executed_in_order_witness :
  let w := two_cities_world (Some "key") in
  let q := "Compare Bengaluru and Mumbai." in
  map fst (executions (snd (orchestrate GroqCli w q)))
  = considered GroqCli (tool_calls_or_empty two_cities)
  /\ Forall (fun cv => argument_of GroqCli (fst cv) = Some (snd cv))
            (executions (snd (orchestrate GroqCli w q)))
  /\ (exists msgs,
        Forall2 (fun c msg => exists out,
                   output_of GroqCli w c = Some out
                   /\ msg = result_message GroqCli c out)
                (considered GroqCli (tool_calls_or_empty two_cities)) msgs
        /\ transports (snd (orchestrate GroqCli w q))
           = round_one GroqCli q
             :: match msgs with
                | [] => []
                | _ :: _ => [round_two GroqCli q two_cities msgs]
                end)
  /\ (GroqCli = FastMcpServer ->
      considered GroqCli (tool_calls_or_empty two_cities)
      = firstn 1 (tool_calls_or_empty two_cities))
  /\ (GroqCli <> FastMcpServer ->
      forall c, In c (considered GroqCli (tool_calls_or_empty two_cities))
                <-> In c (tool_calls_or_empty two_cities) /\ declared GroqCli c).
Proof.
  apply (considered_requests_executed_in_order GroqCli
           (two_cities_world (Some "key")) "Compare Bengaluru and Mumbai."
           two_cities).
  - reflexivity.
  - vm_compute. repeat constructor; discriminate.
Defined.

(** C6, as stated, fails on the server: of two requests for the declared
    tool it executes the first, and round two carries one tool-result
    message. *)
Lemma second_request_not_executed :
  let w := two_cities_world None in
  let q := "Compare Bengaluru and Mumbai." in
  chat_completions_create w (round_one FastMcpServer q) = Ret two_cities
  /\ filter (dispatched GroqCli) (tool_calls_or_empty two_cities)
     = [bengaluru_call; mumbai_call]
  /\ declared FastMcpServer bengaluru_call
  /\ declared FastMcpServer mumbai_call
  /\ executions (snd (orchestrate FastMcpServer w q))
     = [(bengaluru_call, JStr (codes "Bengaluru"))]
  /\ map (fun r => map fst (tool_results (messages r)))
         (transports (snd (orchestrate FastMcpServer w q)))
     = [[]; ["call_1"]].
Proof.
  cbv zeta. split; [reflexivity|]. split; [reflexivity|].
  split; [left; reflexivity|]. split; [left; reflexivity|].
  split; vm_compute; reflexivity.
Qed.

(** ** C7 *)

Lemma Forall2_nth_error {A B : Type} (R : A -> B -> Prop) (l1 : list A)
  (l2 : list B) :
  Forall2 R l1 l2 ->
  forall k b, nth_error l2 k = Some b ->
    exists a, nth_error l1 k = Some a /\ R a b.
Proof.
  induction 1 as [|a b' l1 l2 Hab _ IH]; intros [|k] b H; try discriminate.
  - inversion H; subst. now exists a.
  - now apply IH.
Qed.

Lemma tool_results_result_message (s : script) (w : World)
  (xs : list (tool_call * json)) (msgs : list message) :
  Forall2 (fun cv msg => exists out,
             fst (executor s w (snd cv)) = Ret out
             /\ msg = result_message s (fst cv) out) xs msgs ->
  Forall2 (fun cv r => fst r = call_id (fst cv)
                       /\ fst (executor s w (snd cv)) = Ret (snd r))
          xs (tool_results msgs).
Proof.
  induction 1 as [|cv msg xs msgs (out & He & ->) _ IH]; [constructor|].
  destruct s; cbn [result_message tool_message tool_results];
    (constructor; [now split|exact IH]).
Qed.

(** C7.  In every run of every script, the k-th tool-result message of a
    conversation sent to the model carries the id of the request that
    triggered the k-th execution of the run, and its content is what that
    execution returned. *)
Theorem tool_result_carries_request_id (s : script) (w : World) (q : string)
  (req : chat_request) (k : nat) (i c : string) :
  In req (transports (snd (orchestrate s w q))) ->
  nth_error (tool_results (messages req)) k = Some (i, c) ->
  exists call v,
    nth_error (executions (snd (orchestrate s w q))) k = Some (call, v)
    /\ i = call_id call
    /\ fst (executor s w v) = Ret c.
Proof.
  intros Hreq Hk.
  assert (Hfirst : nth_error (tool_results (messages (round_one s q))) k
                   <> Some (i, c)).
  { change (messages (round_one s q)) with (conversation s q).
    rewrite tool_results_conversation. now destruct k. }
  destruct (chat_completions_create w (round_one s q)) as [reply|e] eqn:Hchat.
  2: { rewrite (orchestrate_no_reply _ _ _ _ Hchat) in Hreq.
       destruct Hreq as [<-|[]]. contradiction. }
  destruct (orchestrate_shape s w q reply Hchat) as (HX & Hshape).
  pose proof (tool_phase_invariant s w (tool_calls_or_empty reply)) as (_ & _ & Hinv).
  destruct (fst (tool_phase s w (tool_calls_or_empty reply))) as [[|x msgs]|e].
  - destruct Hshape as (_ & HT). rewrite HT in Hreq.
    destruct Hreq as [<-|[]]. contradiction.
  - destruct Hshape as (HT & _). rewrite HT in Hreq.
    destruct Hreq as [<-|[<-|[]]]; [contradiction|].
    rewrite messages_round_two, tool_results_extended in Hk.
    pose proof (tool_results_result_message _ _ _ _ (Hinv _ eq_refl)) as HF.
    destruct (Forall2_nth_error _ _ _ HF _ _ Hk) as ([call v] & Hn & Hi & Hc).
    exists call, v. rewrite HX. cbn [fst snd] in *. auto.
  - destruct Hshape as (_ & HT). rewrite HT in Hreq.
    destruct Hreq as [<-|[]]. contradiction.
Qed.

Lemma tool_result_carries_request_id_witness :
  let w := two_cities_world (Some "key") in
  let q := "Compare Bengaluru and Mumbai." in
  exists call v,
    nth_error (executions (snd (orchestrate GroqCli w q))) 1 = Some (call, v)
    /\ "call_3" = call_id call
    /\ fst (executor GroqCli w v)
       = Ret (request_failed (codes "Read timed out.")).
Proof.
  refine (tool_result_carries_request_id GroqCli (two_cities_world (Some "key"))
            "Compare Bengaluru and Mumbai."
            (round_two GroqCli "Compare Bengaluru and Mumbai." two_cities
               [tool_message bengaluru_call (request_failed (codes "Read timed out."));
                tool_message mumbai_call (request_failed (codes "Read timed out."))])
            1 "call_3" (request_failed (codes "Read timed out.")) _ _).
  - vm_compute. right. left. reflexivity.
  - vm_compute. reflexivity.
Defined.

(** ** C8 *)


Lemma error_payload_decodes (msg : pystr) :
  json_loads (openai_stock_function_call.error_payload msg)
  = Some (JObj [(codes "error", JStr msg)]).
Proof. now apply json_loads_dumps. Qed.




(** ** C9 *)

(** C9, as amended.  With no OpenWeatherMap API key configured, the
    executor of the MCP server returns, for any location string and so
    for Bengaluru, the JSON object of the demo payload (the location,
    24.0, 25.2, a description marked as demo, the note on the missing
    key), and the executor of the CLI script raises [EnvironmentError];
    neither makes an outbound call. *)
Theorem demo_payload_without_key (w : World) (location : pystr) :
  no_api_key w ->
  (exists out,
     fastmcp_groq_weather_server.get_current_weather w (JStr location)
     = (Ret out, [])
     /\ json_loads out
        = Some (JObj [(codes "location", JStr location);
                      (codes "temperature_c", JNum "24.0");
                      (codes "feels_like_c", JNum "25.2");
                      (codes "description", JStr (codes "partly cloudy (demo)"));
                      (codes "note",
                       JStr (codes "Set OPENWEATHER_API_KEY for real data."))]))
  /\ lookups (snd (fastmcp_groq_weather_server.get_current_weather w (JStr location)))
     = []
  /\ groq_weather_function_call.get_current_weather w (JStr location)
     = (Raise (EnvironmentError
                 ("Missing required environment variable: OPENWEATHER_API_KEY. "
                  +++ "Create a .env file or export it in your shell.")), []).
Proof.
  intros Hkey.
  assert (E : fastmcp_groq_weather_server.get_current_weather w (JStr location)
              = (Ret (json_dumps (fastmcp_groq_weather_server.demo_payload
                                    (JStr location))), [])).
  { unfold fastmcp_groq_weather_server.get_current_weather.
    destruct Hkey as [-> | ->]; reflexivity. }
  split; [|split].
  - eexists. split; [exact E|]. now apply json_loads_dumps.
  - now rewrite E.
  - unfold groq_weather_function_call.get_current_weather,
      groq_weather_function_call.require_env.
    destruct Hkey as [-> | ->]; reflexivity.
Qed.

Lemma demo_payload_without_key_witness :
  (exists out,
     fastmcp_groq_weather_server.get_current_weather demo_world
       (JStr (codes "Bengaluru"))
     = (Ret out, [])
     /\ json_loads out
        = Some (JObj [(codes "location", JStr (codes "Bengaluru"));
                      (codes "temperature_c", JNum "24.0");
                      (codes "feels_like_c", JNum "25.2");
                      (codes "description", JStr (codes "partly cloudy (demo)"));
                      (codes "note",
                       JStr (codes "Set OPENWEATHER_API_KEY for real data."))]))
  /\ lookups (snd (fastmcp_groq_weather_server.get_current_weather demo_world
                     (JStr (codes "Bengaluru"))))
     = []
  /\ groq_weather_function_call.get_current_weather demo_world
       (JStr (codes "Bengaluru"))
     = (Raise (EnvironmentError
                 ("Missing required environment variable: OPENWEATHER_API_KEY. "
                  +++ "Create a .env file or export it in your shell.")), []).
Proof.
  apply (demo_payload_without_key demo_world (codes "Bengaluru")).
  left. reflexivity.
Defined.

(** C9, as stated, fails on the CLI script: without an API key its
    weather executor returns nothing, it raises. *)
Lemma no_key_no_payload :
  no_api_key demo_world
  /\ fst (groq_weather_function_call.get_current_weather demo_world
            (JStr (codes "Bengaluru")))
     = Raise (EnvironmentError
                ("Missing required environment variable: OPENWEATHER_API_KEY. "
                 +++ "Create a .env file or export it in your shell."))
  /\ forall out,
       fst (groq_weather_function_call.get_current_weather demo_world
              (JStr (codes "Bengaluru")))
       <> Ret out.
Proof.
  split; [left; reflexivity|]. split; [reflexivity|]. intros out H. discriminate H.
Qed.

(** ** C10 *)

Lemma bind_returns {A B : Type} (m : M A) (k : A -> M B) (b : B) :
  fst (bind m k) = Ret b -> exists a, fst m = Ret a /\ fst (k a) = Ret b.
Proof.
  destruct m as [[a|e] l]; [|discriminate]. rewrite bind_Ret. cbn [fst].
  intros H. now exists a.
Qed.

Lemma dict_get_wf (k : pystr) (d : list (pystr * json)) (v : json) :
  wf_json (JObj d) = true -> dict_get k d = Some v -> wf_json v = true.
Proof.
  cbn [wf_json]. intros H. apply andb_true_iff in H as [_ H].
  induction d as [|[k' v'] d IH]; [discriminate|].
  cbn [forallb snd dict_get] in *. apply andb_true_iff in H as [H1 H2].
  destruct (pystr_eqb k k'); [|now apply IH]. intros E; now inversion E; subst.
Qed.

Lemma getitem_wf (obj : json) (k : pystr) (v : json) :
  wf_json obj = true -> fst (getitem obj k) = Ret v -> wf_json v = true.
Proof.
  destruct obj; try discriminate. cbn [getitem]. intros Hwf.
  destruct (dict_get k members) as [x|] eqn:E; [|discriminate].
  intros H; inversion H; subst. exact (dict_get_wf _ _ _ Hwf E).
Qed.

Lemma getitem0_wf (obj : json) (v : json) :
  wf_json obj = true -> fst (getitem0 obj) = Ret v -> wf_json v = true.
Proof.
  destruct obj as [| | |s|[|x l]|]; try discriminate; cbn [getitem0].
  - destruct (first_char s); [|discriminate]. intros _ H; now inversion H.
  - cbn [wf_json forallb]. intros Hwf H. inversion H; subst.
    now apply andb_true_iff in Hwf as [-> _].
Qed.

Lemma dumps_is_object (members : list (pystr * json)) :
  wf_json (JObj members) = true -> is_object (json_dumps (JObj members)).
Proof. intros H. exists members. split; [reflexivity|now apply json_loads_dumps]. Qed.

Lemma ret_returns {A : Type} (a b : A) : fst (ret a) = Ret b -> a = b.
Proof. intros H. now injection H. Qed.

Ltac returned H := apply ret_returns in H; destruct H.

Lemma request_failed_is_object (exc : pystr) : is_object (request_failed exc).
Proof. now apply dumps_is_object. Qed.

Lemma openweathermap_returns_object (w : World) (location : json)
  (api_key out : string) :
  wf_json location = true ->
  fst (openweathermap_weather w location api_key) = Ret out ->
  is_object out.
Proof.
  intros Hloc. unfold openweathermap_weather. rewrite bind_emit. cbn [fst].
  destruct (requests_get w _ _ _) as [exc|e|r].
  { intros H; returned H. apply request_failed_is_object. }
  { discriminate. }
  destruct (raises_for_status r).
  { intros H; returned H. apply request_failed_is_object. }
  intros H.
  apply bind_returns in H as (payload & Hp & H).
  assert (Hwp : wf_json payload = true).
  { unfold response_json in Hp.
    destruct (json_loads (text r)) as [p|] eqn:E; [|discriminate].
    inversion Hp; subst. exact (json_loads_wf _ _ E). }
  assert (Hitem2 : forall k1 k2 v,
            fst (m <- getitem payload k1 ;; getitem m k2) = Ret v ->
            wf_json v = true).
  { intros k1 k2 v Hv. apply bind_returns in Hv as (m & Hm & Hv).
    exact (getitem_wf _ _ _ (getitem_wf _ _ _ Hwp Hm) Hv). }
  assert (Hitem3 : forall k1 k2 v,
            fst (l <- getitem payload k1 ;; x <- getitem0 l ;; getitem x k2) = Ret v ->
            wf_json v = true).
  { intros k1 k2 v Hv. apply bind_returns in Hv as (l & Hl & Hv).
    apply bind_returns in Hv as (x & Hx & Hv).
    exact (getitem_wf _ _ _ (getitem0_wf _ _ (getitem_wf _ _ _ Hwp Hl) Hx) Hv). }
  apply bind_returns in H as (temp & H1 & H). apply Hitem2 in H1.
  apply bind_returns in H as (feels & H2 & H). apply Hitem2 in H2.
  apply bind_returns in H as (hum & H3 & H). apply Hitem2 in H3.
  apply bind_returns in H as (pres & H4 & H). apply Hitem2 in H4.
  apply bind_returns in H as (speed & H5 & H). apply Hitem2 in H5.
  apply bind_returns in H as (descr & H6 & H). apply Hitem3 in H6.
  apply bind_returns in H as (icon & H7 & H). apply Hitem3 in H7.
  returned H. apply dumps_is_object.
  cbn [wf_json map fst forallb snd]. rewrite Hloc, H1, H2, H3, H4, H5, H6, H7.
  reflexivity.
Qed.

(** C10.  Whatever an executor returns is a serialised JSON object:
    [json.loads] reads it back as a key/value map.  The argument is a
    Python object as [json.loads] builds them, and the closing prices of
    the provider are numbers. *)
Theorem executor_returns_json_object (s : script) (w : World) (v : json)
  (out : string) :
  wf_json v = true ->
  prices_are_numbers w ->
  fst (executor s w v) = Ret out ->
  exists members,
    out = json_dumps (JObj members)
    /\ json_loads out = Some (JObj members).
Proof.
  intros Hv Hw. change (fst (executor s w v) = Ret out -> is_object out).
  destruct s; cbn [executor].
  - unfold groq_weather_function_call.get_current_weather. intros H.
    apply bind_returns in H as (key & _ & H).
    exact (openweathermap_returns_object _ _ _ _ Hv H).
  - unfold openai_stock_function_call.get_current_stock_price,
      openai_stock_function_call.error_payload.
    destruct (negb (py_truthy v)).
    { intros H; returned H. now apply dumps_is_object. }
    rewrite bind_emit. cbn [fst].
    destruct (ticker_history w v "1d") as [exc|rows] eqn:Eh.
    { intros H; returned H. now apply dumps_is_object. }
    pose proof (Hw _ _ _ Eh) as Hrows.
    destruct (rev rows) as [|row rest] eqn:Er.
    { intros H; returned H. now apply dumps_is_object. }
    assert (Hrow : forall n, close_price row = Ret n -> number_token n = true).
    { rewrite Forall_forall in Hrows. apply Hrows. apply in_rev.
      rewrite Er. now left. }
    intros H. apply bind_returns in H as (close & Hclose & H).
    rewrite bind_emit in H. cbn [fst] in H.
    apply bind_returns in H as (currency & _ & H).
    apply bind_returns in H as (stamp & _ & H). returned H.
    apply dumps_is_object. cbn [wf_json map fst forallb snd].
    rewrite Hv, (Hrow close Hclose). now destruct currency.
  - unfold fastmcp_groq_weather_server.get_current_weather.
    destruct (getenv w _) as [[|c k]|];
      try (intros H; returned H; apply dumps_is_object;
           cbn [fastmcp_groq_weather_server.demo_payload wf_json map fst
                forallb snd]; now rewrite Hv).
    apply openweathermap_returns_object. exact Hv.
Qed.

Lemma executor_returns_json_object_witness :
  exists members,
    json_dumps (JObj [(codes "stock_symbol", JStr (codes "XYZ"));
                      (codes "close_price", JNum "1523.4");
                      (codes "currency", JStr (codes "USD"));
                      (codes "timestamp", JStr (codes "2025-01-02T00:00:00+05:30"))])
    = json_dumps (JObj members)
    /\ json_loads
         (json_dumps (JObj [(codes "stock_symbol", JStr (codes "XYZ"));
                            (codes "close_price", JNum "1523.4");
                            (codes "currency", JStr (codes "USD"));
                            (codes "timestamp",
                             JStr (codes "2025-01-02T00:00:00+05:30"))]))
       = Some (JObj members).
Proof.
  apply (executor_returns_json_object OpenAICli trading_world (JStr (codes "XYZ"))).
  - reflexivity.
  - intros symbol period rows H. inversion H; subst.
    constructor; [|constructor]. intros n Hn. inversion Hn; subst. reflexivity.
  - reflexivity.
Defined.

(* ===================================================================== *)
(** * Further properties of the scripts *)
(* ===================================================================== *)

(** ** Computations without events *)

Lemma bind_log_nil {A B : Type} (m : M A) (k : A -> M B) :
  snd m = [] -> (forall a, snd (k a) = []) -> snd (bind m k) = [].
Proof.
  destruct m as [[a|e] l]; cbn [snd]; intros -> Hk; [|reflexivity].
  rewrite bind_Ret. cbn [snd app]. apply Hk.
Qed.

Lemma getitem_log (obj : json) (key : pystr) : snd (getitem obj key) = [].
Proof.
  destruct obj; try reflexivity. cbn [getitem]. now destruct (dict_get key members).
Qed.

Lemma getitem0_log (obj : json) : snd (getitem0 obj) = [].
Proof.
  destruct obj as [| | |s|[|x l]|]; try reflexivity.
  cbn [getitem0]. now destruct (first_char s).
Qed.

Lemma response_json_log (r : response) : snd (response_json r) = [].
Proof. unfold response_json. now destruct (json_loads (text r)). Qed.

Ltac log_nil :=
  repeat first
    [ reflexivity
    | apply getitem_log | apply getitem0_log | apply response_json_log
    | apply bind_log_nil; [|intros ?] ].

(** The request to OpenWeatherMap is the one event of the code both
    weather executors share. *)
Lemma openweathermap_log (w : World) (location : json) (api_key : string) :
  snd (openweathermap_weather w location api_key)
  = [HttpGet openweathermap_url (weather_params location api_key) 10].
Proof.
  unfold openweathermap_weather. rewrite bind_emit. cbn [snd].
  change (JObj [(codes "q", location); (codes "units", JStr (codes "metric"));
                (codes "appid", JStr (codes api_key))])
    with (weather_params location api_key).
  f_equal.
  destruct (requests_get w _ _ _) as [exc|e|r]; [reflexivity|reflexivity|].
  destruct (raises_for_status r); [reflexivity|]. log_nil.
Qed.

Lemma request_failed_decodes (exc : pystr) :
  json_loads (request_failed exc)
  = Some (JObj [(codes "error",
                 JStr (codes "OpenWeatherMap request failed: " ++ exc))]).
Proof. now apply json_loads_dumps. Qed.

(** What the two weather executors do once a key is found. *)
Lemma weather_executor_with_key (s : script) (w : World) (location : json)
  (c : ascii) (k : string) :
  s <> OpenAICli ->
  getenv w "OPENWEATHER_API_KEY" = Some (String c k) ->
  executor s w location = openweathermap_weather w location (String c k).
Proof.
  intros Hs Hkey. destruct s; [| congruence |]; cbn [executor].
  - unfold groq_weather_function_call.get_current_weather,
      groq_weather_function_call.require_env.
    now rewrite Hkey, bind_ret.
  - unfold fastmcp_groq_weather_server.get_current_weather. now rewrite Hkey.
Qed.

Lemma raises_for_status_iff (r : response) :
  raises_for_status r = true <-> 400 <= status_code r < 600.
Proof.
  unfold raises_for_status. rewrite andb_true_iff, Nat.leb_le, Nat.ltb_lt. tauto.
Qed.

(** ** The weather executors *)

(** X1.  With an API key configured, a request that raises (time-out,
    connection failure) or is answered with a status from 400 to 599 makes
    either weather executor return, after its one HTTP request, the
    payload whose only member is [error], with the text of the failure
    after [OpenWeatherMap request failed: ]; the executor does not
    raise. *)
Theorem transport_failure_payload (s : script) (w : World) (location : json)
  (c : ascii) (k : string) (exc : pystr) :
  s <> OpenAICli ->
  getenv w "OPENWEATHER_API_KEY" = Some (String c k) ->
  (requests_get w openweathermap_url (weather_params location (String c k)) 10
   = GetRaised exc
   \/ exists r,
        requests_get w openweathermap_url (weather_params location (String c k)) 10
        = GetResponse r
        /\ 400 <= status_code r < 600
        /\ error_text r = exc) ->
  executor s w location
  = (Ret (request_failed exc),
     [HttpGet openweathermap_url (weather_params location (String c k)) 10])
  /\ json_loads (request_failed exc)
     = Some (JObj [(codes "error",
                    JStr (codes "OpenWeatherMap request failed: " ++ exc))]).
Proof.
  intros Hs Hkey Hnet. split; [|apply request_failed_decodes].
  rewrite (weather_executor_with_key s w location c k Hs Hkey).
  rewrite (surjective_pairing (openweathermap_weather _ _ _)), openweathermap_log.
  f_equal. unfold openweathermap_weather. rewrite bind_emit. cbn [fst].
  fold (weather_params location (String c k)).
  destruct Hnet as [-> | (r & -> & Hr & <-)]; [reflexivity|].
  apply raises_for_status_iff in Hr. now rewrite Hr.
Qed.

Lemma transport_failure_payload_witness :
  executor GroqCli unknown_city_world (JStr (codes "Atlantis"))
  = (Ret (request_failed (codes "404 Client Error: Not Found for url")),
     [HttpGet openweathermap_url
        (weather_params (JStr (codes "Atlantis")) "key") 10])
  /\ json_loads (request_failed (codes "404 Client Error: Not Found for url"))
     = Some (JObj [(codes "error",
                    JStr (codes "OpenWeatherMap request failed: "
                          ++ codes "404 Client Error: Not Found for url"))]).
Proof.
  apply (transport_failure_payload GroqCli unknown_city_world
           (JStr (codes "Atlantis")) "k" "ey").
  - discriminate.
  - reflexivity.
  - right. exists not_found. split; [reflexivity|].
    split; [cbn; lia|reflexivity].
Defined.

Lemma getitem_ret (obj : json) (key : pystr) (v : json) :
  fst (getitem obj key) = Ret v -> getitem obj key = ret v.
Proof.
  intros H. rewrite (surjective_pairing (getitem obj key)), getitem_log, H.
  reflexivity.
Qed.

Lemma getitem0_ret (obj : json) (v : json) :
  fst (getitem0 obj) = Ret v -> getitem0 obj = ret v.
Proof.
  intros H. rewrite (surjective_pairing (getitem0 obj)), getitem0_log, H.
  reflexivity.
Qed.

Lemma dict_get_plain (k : pystr) (d : list (pystr * json)) (v : json) :
  plain (JObj d) = true -> dict_get k d = Some v -> plain v = true.
Proof.
  cbn [plain]. induction d as [|[k' v'] d IH]; [discriminate|].
  cbn [forallb snd dict_get]. intros H. apply andb_true_iff in H as [H1 H2].
  destruct (pystr_eqb k k'); [|now apply IH]. intros E; now inversion E; subst.
Qed.

Lemma getitem_plain (obj : json) (k : pystr) (v : json) :
  plain obj = true -> fst (getitem obj k) = Ret v -> plain v = true.
Proof.
  destruct obj; try discriminate. cbn [getitem]. intros Hp.
  destruct (dict_get k members) as [x|] eqn:E; [|discriminate].
  intros H; inversion H; subst. exact (dict_get_plain _ _ _ Hp E).
Qed.

Lemma getitem0_plain (obj : json) (v : json) :
  plain obj = true -> fst (getitem0 obj) = Ret v -> plain v = true.
Proof.
  destruct obj as [| | |s|[|x l]|]; try discriminate; cbn [getitem0].
  - destruct (first_char s); [|discriminate]. intros _ H; now inversion H.
  - cbn [plain forallb]. intros Hp H. inversion H; subst.
    now apply andb_true_iff in Hp as [-> _].
Qed.

(** X2.  With an API key configured, a response whose status is outside
    400..599 and whose body decodes to an object holding the fields the
    code selects makes either weather executor return the object of eight
    members it builds: the location as it was passed, and the selected
    values unchanged; [json.loads] reads that object back.  The location
    is a string, and the numbers of the body are written as Python prints
    them (see [prints_back]): for another numeral the number is the same
    and its text is Python's. *)
Theorem weather_payload_selects_fields (s : script) (w : World) (location : pystr)
  (c : ascii) (k : string) (r : response)
  (payload main wind weather first : json)
  (temp feels_like humidity pressure speed description icon : json) :
  s <> OpenAICli ->
  getenv w "OPENWEATHER_API_KEY" = Some (String c k) ->
  requests_get w openweathermap_url
    (weather_params (JStr location) (String c k)) 10
  = GetResponse r ->
  ~ 400 <= status_code r < 600 ->
  json_loads (text r) = Some payload ->
  plain payload = true ->
  fst (getitem payload (codes "main")) = Ret main ->
  fst (getitem main (codes "temp")) = Ret temp ->
  fst (getitem main (codes "feels_like")) = Ret feels_like ->
  fst (getitem main (codes "humidity")) = Ret humidity ->
  fst (getitem main (codes "pressure")) = Ret pressure ->
  fst (getitem payload (codes "wind")) = Ret wind ->
  fst (getitem wind (codes "speed")) = Ret speed ->
  fst (getitem payload (codes "weather")) = Ret weather ->
  fst (getitem0 weather) = Ret first ->
  fst (getitem first (codes "description")) = Ret description ->
  fst (getitem first (codes "icon")) = Ret icon ->
  let report :=
    JObj [(codes "location", JStr location);
          (codes "temperature_c", temp);
          (codes "feels_like_c", feels_like);
          (codes "humidity_pct", humidity);
          (codes "pressure_hpa", pressure);
          (codes "wind_speed_mps", speed);
          (codes "description", description);
          (codes "icon", icon)] in
  executor s w (JStr location)
  = (Ret (json_dumps report),
     [HttpGet openweathermap_url
        (weather_params (JStr location) (String c k)) 10])
  /\ json_loads (json_dumps report) = Some report
  /\ plain report = true.
Proof.
  intros Hs Hkey Hget Hstatus Hbody Hplain Hmain Htemp Hfeels Hhum Hpres Hwind
    Hspeed Hweather Hfirst Hdescr Hicon report.
  assert (Hwp : wf_json payload = true) by exact (json_loads_wf _ _ Hbody).
  pose proof (getitem_wf _ _ _ Hwp Hmain) as Wmain.
  pose proof (getitem_wf _ _ _ Hwp Hwind) as Wwind.
  pose proof (getitem0_wf _ _ (getitem_wf _ _ _ Hwp Hweather) Hfirst) as Wfirst.
  pose proof (getitem_plain _ _ _ Hplain Hmain) as Pmain.
  pose proof (getitem_plain _ _ _ Hplain Hwind) as Pwind.
  pose proof (getitem0_plain _ _ (getitem_plain _ _ _ Hplain Hweather) Hfirst)
    as Pfirst.
  split; [|split].
  - rewrite (weather_executor_with_key s w (JStr location) c k Hs Hkey).
    rewrite (surjective_pairing (openweathermap_weather _ _ _)), openweathermap_log.
    f_equal. unfold openweathermap_weather. rewrite bind_emit. cbn [fst].
    fold (weather_params (JStr location) (String c k)). rewrite Hget.
    destruct (raises_for_status r) eqn:Er.
    { apply raises_for_status_iff in Er. contradiction. }
    unfold response_json. rewrite Hbody, bind_ret.
    rewrite (getitem_ret _ _ _ Hmain), (getitem_ret _ _ _ Hwind),
      (getitem_ret _ _ _ Hweather).
    rewrite !bind_ret.
    rewrite (getitem_ret _ _ _ Htemp), (getitem_ret _ _ _ Hfeels),
      (getitem_ret _ _ _ Hhum), (getitem_ret _ _ _ Hpres),
      (getitem_ret _ _ _ Hspeed), (getitem0_ret _ _ Hfirst).
    rewrite !bind_ret.
    rewrite (getitem_ret _ _ _ Hdescr), (getitem_ret _ _ _ Hicon).
    rewrite !bind_ret. reflexivity.
  - apply json_loads_dumps. unfold report.
    cbn [wf_json map fst forallb snd].
    rewrite (getitem_wf _ _ _ Wmain Htemp), (getitem_wf _ _ _ Wmain Hfeels),
      (getitem_wf _ _ _ Wmain Hhum), (getitem_wf _ _ _ Wmain Hpres),
      (getitem_wf _ _ _ Wwind Hspeed), (getitem_wf _ _ _ Wfirst Hdescr),
      (getitem_wf _ _ _ Wfirst Hicon).
    reflexivity.
  - unfold report. cbn [plain forallb snd].
    rewrite (getitem_plain _ _ _ Pmain Htemp), (getitem_plain _ _ _ Pmain Hfeels),
      (getitem_plain _ _ _ Pmain Hhum), (getitem_plain _ _ _ Pmain Hpres),
      (getitem_plain _ _ _ Pwind Hspeed), (getitem_plain _ _ _ Pfirst Hdescr),
      (getitem_plain _ _ _ Pfirst Hicon).
    reflexivity.
Qed.

Lemma weather_payload_selects_fields_witness :
  let report :=
    JObj [(codes "location", JStr (codes "Bengaluru"));
          (codes "temperature_c", JNum "26.87");
          (codes "feels_like_c", JNum "27.7");
          (codes "humidity_pct", JNum "57");
          (codes "pressure_hpa", JNum "1011");
          (codes "wind_speed_mps", JNum "7.2");
          (codes "description", JStr (codes "scattered clouds"));
          (codes "icon", JStr (codes "03d"))] in
  executor FastMcpServer online_world (JStr (codes "Bengaluru"))
  = (Ret (json_dumps report),
     [HttpGet openweathermap_url
        (weather_params (JStr (codes "Bengaluru")) "key") 10])
  /\ json_loads (json_dumps report) = Some report
  /\ plain report = true.
Proof.
  refine (weather_payload_selects_fields FastMcpServer online_world
            (codes "Bengaluru") "k" "ey" ok_response scattered_clouds
            (JObj [(codes "temp", JNum "26.87");
                   (codes "feels_like", JNum "27.7");
                   (codes "pressure", JNum "1011");
                   (codes "humidity", JNum "57")])
            (JObj [(codes "speed", JNum "7.2"); (codes "deg", JNum "250")])
            (JArr [JObj [(codes "id", JNum "802");
                         (codes "main", JStr (codes "Clouds"));
                         (codes "description", JStr (codes "scattered clouds"));
                         (codes "icon", JStr (codes "03d"))]])
            (JObj [(codes "id", JNum "802");
                   (codes "main", JStr (codes "Clouds"));
                   (codes "description", JStr (codes "scattered clouds"));
                   (codes "icon", JStr (codes "03d"))])
            (JNum "26.87") (JNum "27.7") (JNum "57") (JNum "1011") (JNum "7.2")
            (JStr (codes "scattered clouds")) (JStr (codes "03d"))
            _ _ _ _ _ _ _ _ _ _ _ _ _ _ _ _ _).
  - discriminate.
  - reflexivity.
  - reflexivity.
  - cbn. lia.
  - vm_compute. reflexivity.
  - vm_compute. reflexivity.
  - reflexivity.
  - reflexivity.
  - reflexivity.
  - reflexivity.
  - reflexivity.
  - reflexivity.
  - reflexivity.
  - reflexivity.
  - reflexivity.
  - reflexivity.
  - reflexivity.
Defined.

(** X3.  A run of a weather executor, and so of the tool
    [get_weather_direct], makes one HTTP request when an API key is
    configured, whatever the answer, and none without a key; the request
    goes to the one URL, with the location as passed, metric units, the
    key and a time-out of ten seconds.  It is the only event of the run:
    an executor neither calls the model nor prints. *)
Theorem weather_executor_one_request (s : script) (w : World) (location : json) :
  s <> OpenAICli ->
  snd (executor s w location)
  = match getenv w "OPENWEATHER_API_KEY" with
    | Some (String c k) =>
        [HttpGet openweathermap_url
           (JObj [(codes "q", location);
                  (codes "units", JStr (codes "metric"));
                  (codes "appid", JStr (codes (String c k)))]) 10]
    | _ => []
    end
  /\ fastmcp_groq_weather_server.get_weather_direct w location
     = executor FastMcpServer w location
  /\ transports (snd (executor s w location)) = []
  /\ printed (snd (executor s w location)) = []
  /\ length (lookups (snd (executor s w location))) <= 1.
Proof.
  intros Hs.
  assert (E : snd (executor s w location)
              = match getenv w "OPENWEATHER_API_KEY" with
                | Some (String c k) =>
                    [HttpGet openweathermap_url
                       (weather_params location (String c k)) 10]
                | _ => []
                end).
  { destruct (getenv w "OPENWEATHER_API_KEY") as [[|c k]|] eqn:Hkey.
    - destruct s; [| congruence |]; cbn [executor].
      + unfold groq_weather_function_call.get_current_weather,
          groq_weather_function_call.require_env. now rewrite Hkey.
      + unfold fastmcp_groq_weather_server.get_current_weather. now rewrite Hkey.
    - rewrite (weather_executor_with_key s w location c k Hs Hkey).
      apply openweathermap_log.
    - destruct s; [| congruence |]; cbn [executor].
      + unfold groq_weather_function_call.get_current_weather,
          groq_weather_function_call.require_env. now rewrite Hkey.
      + unfold fastmcp_groq_weather_server.get_current_weather. now rewrite Hkey. }
  destruct (quiet_executor s w location) as (T & _ & P).
  split; [exact E|]. split; [reflexivity|]. split; [exact T|]. split; [exact P|].
  rewrite E. destruct (getenv w "OPENWEATHER_API_KEY") as [[|c k]|]; cbn; lia.
Qed.

Lemma weather_executor_one_request_witness :
  snd (executor GroqCli offline_world (JStr (codes "Bengaluru")))
  = match getenv offline_world "OPENWEATHER_API_KEY" with
    | Some (String c k) =>
        [HttpGet openweathermap_url
           (JObj [(codes "q", JStr (codes "Bengaluru"));
                  (codes "units", JStr (codes "metric"));
                  (codes "appid", JStr (codes (String c k)))]) 10]
    | _ => []
    end
  /\ fastmcp_groq_weather_server.get_weather_direct offline_world
       (JStr (codes "Bengaluru"))
     = executor FastMcpServer offline_world (JStr (codes "Bengaluru"))
  /\ transports (snd (executor GroqCli offline_world (JStr (codes "Bengaluru")))) = []
  /\ printed (snd (executor GroqCli offline_world (JStr (codes "Bengaluru")))) = []
  /\ length (lookups (snd (executor GroqCli offline_world (JStr (codes "Bengaluru")))))
     <= 1.
Proof.
  apply (weather_executor_one_request GroqCli offline_world (JStr (codes "Bengaluru"))).
  discriminate.
Defined.

(** X4.  A weather executor raises in three situations only.  The CLI
    executor raises [EnvironmentError] when the API key is unset or empty
    (the server executor does not).  With a key, either executor raises
    what [requests.get] raises outside the [RequestException] family, and
    it raises while it reads the body of a response whose status is
    outside 400..599.  A [RequestException] and a status from 400 to 599
    never make it raise. *)
Theorem where_weather_executors_raise (s : script) (w : World)
  (location : json) (e : exn) :
  s <> OpenAICli ->
  fst (executor s w location) = Raise e ->
  (s = GroqCli /\ no_api_key w
   /\ e = EnvironmentError
            ("Missing required environment variable: OPENWEATHER_API_KEY. "
             +++ "Create a .env file or export it in your shell."))
  \/ (exists c k,
        getenv w "OPENWEATHER_API_KEY" = Some (String c k)
        /\ (requests_get w openweathermap_url
              (weather_params location (String c k)) 10 = GetCrashed e
            \/ exists r,
                 requests_get w openweathermap_url
                   (weather_params location (String c k)) 10 = GetResponse r
                 /\ ~ 400 <= status_code r < 600)).
Proof.
  intros Hs He.
  destruct (getenv w "OPENWEATHER_API_KEY") as [[|c k]|] eqn:Hkey.
  1, 3: left; destruct s; [| congruence |]; cbn [executor] in He.
  1, 3: unfold groq_weather_function_call.get_current_weather,
          groq_weather_function_call.require_env in He;
        rewrite Hkey in He; inversion He;
        split; [reflexivity|split; [unfold no_api_key; auto|reflexivity]].
  1, 2: unfold fastmcp_groq_weather_server.get_current_weather in He;
        rewrite Hkey in He; discriminate He.
  right. exists c, k. split; [reflexivity|].
  rewrite (weather_executor_with_key s w location c k Hs Hkey) in He.
  unfold openweathermap_weather in He. rewrite bind_emit in He. cbn [fst] in He.
  fold (weather_params location (String c k)) in He.
  destruct (requests_get w _ _ _) as [exc|e'|r]; [discriminate He| |].
  - left. now inversion He.
  - right. exists r. split; [reflexivity|].
    destruct (raises_for_status r) eqn:Er; [discriminate He|].
    rewrite <- raises_for_status_iff, Er. discriminate.
Qed.

Lemma where_weather_executors_raise_witness :
  (FastMcpServer = GroqCli /\ no_api_key html_world
   /\ RequestsJSONDecodeError
      = EnvironmentError
          ("Missing required environment variable: OPENWEATHER_API_KEY. "
           +++ "Create a .env file or export it in your shell."))
  \/ (exists c k,
        getenv html_world "OPENWEATHER_API_KEY" = Some (String c k)
        /\ (requests_get html_world openweathermap_url
              (weather_params (JStr (codes "Bengaluru")) (String c k)) 10
            = GetCrashed RequestsJSONDecodeError
            \/ exists r,
                 requests_get html_world openweathermap_url
                   (weather_params (JStr (codes "Bengaluru")) (String c k)) 10
                 = GetResponse r
                 /\ ~ 400 <= status_code r < 600)).
Proof.
  apply (where_weather_executors_raise FastMcpServer html_world
           (JStr (codes "Bengaluru")) RequestsJSONDecodeError).
  - discriminate.
  - vm_compute. reflexivity.
Defined.

(** ** The stock executor *)

(** A float too small for a double is read as zero, and zero is false. *)
Lemma underflow_is_false :
  py_truthy (JNum "1e-400") = false /\ py_truthy (JNum "5e-324") = true.
Proof. split; vm_compute; reflexivity. Qed.

(** X5.  For a symbol Python reads as false (an empty string, [None],
    zero, an empty list or dict) the stock executor returns the payload
    whose only member is [error], with the text
    [Missing stock_symbol argument.], and asks the provider nothing. *)
Theorem missing_symbol_payload (w : World) (symbol : json) :
  py_truthy symbol = false ->
  openai_stock_function_call.get_current_stock_price w symbol
  = (Ret (openai_stock_function_call.error_payload
            (codes "Missing stock_symbol argument.")), [])
  /\ json_loads (openai_stock_function_call.error_payload
                   (codes "Missing stock_symbol argument."))
     = Some (JObj [(codes "error", JStr (codes "Missing stock_symbol argument."))])
  /\ lookups (snd (openai_stock_function_call.get_current_stock_price w symbol)) = [].
Proof.
  intros Hf.
  assert (E : openai_stock_function_call.get_current_stock_price w symbol
              = (Ret (openai_stock_function_call.error_payload
                        (codes "Missing stock_symbol argument.")), [])).
  { unfold openai_stock_function_call.get_current_stock_price. now rewrite Hf. }
  split; [exact E|]. split; [apply error_payload_decodes|]. now rewrite E.
Qed.

Lemma missing_symbol_payload_witness :
  openai_stock_function_call.get_current_stock_price trading_world (JStr [])
  = (Ret (openai_stock_function_call.error_payload
            (codes "Missing stock_symbol argument.")), [])
  /\ json_loads (openai_stock_function_call.error_payload
                   (codes "Missing stock_symbol argument."))
     = Some (JObj [(codes "error", JStr (codes "Missing stock_symbol argument."))])
  /\ lookups (snd (openai_stock_function_call.get_current_stock_price
                     trading_world (JStr []))) = [].
Proof.
  apply (missing_symbol_payload trading_world (JStr [])). reflexivity.
Defined.

(** X6.  When the history query for a symbol (a non-empty string) raises,
    the stock executor returns the payload whose only member is [error],
    with the text [Unable to fetch data for ], the symbol, a colon and the
    text of the exception: it does not raise, and it has asked the
    provider for the history only. *)
Theorem provider_failure_payload (w : World) (symbol exc : pystr) :
  symbol <> [] ->
  ticker_history w (JStr symbol) "1d" = HistoryRaised exc ->
  let msg := codes "Unable to fetch data for " ++ symbol ++ codes ": " ++ exc in
  openai_stock_function_call.get_current_stock_price w (JStr symbol)
  = (Ret (json_dumps (JObj [(codes "error", JStr msg)])),
     [YfHistory (JStr symbol) "1d"])
  /\ json_loads (json_dumps (JObj [(codes "error", JStr msg)]))
     = Some (JObj [(codes "error", JStr msg)]).
Proof.
  intros Hs Hh msg.
  split; [|apply (error_payload_decodes msg)].
  unfold openai_stock_function_call.get_current_stock_price.
  destruct symbol as [|u symbol]; [congruence|]. cbn [py_truthy negb].
  rewrite bind_emit, Hh. reflexivity.
Qed.

Lemma provider_failure_payload_witness :
  let msg :=
    codes "Unable to fetch data for XYZ: No data found, symbol may be delisted" in
  openai_stock_function_call.get_current_stock_price delisted_world
    (JStr (codes "XYZ"))
  = (Ret (json_dumps (JObj [(codes "error", JStr msg)])),
     [YfHistory (JStr (codes "XYZ")) "1d"])
  /\ json_loads (json_dumps (JObj [(codes "error", JStr msg)]))
     = Some (JObj [(codes "error", JStr msg)]).
Proof.
  apply (provider_failure_payload delisted_world (codes "XYZ")
           (codes "No data found, symbol may be delisted")).
  - discriminate.
  - reflexivity.
Defined.

(** X7.  When the history of a symbol (a non-empty string) holds rows and
    the expressions read on the last row and the currency lookup return,
    the stock executor reports the last row: the payload has the four
    members [stock_symbol] (as passed), [close_price] and [timestamp] of
    the last row, and [currency] as [fast_info] gives it; the provider was
    asked for the history, then for the currency; [json.loads] reads the
    payload back. *)
Theorem latest_row_reported (w : World) (symbol : pystr)
  (earlier : list price_row) (latest : price_row) (close : string)
  (stamp : pystr) (currency : option pystr) :
  symbol <> [] ->
  ticker_history w (JStr symbol) "1d" = HistoryFrame (earlier ++ [latest]) ->
  close_price latest = Ret close ->
  fast_info_get w (JStr symbol) (codes "currency") (codes "UNKNOWN")
  = Ret currency ->
  timestamp latest = Ret stamp ->
  number_token close = true ->
  let report :=
    JObj [(codes "stock_symbol", JStr symbol);
          (codes "close_price", JNum close);
          (codes "currency",
           match currency with Some c => JStr c | None => JNull end);
          (codes "timestamp", JStr stamp)] in
  openai_stock_function_call.get_current_stock_price w (JStr symbol)
  = (Ret (json_dumps report),
     [YfHistory (JStr symbol) "1d"; YfFastInfo (JStr symbol) (codes "currency")])
  /\ json_loads (json_dumps report) = Some report.
Proof.
  intros Hs Hh Hclose Hc Hstamp Hnum report. split.
  - unfold openai_stock_function_call.get_current_stock_price.
    destruct symbol as [|u symbol]; [congruence|]. cbn [py_truthy negb].
    rewrite bind_emit, Hh, rev_app_distr. cbn [rev app].
    rewrite Hclose, Hc, Hstamp. unfold lift.
    rewrite bind_Ret, bind_emit, bind_Ret, bind_Ret. reflexivity.
  - apply json_loads_dumps. unfold report. cbn [wf_json map fst forallb snd].
    rewrite Hnum. now destruct currency.
Qed.

Lemma latest_row_reported_witness :
  let report :=
    JObj [(codes "stock_symbol", JStr (codes "XYZ"));
          (codes "close_price", JNum "1523.4");
          (codes "currency", JStr (codes "USD"));
          (codes "timestamp", JStr (codes "2025-01-02T00:00:00+05:30"))] in
  openai_stock_function_call.get_current_stock_price two_days_world
    (JStr (codes "XYZ"))
  = (Ret (json_dumps report),
     [YfHistory (JStr (codes "XYZ")) "1d";
      YfFastInfo (JStr (codes "XYZ")) (codes "currency")])
  /\ json_loads (json_dumps report) = Some report.
Proof.
  apply (latest_row_reported two_days_world (codes "XYZ")
           [ {| close_price := Ret "1498.05";
                timestamp := Ret (codes "2025-01-01T00:00:00+05:30") |} ]
           {| close_price := Ret "1523.4";
              timestamp := Ret (codes "2025-01-02T00:00:00+05:30") |}
           "1523.4" (codes "2025-01-02T00:00:00+05:30") (Some (codes "USD"))).
  - discriminate.
  - reflexivity.
  - reflexivity.
  - reflexivity.
  - reflexivity.
  - reflexivity.
Defined.

Lemma rev_cons_last {A : Type} (l : list A) (x : A) (rest : list A) :
  rev l = x :: rest -> l = rev rest ++ [x].
Proof.
  intros H. rewrite <- (rev_involutive l), H. reflexivity.
Qed.

(** X8.  The stock executor raises exactly on the three expressions it
    evaluates outside [try], once the history holds rows: the closing
    price of the last row, then the currency lookup, then the time stamp
    of the last row; the exception of the first of them that raises
    leaves the executor as it is.  A symbol read as false, a history query
    that raises and an empty history never make it raise. *)
Theorem stock_executor_raises_exactly_when (w : World) (symbol : json) (e : exn) :
  fst (openai_stock_function_call.get_current_stock_price w symbol) = Raise e
  <-> py_truthy symbol = true
      /\ exists earlier latest,
           ticker_history w symbol "1d" = HistoryFrame (earlier ++ [latest])
           /\ (close_price latest = Raise e
               \/ (exists close, close_price latest = Ret close)
                  /\ (fast_info_get w symbol (codes "currency") (codes "UNKNOWN")
                      = Raise e
                      \/ (exists currency,
                            fast_info_get w symbol (codes "currency")
                              (codes "UNKNOWN") = Ret currency)
                         /\ timestamp latest = Raise e)).
Proof.
  unfold openai_stock_function_call.get_current_stock_price.
  destruct (py_truthy symbol); cbn [negb].
  2: { split; [discriminate|]. now intros (H & _). }
  rewrite bind_emit. cbn [fst].
  destruct (ticker_history w symbol "1d") as [exc|rows].
  { split; [discriminate|]. intros (_ & earlier & latest & H & _). discriminate H. }
  destruct (rev rows) as [|latest rest] eqn:Er.
  { split; [discriminate|]. intros (_ & earlier & latest & H & _). exfalso.
    inversion H; subst rows. rewrite rev_app_distr in Er. discriminate Er. }
  assert (Hlast : forall earlier latest',
            HistoryFrame rows = HistoryFrame (earlier ++ [latest']) ->
            latest' = latest).
  { intros earlier latest' H. inversion H; subst rows.
    rewrite rev_app_distr in Er. now inversion Er. }
  unfold lift.
  destruct (close_price latest) as [close|e1] eqn:Hclose.
  2: { rewrite bind_Raise. cbn [fst]. split.
       - intros H. inversion H; subst e1. split; [reflexivity|].
         exists (rev rest), latest. rewrite (rev_cons_last _ _ _ Er).
         split; [reflexivity|]. now left.
       - intros (_ & earlier & latest' & H & Hcases).
         rewrite (Hlast _ _ H) in Hcases. rewrite Hclose in Hcases.
         destruct Hcases as [H1|((c & H1) & _)]; [now inversion H1|discriminate H1]. }
  rewrite bind_Ret, bind_emit. cbn [fst snd].
  destruct (fast_info_get w symbol _ _) as [currency|e2] eqn:Hc.
  2: { rewrite bind_Raise. cbn [fst]. split.
       - intros H. inversion H; subst e2. split; [reflexivity|].
         exists (rev rest), latest. rewrite (rev_cons_last _ _ _ Er).
         split; [reflexivity|]. right. split; [now exists close|]. now left.
       - intros (_ & earlier & latest' & H & Hcases).
         rewrite (Hlast _ _ H) in Hcases. rewrite Hclose in Hcases.
         destruct Hcases as [H1|(_ & [H2|((c & H2) & _)])];
           [discriminate H1|now inversion H2|discriminate H2]. }
  rewrite bind_Ret. cbn [fst snd].
  destruct (timestamp latest) as [stamp|e3] eqn:Hstamp.
  - rewrite bind_Ret. cbn [fst]. split; [discriminate|].
    intros (_ & earlier & latest' & H & Hcases).
    rewrite (Hlast _ _ H) in Hcases. rewrite Hclose, Hstamp in Hcases.
    destruct Hcases as [H1|(_ & [H2|(_ & H3)])]; discriminate.
  - rewrite bind_Raise. cbn [fst]. split.
    + intros H. inversion H; subst e3. split; [reflexivity|].
      exists (rev rest), latest. rewrite (rev_cons_last _ _ _ Er).
      split; [reflexivity|]. right. split; [now exists close|].
      right. split; [now exists currency|assumption].
    + intros (_ & earlier & latest' & H & Hcases).
      rewrite (Hlast _ _ H) in Hcases. rewrite Hclose, Hstamp in Hcases.
      destruct Hcases as [H1|(_ & [H2|(_ & H3)])];
        [discriminate H1|discriminate H2|now inversion H3].
Qed.

(** ** Error payloads and data payloads *)

Lemma error_object_intro (msg : pystr) :
  error_object [(codes "error", JStr msg)].
Proof. now exists msg. Qed.

Ltac not_error_key :=
  unfold data_object; cbn [map fst];
  let H := fresh in
  intros H; repeat destruct H as [H|H]; solve [discriminate H | exact H].

Lemma openweathermap_error_or_data (w : World) (location : json)
  (api_key out : string) :
  fst (openweathermap_weather w location api_key) = Ret out ->
  exists members,
    out = json_dumps (JObj members)
    /\ (error_object members \/ data_object members).
Proof.
  unfold openweathermap_weather. rewrite bind_emit. cbn [fst].
  destruct (requests_get w _ _ _) as [exc|e|r].
  { intros H; returned H. eexists. split; [reflexivity|].
    left. apply error_object_intro. }
  { discriminate. }
  destruct (raises_for_status r).
  { intros H; returned H. eexists. split; [reflexivity|].
    left. apply error_object_intro. }
  intros H.
  repeat (apply bind_returns in H as (? & _ & H)).
  returned H. eexists. split; [reflexivity|]. right. not_error_key.
Qed.

(** X9.  Whatever an executor returns is the text of an object that either
    reports an error, its only member being [error] with a string, or
    reports data and has no member [error]: a reader tells the two apart
    by the presence of that member. *)
Theorem payload_error_or_data (s : script) (w : World) (v : json) (out : string) :
  fst (executor s w v) = Ret out ->
  exists members,
    out = json_dumps (JObj members)
    /\ (error_object members \/ data_object members).
Proof.
  destruct s; cbn [executor].
  - unfold groq_weather_function_call.get_current_weather. intros H.
    apply bind_returns in H as (key & _ & H).
    exact (openweathermap_error_or_data _ _ _ _ H).
  - unfold openai_stock_function_call.get_current_stock_price,
      openai_stock_function_call.error_payload.
    destruct (negb (py_truthy v)).
    { intros H; returned H. eexists. split; [reflexivity|].
      left. apply error_object_intro. }
    rewrite bind_emit. cbn [fst].
    destruct (ticker_history w v "1d") as [exc|rows].
    { intros H; returned H. eexists. split; [reflexivity|].
      left. apply error_object_intro. }
    destruct (rev rows) as [|row rest].
    { intros H; returned H. eexists. split; [reflexivity|].
      left. apply error_object_intro. }
    intros H. apply bind_returns in H as (close & _ & H).
    rewrite bind_emit in H. cbn [fst] in H.
    apply bind_returns in H as (currency & _ & H).
    apply bind_returns in H as (stamp & _ & H). returned H.
    eexists. split; [reflexivity|]. right. not_error_key.
  - unfold fastmcp_groq_weather_server.get_current_weather.
    destruct (getenv w _) as [[|c k]|];
      try (intros H; returned H; eexists; (split; [reflexivity|]);
           right; unfold fastmcp_groq_weather_server.demo_payload; not_error_key).
    apply openweathermap_error_or_data.
Qed.

Lemma payload_error_or_data_witness :
  exists members,
    request_failed (codes "Read timed out.") = json_dumps (JObj members)
    /\ (error_object members \/ data_object members).
Proof.
  apply (payload_error_or_data GroqCli offline_world (JStr (codes "Bengaluru"))).
  vm_compute. reflexivity.
Defined.

(** ** Requests that end a run *)

(** The loop passes the requests it skips or serves and goes on with the
    rest. *)
Lemma cli_tool_loop_prefix (s : script) (w : World) (pre rest : list tool_call) :
  Forall (fun c => dispatched s c = false \/ output_of s w c <> None) pre ->
  forall acc, exists acc',
    fst (cli_tool_loop s w (pre ++ rest) acc) = fst (cli_tool_loop s w rest acc')
    /\ map fst (executions (snd (cli_tool_loop s w (pre ++ rest) acc)))
       = filter (dispatched s) pre
         ++ map fst (executions (snd (cli_tool_loop s w rest acc'))).
Proof.
  induction 1 as [|c pre Hc _ IH]; intros acc; [now exists acc|].
  cbn [app filter]. rewrite cli_tool_loop_cons.
  destruct (dispatched s c) eqn:Hdc.
  - destruct Hc as [Hc|Hc]; [discriminate|]. unfold output_of in Hc.
    destruct (argument_of s c) as [v|] eqn:Ha; [|congruence].
    destruct (argument_of_Some _ _ _ Ha) as (k & -> & _).
    destruct (executor s w v) as [[out|e] l] eqn:He; cbn [fst] in Hc; [|congruence].
    destruct (executor_run _ _ _ _ _ He) as (_ & X & _).
    destruct (IH (acc ++ [tool_message c out])) as (acc' & E1 & E2).
    exists acc'. cbn [fst snd executions]. rewrite executions_app, X.
    cbn [app executions map fst]. now rewrite E1, E2.
  - destruct (IH acc) as (acc' & E1 & E2). exists acc'.
    cbn [fst snd executions]. auto.
Qed.

Lemma cli_tool_loop_fails (s : script) (w : World) (call : tool_call)
  (post : list tool_call) (e : exn) (xs : list tool_call) :
  dispatched s call = true ->
  fails s w call e xs ->
  forall acc,
    fst (cli_tool_loop s w (call :: post) acc) = Raise e
    /\ map fst (executions (snd (cli_tool_loop s w (call :: post) acc))) = xs.
Proof.
  intros Hd Hf acc. rewrite cli_tool_loop_cons, Hd.
  destruct Hf as [args Hl Ha | v e Ha He].
  - rewrite Hl, Ha. split; reflexivity.
  - destruct (argument_of_Some _ _ _ Ha) as (k & -> & _). rewrite Ha.
    destruct (executor s w v) as [[out|e'] l] eqn:Ex; cbn [fst] in He;
      [discriminate|]. inversion He; subst e'.
    destruct (executor_run _ _ _ _ _ Ex) as (_ & X & _).
    cbn [fst snd executions map]. now rewrite X.
Qed.

Lemma tool_phase_fails (s : script) (w : World) (pre post : list tool_call)
  (call : tool_call) (e : exn) (xs : list tool_call) :
  (s = FastMcpServer -> pre = []) ->
  Forall (fun c => dispatched s c = false \/ output_of s w c <> None) pre ->
  dispatched s call = true ->
  fails s w call e xs ->
  fst (tool_phase s w (pre ++ call :: post)) = Raise e
  /\ map fst (executions (snd (tool_phase s w (pre ++ call :: post))))
     = filter (dispatched s) pre ++ xs.
Proof.
  intros Hsrv Hpre Hd Hf.
  assert (Hcli : fst (cli_tool_loop s w (pre ++ call :: post) []) = Raise e
                 /\ map fst (executions
                               (snd (cli_tool_loop s w (pre ++ call :: post) [])))
                    = filter (dispatched s) pre ++ xs).
  { destruct (cli_tool_loop_prefix s w pre (call :: post) Hpre []) as (acc' & E1 & E2).
    destruct (cli_tool_loop_fails s w call post e xs Hd Hf acc') as (F1 & F2).
    now rewrite E1, E2, F1, F2. }
  destruct s; cbn [tool_phase]; [exact Hcli|exact Hcli|]. clear Hcli.
  rewrite (Hsrv eq_refl). cbn [app filter]. unfold loads.
  destruct Hf as [args Hl Ha | v e Ha He].
  - rewrite Hl, bind_ret, call_with_kwargs_run.
    unfold argument_of in Ha. rewrite Hl in Ha.
    destruct args as [| | | | |[|[k x] [|? ?]]]; try (split; reflexivity).
    destruct (pystr_eqb k (parameter FastMcpServer)) eqn:Ek;
      [rewrite ?Ek in Ha; discriminate Ha|].
    rewrite ?Ek. split; reflexivity.
  - destruct (argument_of_Some _ _ _ Ha) as (k & Hl & Ek).
    rewrite Hl, bind_ret, call_with_kwargs_run, Ek.
    destruct (executor FastMcpServer w v) as [[out|e'] l] eqn:Ex; cbn [fst] in He;
      [discriminate|]. inversion He; subst e'.
    destruct (executor_run _ _ _ _ _ Ex) as (_ & X & _).
    rewrite ?Ex. cbn [fst snd]. rewrite bind_Raise.
    cbn [fst snd executions map]. now rewrite X.
Qed.

Lemma failed_run (s : script) (w : World) (q : string) (reply : chat_message)
  (pre post : list tool_call) (call : tool_call) (e : exn) (xs : list tool_call) :
  chat_completions_create w (round_one s q) = Ret reply ->
  tool_calls_or_empty reply = pre ++ call :: post ->
  (s = FastMcpServer -> pre = []) ->
  Forall (fun c => dispatched s c = false \/ output_of s w c <> None) pre ->
  dispatched s call = true ->
  fails s w call e xs ->
  fst (orchestrate s w q) = Raise e
  /\ transports (snd (orchestrate s w q)) = [round_one s q]
  /\ map fst (executions (snd (orchestrate s w q)))
     = filter (dispatched s) pre ++ xs.
Proof.
  intros Hchat Hcalls Hsrv Hpre Hd Hf.
  destruct (orchestrate_shape s w q reply Hchat) as (HX & Hshape).
  rewrite Hcalls in *.
  destruct (tool_phase_fails s w pre post call e xs Hsrv Hpre Hd Hf) as (E1 & E2).
  rewrite E1 in Hshape. destruct Hshape as (H1 & H2). now rewrite HX, E2.
Qed.

(** X10.  Arguments that are a JSON document but no object with exactly
    the executor's parameter as key (an empty object, a list, a further
    key) cannot be passed as keyword arguments: the run ends with
    [TypeError] after the one transport call, the executor was invoked
    for the earlier dispatched requests and not for this one, and the
    exception leaves the entry point of the script. *)
Theorem unbindable_arguments_propagate (s : script) (w : World) (q : string)
  (reply : chat_message) (pre post : list tool_call) (call : tool_call)
  (args : json) :
  chat_completions_create w (round_one s q) = Ret reply ->
  tool_calls_or_empty reply = pre ++ call :: post ->
  (s = FastMcpServer -> pre = []) ->
  Forall (fun c => dispatched s c = false \/ output_of s w c <> None) pre ->
  dispatched s call = true ->
  json_loads (function_arguments call) = Some args ->
  (forall v, args <> JObj [(parameter s, v)]) ->
  fst (orchestrate s w q) = Raise TypeError
  /\ transports (snd (orchestrate s w q)) = [round_one s q]
  /\ map fst (executions (snd (orchestrate s w q))) = filter (dispatched s) pre
  /\ (forall arg, q = entry_question s arg ->
        fst (entry_point s w arg) = Raise TypeError).
Proof.
  intros Hchat Hcalls Hsrv Hpre Hd Hl Hargs.
  assert (Ha : argument_of s call = None).
  { unfold argument_of. rewrite Hl.
    destruct args as [| | | | |[|[k v] [|? ?]]]; try reflexivity.
    destruct (pystr_eqb k (parameter s)) eqn:Ek; [|reflexivity].
    apply pystr_eqb_eq in Ek. subst k. now destruct (Hargs v). }
  destruct (failed_run s w q reply pre post call TypeError [] Hchat Hcalls Hsrv
              Hpre Hd (fails_unbound s w call args Hl Ha)) as (E1 & E2 & E3).
  rewrite app_nil_r in E3. repeat split; try assumption.
  intros arg ->. now rewrite entry_point_outcome.
Qed.

Lemma unbindable_arguments_propagate_witness :
  fst (orchestrate FastMcpServer listed_world "What is the weather in Bengaluru?")
  = Raise TypeError
  /\ transports (snd (orchestrate FastMcpServer listed_world
                        "What is the weather in Bengaluru?"))
     = [round_one FastMcpServer "What is the weather in Bengaluru?"]
  /\ map fst (executions (snd (orchestrate FastMcpServer listed_world
                                 "What is the weather in Bengaluru?")))
     = filter (dispatched FastMcpServer) []
  /\ (forall arg,
        "What is the weather in Bengaluru?" = entry_question FastMcpServer arg ->
        fst (entry_point FastMcpServer listed_world arg) = Raise TypeError).
Proof.
  apply (unbindable_arguments_propagate FastMcpServer listed_world
           "What is the weather in Bengaluru?" (asks [listed_call]) [] []
           listed_call (JArr [JStr (codes "Bengaluru")])).
  - reflexivity.
  - reflexivity.
  - reflexivity.
  - constructor.
  - reflexivity.
  - vm_compute. reflexivity.
  - discriminate.
Defined.

(** X11.  An exception the executor raises for a request leaves the
    orchestrator as it is: the run ends with it after the one transport
    call, the execution of that request being the last of the run; later
    requests are not looked at, no tool message reaches the model. *)
Theorem executor_exception_propagates (s : script) (w : World) (q : string)
  (reply : chat_message) (pre post : list tool_call) (call : tool_call)
  (v : json) (e : exn) :
  chat_completions_create w (round_one s q) = Ret reply ->
  tool_calls_or_empty reply = pre ++ call :: post ->
  (s = FastMcpServer -> pre = []) ->
  Forall (fun c => dispatched s c = false \/ output_of s w c <> None) pre ->
  dispatched s call = true ->
  argument_of s call = Some v ->
  fst (executor s w v) = Raise e ->
  fst (orchestrate s w q) = Raise e
  /\ transports (snd (orchestrate s w q)) = [round_one s q]
  /\ map fst (executions (snd (orchestrate s w q)))
     = filter (dispatched s) pre ++ [call]
  /\ (forall arg, q = entry_question s arg -> fst (entry_point s w arg) = Raise e).
Proof.
  intros Hchat Hcalls Hsrv Hpre Hd Ha He.
  destruct (failed_run s w q reply pre post call e [call] Hchat Hcalls Hsrv
              Hpre Hd (fails_raised s w call v e Ha He)) as (E1 & E2 & E3).
  repeat split; try assumption.
  intros arg ->. now rewrite entry_point_outcome.
Qed.

Lemma executor_exception_propagates_witness :
  let q := "What is the weather in Bengaluru?" in
  let e := EnvironmentError (missing_variable GroqCli "OPENWEATHER_API_KEY") in
  fst (orchestrate GroqCli demo_world q) = Raise e
  /\ transports (snd (orchestrate GroqCli demo_world q)) = [round_one GroqCli q]
  /\ map fst (executions (snd (orchestrate GroqCli demo_world q)))
     = filter (dispatched GroqCli) [] ++ [bengaluru_call]
  /\ (forall arg, q = entry_question GroqCli arg ->
        fst (entry_point GroqCli demo_world arg) = Raise e).
Proof.
  apply (executor_exception_propagates GroqCli demo_world
           "What is the weather in Bengaluru?" (asks [bengaluru_call]) [] []
           bengaluru_call (JStr (codes "Bengaluru"))
           (EnvironmentError (missing_variable GroqCli "OPENWEATHER_API_KEY"))).
  - reflexivity.
  - reflexivity.
  - discriminate.
  - constructor.
  - reflexivity.
  - vm_compute. reflexivity.
  - vm_compute. reflexivity.
Defined.

(** ** The two rounds *)

Lemma echo_id (call : tool_call) : echo call = call.
Proof. now destruct call. Qed.

Lemma map_echo (calls : list tool_call) : map echo calls = calls.
Proof.
  induction calls as [|c calls IH]; [reflexivity|].
  cbn [map]. now rewrite echo_id, IH.
Qed.

Lemma result_messages_are_tool_results (s : script) (w : World)
  (xs : list (tool_call * json)) (msgs : list message) :
  Forall2 (fun cv msg => exists out,
             fst (executor s w (snd cv)) = Ret out
             /\ msg = result_message s (fst cv) out) xs msgs ->
  forallb is_tool_result msgs = true.
Proof.
  induction 1 as [|cv msg xs msgs (out & _ & ->) _ IH]; [reflexivity|].
  cbn [forallb]. rewrite IH. now destruct s.
Qed.

(** The runs of a script, by what the model and the tool phase do. *)
Lemma run_cases (s : script) (w : World) (q : string) :
  (transports (snd (orchestrate s w q)) = [round_one s q]
   /\ forall reply, chat_completions_create w (round_one s q) = Ret reply ->
        match fst (tool_phase s w (tool_calls_or_empty reply)) with
        | Ret (_ :: _) => False
        | Ret [] => fst (orchestrate s w q) = Ret (early_answer s reply)
        | Raise e => fst (orchestrate s w q) = Raise e
        end)
  \/ exists reply msgs,
       chat_completions_create w (round_one s q) = Ret reply
       /\ fst (tool_phase s w (tool_calls_or_empty reply)) = Ret msgs
       /\ msgs <> []
       /\ forallb is_tool_result msgs = true
       /\ transports (snd (orchestrate s w q))
          = [round_one s q; round_two s q reply msgs]
       /\ fst (orchestrate s w q)
          = match chat_completions_create w (round_two s q reply msgs) with
            | Ret final => Ret (final_answer s final)
            | Raise e => Raise e
            end.
Proof.
  destruct (chat_completions_create w (round_one s q)) as [reply|e] eqn:Hchat.
  2: { left. rewrite (orchestrate_no_reply _ _ _ _ Hchat).
       split; [reflexivity|]. intros reply H. discriminate H. }
  destruct (orchestrate_shape s w q reply Hchat) as (_ & Hshape).
  pose proof (tool_phase_invariant s w (tool_calls_or_empty reply)) as (_ & _ & Hinv).
  destruct (fst (tool_phase s w (tool_calls_or_empty reply))) as [[|x msgs]|e] eqn:Ep.
  - left. destruct Hshape as (H1 & H2). split; [exact H2|].
    intros r H. inversion H; subst r. now rewrite Ep.
  - right. exists reply, (x :: msgs). destruct Hshape as (H1 & H2).
    repeat split; try assumption; try discriminate.
    exact (result_messages_are_tool_results _ _ _ _ (Hinv _ eq_refl)).
  - left. destruct Hshape as (H1 & H2). split; [exact H2|].
    intros r H. inversion H; subst r. now rewrite Ep.
Qed.

(** X12.  A run makes one or two transport calls, never more.  The first
    offers the declared tools with [tool_choice] [auto]; a second one
    offers no tool, so that what the model answers to it cannot start a
    further round. *)
Theorem at_most_two_transport_calls (s : script) (w : World) (q : string) :
  (exists rest,
     transports (snd (orchestrate s w q)) = round_one s q :: rest
     /\ length rest <= 1
     /\ Forall (fun req => tools_arg req = None /\ tool_choice req = None) rest)
  /\ tools_arg (round_one s q) = Some (registry s)
  /\ tool_choice (round_one s q) = Some "auto".
Proof.
  split; [|destruct s; split; reflexivity].
  destruct (run_cases s w q) as [(HT & _) | (reply & msgs & _ & _ & _ & _ & HT & _)].
  - exists []. rewrite HT. repeat split; [cbn; lia|constructor].
  - exists [round_two s q reply msgs]. rewrite HT. repeat split; [cbn; lia|].
    constructor; [|constructor]. destruct s; split; reflexivity.
Qed.

(** X13.  The conversation of a second transport call is that of the
    first, unchanged, then one assistant message that repeats the first
    response's content and its requests as they came (all of them in the
    CLI scripts, skipped ones included; the first one in the server), then
    the tool-result messages, of which there is at least one. *)
Theorem second_round_conversation (s : script) (w : World) (q : string)
  (req : chat_request) :
  In req (transports (snd (orchestrate s w q))) ->
  req <> round_one s q ->
  exists reply results,
    chat_completions_create w (round_one s q) = Ret reply
    /\ messages req
       = messages (round_one s q)
         ++ RoleAssistant (content reply)
              (match s with
               | FastMcpServer => firstn 1 (tool_calls_or_empty reply)
               | _ => tool_calls_or_empty reply
               end)
            :: results
    /\ results <> []
    /\ forallb is_tool_result results = true.
Proof.
  intros Hin Hne.
  destruct (run_cases s w q) as [(HT & _) | (reply & msgs & Hchat & _ & Hm & Hr & HT & _)];
    rewrite HT in Hin.
  - destruct Hin as [<-|[]]. now destruct Hne.
  - destruct Hin as [<-|[<-|[]]]; [now destruct Hne|].
    exists reply, msgs. split; [exact Hchat|]. split; [|now split].
    rewrite messages_round_two. unfold extended, conversation.
    rewrite map_echo. now destruct s.
Qed.

Lemma second_round_conversation_witness :
  let q := "Compare Bengaluru and Mumbai." in
  let w := two_cities_world (Some "key") in
  let out := request_failed (codes "Read timed out.") in
  exists reply results,
    chat_completions_create w (round_one GroqCli q) = Ret reply
    /\ messages (round_two GroqCli q two_cities
                   [tool_message bengaluru_call out; tool_message mumbai_call out])
       = messages (round_one GroqCli q)
         ++ RoleAssistant (content reply) (tool_calls_or_empty reply) :: results
    /\ results <> []
    /\ forallb is_tool_result results = true.
Proof.
  apply (second_round_conversation GroqCli (two_cities_world (Some "key"))
           "Compare Bengaluru and Mumbai."
           (round_two GroqCli "Compare Bengaluru and Mumbai." two_cities
              [tool_message bengaluru_call
                 (request_failed (codes "Read timed out."));
               tool_message mumbai_call
                 (request_failed (codes "Read timed out."))])).
  - vm_compute. right. left. reflexivity.
  - discriminate.
Defined.

(** X14.  No chat-completion call is guarded: when one of the calls of a
    run raises, in either round, the run ends with that exception and that
    call is its last. *)
Theorem api_failure_propagates (s : script) (w : World) (q : string)
  (req : chat_request) (e : exn) :
  In req (transports (snd (orchestrate s w q))) ->
  chat_completions_create w req = Raise e ->
  fst (orchestrate s w q) = Raise e
  /\ exists earlier, transports (snd (orchestrate s w q)) = earlier ++ [req].
Proof.
  intros Hin He.
  destruct (chat_completions_create w (round_one s q)) as [reply|e0] eqn:Hchat.
  2: { rewrite (orchestrate_no_reply _ _ _ _ Hchat) in *. cbn [snd transports] in Hin.
       destruct Hin as [<-|[]]. rewrite Hchat in He. inversion He; subst e0.
       split; [reflexivity|]. now exists []. }
  destruct (run_cases s w q) as [(HT & _) | (r & msgs & Hr & _ & _ & _ & HT & Hf)];
    rewrite HT in *.
  - destruct Hin as [<-|[]]. rewrite Hchat in He. discriminate He.
  - destruct Hin as [<-|[<-|[]]]; [rewrite Hchat in He; discriminate He|].
    rewrite He in Hf. split; [exact Hf|]. now exists [round_one s q].
Qed.

Lemma api_failure_propagates_witness :
  let q := "What is the price of XYZ?" in
  let out :=
    json_dumps
      (JObj [(codes "stock_symbol", JStr (codes "XYZ"));
             (codes "close_price", JNum "1523.4");
             (codes "currency", JStr (codes "USD"));
             (codes "timestamp", JStr (codes "2025-01-02T00:00:00+05:30"))]) in
  let req := round_two OpenAICli q (asks [ticker_call]) [tool_message ticker_call out] in
  fst (orchestrate OpenAICli second_call_fails q) = Raise (APIError "rate limit")
  /\ exists earlier,
       transports (snd (orchestrate OpenAICli second_call_fails q))
       = earlier ++ [req].
Proof.
  apply (api_failure_propagates OpenAICli second_call_fails
           "What is the price of XYZ?").
  - vm_compute. right. left. reflexivity.
  - reflexivity.
Defined.

(** The end of the log of a CLI run whose second call is answered. *)
Lemma cli_final_lines (s : script) (w : World) (q : string)
  (reply final : chat_message) (msgs : list message) :
  s <> FastMcpServer ->
  chat_completions_create w (round_one s q) = Ret reply ->
  fst (tool_phase s w (tool_calls_or_empty reply)) = Ret msgs ->
  msgs <> [] ->
  chat_completions_create w (round_two s q reply msgs) = Ret final ->
  exists l,
    snd (orchestrate s w q)
    = l ++ [Transport (round_two s q reply msgs);
            Print [PStr (nl +++ "Final assistant reply:")];
            Print [PContent (content final)]].
Proof.
  intros Hs Hchat Hp Hm Hfinal.
  destruct s; [| |congruence]; cbn [orchestrate round_one tool_phase] in *.
  - rewrite bind_ret_None. unfold groq_weather_function_call.call_model_with_tools.
    rewrite create_run, Hchat. run_steps.
    destruct (tool_calls_or_empty reply) as [|c calls] eqn:Ec.
    { cbn in Hp. inversion Hp; subst. now destruct Hm. }
    rewrite groq_tool_loop.
    destruct (cli_tool_loop GroqCli w (c :: calls) []) as [[ms|e] l];
      cbn [fst] in Hp; [|discriminate]. inversion Hp; subst ms.
    destruct msgs as [|x msgs]; [now destruct Hm|]. run_steps.
    unfold round_two, extended, conversation in Hfinal.
    cbn [round_one echoed messages groq_weather_function_call.first_request] in Hfinal.
    rewrite Ec in Hfinal. rewrite Hfinal. run_steps. cbn [fst snd].
    eexists (_ :: _ :: _ :: l). cbn [app]. do 3 f_equal.
    unfold round_two, extended, conversation.
    cbn [round_one echoed messages groq_weather_function_call.first_request].
    rewrite Ec. reflexivity.
  - rewrite bind_ret_None. unfold openai_stock_function_call.call_model_with_tools.
    rewrite create_run, Hchat. run_steps. rewrite openai_tool_loop.
    destruct (cli_tool_loop OpenAICli w (tool_calls_or_empty reply) []) as [[ms|e] l];
      cbn [fst] in Hp; [|discriminate]. inversion Hp; subst ms.
    destruct msgs as [|x msgs]; [now destruct Hm|]. run_steps.
    unfold round_two, extended, conversation in Hfinal.
    cbn [round_one echoed messages openai_stock_function_call.first_request] in Hfinal.
    rewrite Hfinal. run_steps. cbn [fst snd].
    eexists (_ :: _ :: _ :: l). cbn [app]. reflexivity.
Qed.

(** X15.  When the second transport call is answered, the script surfaces
    the content of that answer: a CLI script prints it last, after the
    line [Final assistant reply:]; the server returns it as it is, without
    the placeholder of round one, so that an answer without content makes
    it return [None]. *)
Theorem final_reply_surfaced (s : script) (w : World) (q : string)
  (req : chat_request) (final : chat_message) :
  In req (transports (snd (orchestrate s w q))) ->
  req <> round_one s q ->
  chat_completions_create w req = Ret final ->
  surfaces s (orchestrate s w q) (content final)
  /\ (s <> FastMcpServer ->
      exists before,
        printed (snd (orchestrate s w q))
        = before ++ [[PStr (nl +++ "Final assistant reply:")];
                     [PContent (content final)]]).
Proof.
  intros Hin Hne Hfinal.
  destruct (run_cases s w q) as [(HT & _) | (reply & msgs & Hchat & Hp & Hm & _ & HT & Hf)];
    rewrite HT in Hin.
  { destruct Hin as [<-|[]]. now destruct Hne. }
  destruct Hin as [<-|[<-|[]]]; [now destruct Hne|].
  rewrite Hfinal in Hf.
  assert (Hcli : s <> FastMcpServer ->
            exists before,
              printed (snd (orchestrate s w q))
              = before ++ [[PStr (nl +++ "Final assistant reply:")];
                           [PContent (content final)]]).
  { intros Hs.
    destruct (cli_final_lines s w q reply final msgs Hs Hchat Hp Hm Hfinal) as (l & ->).
    exists (printed l). rewrite printed_app. reflexivity. }
  split; [|exact Hcli].
  destruct s; cbn [surfaces final_answer] in *; try exact Hf.
  all: split; [exact Hf|].
  all: destruct Hcli as (before & ->); [discriminate|].
  all: change [[PStr (nl +++ "Final assistant reply:")]; [PContent (content final)]]
         with ([[PStr (nl +++ "Final assistant reply:")]] ++ [[PContent (content final)]]).
  all: now rewrite app_assoc, last_last.
Qed.

Lemma final_reply_surfaced_witness :
  let q := "What is the price of XYZ?" in
  surfaces OpenAICli (orchestrate OpenAICli trading_world q)
    (content (says "Done."))
  /\ (OpenAICli <> FastMcpServer ->
      exists before,
        printed (snd (orchestrate OpenAICli trading_world q))
        = before ++ [[PStr (nl +++ "Final assistant reply:")];
                     [PContent (content (says "Done."))]]).
Proof.
  apply (final_reply_surfaced OpenAICli trading_world "What is the price of XYZ?"
           (round_two OpenAICli "What is the price of XYZ?" (asks [ticker_call])
              [tool_message ticker_call
                 (json_dumps
                    (JObj [(codes "stock_symbol", JStr (codes "XYZ"));
                           (codes "close_price", JNum "1523.4");
                           (codes "currency", JStr (codes "USD"));
                           (codes "timestamp",
                            JStr (codes "2025-01-02T00:00:00+05:30"))]))])).
  - vm_compute. right. left. reflexivity.
  - discriminate.
  - reflexivity.
Defined.

(** ** Starting a script *)

Lemma client_run (s : script) (w : World) :
  match s with
  | GroqCli => groq_weather_function_call.client w
  | OpenAICli => openai_stock_function_call.client w
  | FastMcpServer => fastmcp_groq_weather_server.client w
  end
  = match getenv w (llm_key_variable s) with
    | Some (String c k) => ret (String c k)
    | _ => raise (EnvironmentError (missing_variable s (llm_key_variable s)))
    end.
Proof.
  destruct s; cbn [llm_key_variable];
    [ unfold groq_weather_function_call.client,
        groq_weather_function_call.require_env
    | unfold openai_stock_function_call.client,
        openai_stock_function_call.require_env
    | unfold fastmcp_groq_weather_server.client,
        fastmcp_groq_weather_server.require_env ];
    now destruct (getenv w _) as [[|c k]|].
Qed.

(** X16.  Each script builds its client when the module is loaded, from
    the key of its model provider ([GROQ_API_KEY], or [OPENAI_API_KEY] for
    the stock script).  When that variable is unset or empty, the process
    ends with [EnvironmentError], whose message names the variable, before
    anything is printed, sent to the model or asked of a data provider:
    [main] and the tool functions are never reached. *)
Theorem missing_llm_key_stops_the_process (s : script) (w : World)
  (input : option string) :
  (getenv w (llm_key_variable s) = None \/ getenv w (llm_key_variable s) = Some "") ->
  launch s w input
  = (Raise (EnvironmentError
              ("Missing required environment variable: " +++ llm_key_variable s
               +++ ". "
               +++ match s with
                   | GroqCli => "Create a .env file or export it in your shell."
                   | OpenAICli =>
                       "Add it to your .env or export it before running the script."
                   | FastMcpServer =>
                       "Create a .env file or export it before running the server."
                   end)),
     []).
Proof.
  intros Hkey. pose proof (client_run s w) as Hc.
  destruct s; cbn [launch llm_key_variable] in *.
  - unfold groq_weather_function_call.script. rewrite Hc.
    destruct Hkey as [-> | ->]; reflexivity.
  - unfold openai_stock_function_call.script. rewrite Hc.
    destruct Hkey as [-> | ->]; reflexivity.
  - rewrite Hc. destruct Hkey as [-> | ->]; reflexivity.
Qed.

Lemma missing_llm_key_stops_the_process_witness :
  launch FastMcpServer demo_world (Some "What is the weather in Bengaluru?")
  = (Raise (EnvironmentError
              ("Missing required environment variable: "
               +++ llm_key_variable FastMcpServer +++ ". "
               +++ "Create a .env file or export it before running the server.")),
     []).
Proof.
  apply (missing_llm_key_stops_the_process FastMcpServer demo_world
           (Some "What is the weather in Bengaluru?")).
  left. reflexivity.
Defined.

(** X17.  With the key of the model provider configured, a CLI script
    prints [Asking the model: ] and its question, built from the value of
    the flag or, without the flag, from the default ([Bengaluru, IN],
    [TECHM.NS]), and then does what its orchestrator does on that
    question, nothing more: the same outcome, the same events. *)
Theorem script_asks_then_orchestrates (s : script) (w : World)
  (input : option string) (c : ascii) (k : string) :
  s <> FastMcpServer ->
  getenv w (llm_key_variable s) = Some (String c k) ->
  let question := entry_question s (command_line_argument s input) in
  launch s w input
  = (fst (orchestrate s w question),
     Print [PStr ("Asking the model: " +++ question)] :: snd (orchestrate s w question))
  /\ command_line_argument s None
     = match s with GroqCli => "Bengaluru, IN" | _ => "TECHM.NS" end
  /\ forall value, command_line_argument s (Some value) = value.
Proof.
  intros Hs Hkey question. pose proof (client_run s w) as Hc.
  rewrite Hkey in Hc. unfold question.
  destruct s; [| |congruence];
    cbn [launch orchestrate entry_question command_line_argument] in *.
  - split; [|split; [reflexivity|now intros]].
    unfold groq_weather_function_call.script. rewrite Hc, bind_ret.
    unfold groq_weather_function_call.main. rewrite !bind_ret_None, bind_print.
    reflexivity.
  - split; [|split; [reflexivity|now intros]].
    unfold openai_stock_function_call.script. rewrite Hc, bind_ret.
    unfold openai_stock_function_call.main. rewrite !bind_ret_None, bind_print.
    reflexivity.
Qed.

Lemma script_asks_then_orchestrates_witness :
  let w := with_llm_key trading_world in
  let question := entry_question OpenAICli (command_line_argument OpenAICli None) in
  launch OpenAICli w None
  = (fst (orchestrate OpenAICli w question),
     Print [PStr ("Asking the model: " +++ question)]
     :: snd (orchestrate OpenAICli w question))
  /\ command_line_argument OpenAICli None = "TECHM.NS"
  /\ forall value, command_line_argument OpenAICli (Some value) = value.
Proof.
  apply (script_asks_then_orchestrates OpenAICli (with_llm_key trading_world) None
           "s" "k-test").
  - discriminate.
  - reflexivity.
Defined.

(** ** Requests and the registry *)

(** X18.  The name each CLI loop compares a request with is the name its
    [tools] list declares, and the one parameter the declared schema
    requires is the keyword the executor takes: a request is dispatched
    exactly when it names a declared tool, and every script declares
    exactly one tool. *)
Theorem registry_matches_dispatch (s : script) :
  (s <> FastMcpServer ->
   forall call, dispatched s call = true <-> declared s call)
  /\ (exists d,
        registry s = [d]
        /\ fst (getitem (decl_parameters d) (codes "required"))
           = Ret (JArr [JStr (parameter s)])
        /\ exists schema,
             fst (getitem (decl_parameters d) (codes "properties"))
             = Ret (JObj [(parameter s, schema)])).
Proof.
  split.
  - intros Hs call. split; [now apply dispatched_declared|apply declared_dispatched].
  - destruct s; eexists; (split; [reflexivity|]); (split; [reflexivity|]);
      eexists; reflexivity.
Qed.

(** X19.  Arguments written as the JSON text of an object whose one
    member is the executor's parameter are read back as they were
    written: the request of a first response that holds nothing else is
    dispatched, and the executor is invoked once, with exactly the value
    of that member. *)
Theorem arguments_round_trip (s : script) (w : World) (q : string)
  (reply : chat_message) (call : tool_call) (v : json) :
  chat_completions_create w (round_one s q) = Ret reply ->
  tool_calls reply = Some [call] ->
  dispatched s call = true ->
  wf_json v = true ->
  function_arguments call = json_dumps (JObj [(parameter s, v)]) ->
  argument_of s call = Some v
  /\ executions (snd (orchestrate s w q)) = [(call, v)].
Proof.
  intros Hchat Hcalls Hd Hv Hargs.
  assert (Ha : argument_of s call = Some v).
  { unfold argument_of. rewrite Hargs, json_loads_dumps.
    - now rewrite pystr_eqb_refl.
    - cbn [wf_json map fst forallb snd nodup_keys existsb negb andb].
      now rewrite Hv. }
  split; [exact Ha|].
  assert (Ecalls : tool_calls_or_empty reply = [call]).
  { unfold tool_calls_or_empty. now rewrite Hcalls. }
  destruct (orchestrate_shape s w q reply Hchat) as (HX & _).
  rewrite HX, Ecalls.
  destruct (fst (executor s w v)) as [out|e] eqn:He.
  - destruct (tool_phase_served s w [call]) as (msgs & _ & Ex & _).
    { assert (Ec : considered s [call] = [call]).
      { destruct s; cbn [considered filter firstn]; now rewrite ?Hd. }
      rewrite Ec. constructor; [|constructor].
      rewrite (output_of_intro _ _ _ _ _ Ha He). discriminate. }
    pose proof (tool_phase_invariant s w [call]) as (_ & Hinv & _).
    assert (Ec : considered s [call] = [call]).
    { destruct s; cbn [considered filter firstn]; now rewrite ?Hd. }
    rewrite Ec in Ex.
    destruct (executions (snd (tool_phase s w [call]))) as [|[c x] [|? ?]];
      try discriminate.
    cbn [map fst] in Ex. inversion Ex; subst c.
    inversion Hinv as [|? ? (_ & _ & Hx) _]; subst. cbn [fst snd] in Hx.
    rewrite Ha in Hx. now inversion Hx.
  - destruct (tool_phase_fails s w [] [] call e [call]) as (_ & Ex).
    + reflexivity.
    + constructor.
    + exact Hd.
    + exact (fails_raised s w call v e Ha He).
    + cbn [app filter] in Ex.
      pose proof (tool_phase_invariant s w [call]) as (_ & Hinv & _).
      destruct (executions (snd (tool_phase s w [call]))) as [|[c x] [|? ?]];
        try discriminate.
      cbn [map fst] in Ex. inversion Ex; subst c.
      inversion Hinv as [|? ? (_ & _ & Hx) _]; subst. cbn [fst snd] in Hx.
      rewrite Ha in Hx. now inversion Hx.
Qed.

Lemma arguments_round_trip_witness :
  argument_of FastMcpServer bengaluru_call = Some (JStr (codes "Bengaluru"))
  /\ executions (snd (orchestrate FastMcpServer demo_world
                        "What is the weather in Bengaluru?"))
     = [(bengaluru_call, JStr (codes "Bengaluru"))].
Proof.
  apply (arguments_round_trip FastMcpServer demo_world
           "What is the weather in Bengaluru?" (asks [bengaluru_call])).
  - reflexivity.
  - reflexivity.
  - reflexivity.
  - reflexivity.
  - reflexivity.
Defined.

(** ** What is printed and what is sent *)

Lemma printed_outputs_cons (line : list printable) (rest : list (list printable)) :
  printed_outputs (line :: rest) = printed_outputs [line] ++ printed_outputs rest.
Proof.
  destruct line as [|[label| | |] [|[out| | |] [|? ?]]]; try reflexivity.
  cbn [printed_outputs]. now destruct (String.eqb label "Tool output (JSON):").
Qed.

Lemma printed_outputs_app (l1 l2 : list (list printable)) :
  printed_outputs (l1 ++ l2) = printed_outputs l1 ++ printed_outputs l2.
Proof.
  induction l1 as [|line l1 IH]; [reflexivity|].
  cbn [app]. rewrite printed_outputs_cons, (printed_outputs_cons line l1), IH.
  now rewrite app_assoc.
Qed.

(** The outputs the loop prints are the contents of the messages it
    adds. *)
Lemma cli_tool_loop_prints (s : script) (w : World) (calls : list tool_call) :
  forall acc msgs,
    fst (cli_tool_loop s w calls acc) = Ret msgs ->
    exists new,
      msgs = acc ++ new
      /\ printed_outputs (printed (snd (cli_tool_loop s w calls acc)))
         = map snd (tool_results new).
Proof.
  induction calls as [|call rest IH]; intros acc msgs.
  - intros H. inversion H; subst. exists []. now rewrite app_nil_r.
  - rewrite cli_tool_loop_cons. destruct (dispatched s call).
    + destruct (json_loads _) as [args|]; [|discriminate].
      destruct (argument_of s call) as [v|]; [|discriminate].
      destruct (executor s w v) as [[out|e] l] eqn:He; [|discriminate].
      destruct (executor_run _ _ _ _ _ He) as (_ & _ & P).
      cbn [fst snd]. intros H.
      destruct (IH _ _ H) as (new & -> & E).
      exists (tool_message call out :: new). rewrite <- app_assoc.
      split; [reflexivity|].
      cbn [printed]. rewrite printed_app, P. cbn [app printed].
      rewrite printed_outputs_cons, (printed_outputs_cons [_; PStr out]), E.
      reflexivity.
    + cbn [fst snd]. intros H. destruct (IH _ _ H) as (new & -> & E).
      exists new. split; [reflexivity|].
      cbn [printed]. now rewrite printed_outputs_cons, E.
Qed.

(** Around the loop a CLI script prints no output line. *)
Ltac outputs_simpl :=
  run_steps; cbn [fst snd print emit printed app];
  rewrite ?printed_app; cbn [fst snd print emit printed app];
  cbn [printed_outputs app]; rewrite ?printed_outputs_app;
  cbn [printed_outputs app]; rewrite ?app_nil_r.

Lemma cli_printed_outputs (s : script) (w : World) (q : string)
  (reply : chat_message) :
  s <> FastMcpServer ->
  chat_completions_create w (round_one s q) = Ret reply ->
  printed_outputs (printed (snd (orchestrate s w q)))
  = printed_outputs (printed (snd (tool_phase s w (tool_calls_or_empty reply)))).
Proof.
  intros Hs Hchat.
  destruct s; [| |congruence]; cbn [orchestrate round_one tool_phase] in *.
  - rewrite bind_ret_None. unfold groq_weather_function_call.call_model_with_tools.
    rewrite create_run, Hchat. run_steps. clear Hchat.
    destruct (tool_calls_or_empty reply) as [|c calls] eqn:Ec; [reflexivity|].
    rewrite groq_tool_loop.
    destruct (cli_tool_loop GroqCli w (c :: calls) []) as [[[|x msgs]|e] l].
    + outputs_simpl. reflexivity.
    + run_steps.
      destruct (chat_completions_create w _) as [final|e]; outputs_simpl;
        reflexivity.
    + outputs_simpl. reflexivity.
  - rewrite bind_ret_None. unfold openai_stock_function_call.call_model_with_tools.
    rewrite create_run, Hchat. run_steps. clear Hchat. rewrite openai_tool_loop.
    destruct (cli_tool_loop OpenAICli w (tool_calls_or_empty reply) [])
      as [[[|x msgs]|e] l].
    + outputs_simpl. reflexivity.
    + run_steps.
      destruct (chat_completions_create w _) as [final|e]; outputs_simpl;
        reflexivity.
    + outputs_simpl. reflexivity.
Qed.

(** X20.  In a CLI script, the contents of the tool-result messages of
    the second transport call are the outputs the run printed on its
    [Tool output (JSON):] lines, in the same order: the model is sent what
    the console shows, and nothing else. *)
Theorem printed_outputs_are_sent (s : script) (w : World) (q : string)
  (req : chat_request) :
  s <> FastMcpServer ->
  In req (transports (snd (orchestrate s w q))) ->
  req <> round_one s q ->
  map snd (tool_results (messages req))
  = printed_outputs (printed (snd (orchestrate s w q))).
Proof.
  intros Hs Hin Hne.
  destruct (run_cases s w q) as [(HT & _) | (reply & msgs & Hchat & Hp & _ & _ & HT & _)];
    rewrite HT in Hin.
  { destruct Hin as [<-|[]]. now destruct Hne. }
  destruct Hin as [<-|[<-|[]]]; [now destruct Hne|].
  rewrite messages_round_two, tool_results_extended.
  rewrite (cli_printed_outputs s w q reply Hs Hchat).
  destruct s; [| |congruence]; cbn [tool_phase] in *.
  all: destruct (cli_tool_loop_prints _ _ _ _ _ Hp) as (new & -> & E).
  all: now rewrite E.
Qed.

Lemma printed_outputs_are_sent_witness :
  let q := "Compare Bengaluru and Mumbai." in
  let w := two_cities_world (Some "key") in
  let out := request_failed (codes "Read timed out.") in
  map snd (tool_results
             (messages (round_two GroqCli q two_cities
                          [tool_message bengaluru_call out;
                           tool_message mumbai_call out])))
  = printed_outputs (printed (snd (orchestrate GroqCli w q))).
Proof.
  apply (printed_outputs_are_sent GroqCli (two_cities_world (Some "key"))
           "Compare Bengaluru and Mumbai.").
  - discriminate.
  - vm_compute. right. left. reflexivity.
  - discriminate.
Defined.

(** ** Requests to the data providers *)

(** The provider requests of the executions of a log, in order. *)
Lemma tool_loop_lookups (s : script) (w : World) (calls : list tool_call) :
  forall acc,
    lookups (snd (cli_tool_loop s w calls acc))
    = flat_map (fun cv => lookups (snd (executor s w (snd cv))))
               (executions (snd (cli_tool_loop s w calls acc))).
Proof.
  induction calls as [|call rest IH]; intros acc; [reflexivity|].
  rewrite cli_tool_loop_cons. destruct (dispatched s call).
  - destruct (json_loads _) as [args|]; [|reflexivity].
    destruct (argument_of s call) as [v|]; [|reflexivity].
    destruct (executor s w v) as [[out|e] l] eqn:He;
      destruct (executor_run _ _ _ _ _ He) as (_ & X & _);
      cbn [fst snd lookups executions].
    + rewrite lookups_app, executions_app, X. cbn [lookups executions app flat_map snd].
      now rewrite He, IH.
    + rewrite X. cbn [flat_map snd]. now rewrite He, app_nil_r.
  - cbn [fst snd lookups executions]. apply IH.
Qed.

Lemma tool_phase_lookups (s : script) (w : World) (calls : list tool_call) :
  lookups (snd (tool_phase s w calls))
  = flat_map (fun cv => lookups (snd (executor s w (snd cv))))
             (executions (snd (tool_phase s w calls))).
Proof.
  destruct s; cbn [tool_phase]; try apply tool_loop_lookups.
  destruct calls as [|call0 rest]; [reflexivity|]. unfold loads.
  destruct (json_loads (function_arguments call0)) as [args|]; [|reflexivity].
  rewrite bind_ret, call_with_kwargs_run.
  destruct args as [| | | | |[|[k v] [|? ?]]]; try reflexivity.
  destruct (pystr_eqb k (parameter FastMcpServer)); [|reflexivity].
  destruct (executor FastMcpServer w v) as [[out|e] l] eqn:He;
    destruct (executor_run _ _ _ _ _ He) as (_ & X & _); cbn [fst snd].
  - rewrite bind_Ret. cbn [fst snd ret]. rewrite app_nil_r.
    cbn [lookups executions flat_map snd]. now rewrite X, He, app_nil_r.
  - rewrite bind_Raise. cbn [fst snd lookups executions flat_map].
    now rewrite X, He, app_nil_r.
Qed.

Ltac lookups_simpl :=
  run_steps; cbn [fst snd print emit lookups app];
  rewrite ?lookups_app; cbn [fst snd print emit ret lookups app];
  rewrite ?app_nil_r.

Lemma orchestrate_lookups (s : script) (w : World) (q : string)
  (reply : chat_message) :
  chat_completions_create w (round_one s q) = Ret reply ->
  lookups (snd (orchestrate s w q))
  = lookups (snd (tool_phase s w (tool_calls_or_empty reply))).
Proof.
  intros Hchat.
  destruct s; cbn [orchestrate round_one tool_phase] in *.
  - rewrite bind_ret_None. unfold groq_weather_function_call.call_model_with_tools.
    rewrite create_run, Hchat. run_steps. clear Hchat.
    destruct (tool_calls_or_empty reply) as [|c calls] eqn:Ec; [reflexivity|].
    rewrite groq_tool_loop.
    destruct (cli_tool_loop GroqCli w (c :: calls) []) as [[[|x msgs]|e] l].
    + lookups_simpl. reflexivity.
    + run_steps.
      destruct (chat_completions_create w _) as [final|e]; lookups_simpl;
        reflexivity.
    + lookups_simpl. reflexivity.
  - rewrite bind_ret_None. unfold openai_stock_function_call.call_model_with_tools.
    rewrite create_run, Hchat. run_steps. clear Hchat. rewrite openai_tool_loop.
    destruct (cli_tool_loop OpenAICli w (tool_calls_or_empty reply) [])
      as [[[|x msgs]|e] l].
    + lookups_simpl. reflexivity.
    + run_steps.
      destruct (chat_completions_create w _) as [final|e]; lookups_simpl;
        reflexivity.
    + lookups_simpl. reflexivity.
  - unfold fastmcp_groq_weather_server.get_weather_with_groq.
    rewrite create_run, Hchat. run_steps. clear Hchat.
    destruct (tool_calls_or_empty reply) as [|call0 rest]; [reflexivity|].
    change (fastmcp_groq_weather_server.get_current_weather w)
      with (executor FastMcpServer w).
    change (codes "location") with (parameter FastMcpServer).
    unfold loads.
    destruct (json_loads (function_arguments call0)) as [args|]; [|reflexivity].
    rewrite !bind_ret.
    destruct (call_with_kwargs _ _ call0 args) as [[out|e] l1].
    2: { lookups_simpl. reflexivity. }
    run_steps.
    destruct (chat_completions_create w _) as [final|e]; lookups_simpl;
      reflexivity.
Qed.

(** X21.  A script contacts a data provider only while it executes a
    tool: the provider requests of a run are those of its executions, in
    order.  A run in which no tool is executed (the model asks for none,
    or for undeclared ones only, or the first call fails) makes no
    provider request. *)
Theorem lookups_belong_to_executions (s : script) (w : World) (q : string) :
  lookups (snd (orchestrate s w q))
  = flat_map (fun cv => lookups (snd (executor s w (snd cv))))
             (executions (snd (orchestrate s w q)))
  /\ (executions (snd (orchestrate s w q)) = [] ->
      lookups (snd (orchestrate s w q)) = []).
Proof.
  assert (E : lookups (snd (orchestrate s w q))
              = flat_map (fun cv => lookups (snd (executor s w (snd cv))))
                         (executions (snd (orchestrate s w q)))).
  { destruct (chat_completions_create w (round_one s q)) as [reply|e] eqn:Hchat.
    - destruct (orchestrate_shape s w q reply Hchat) as (HX & _).
      rewrite HX, (orchestrate_lookups s w q reply Hchat).
      apply tool_phase_lookups.
    - now rewrite (orchestrate_no_reply _ _ _ _ Hchat). }
  split; [exact E|]. intros H. now rewrite E, H.
Qed.
